(** * Favs Bling storefront: session, role and cart consistency

    A shallow embedding of the session/cart logic of [src/api.js]
    (classes [FavsBlingStore] and [AuthManager]) together with the
    properties the specification states about it.

    JavaScript objects become records, the cart array a [list], the
    product catalogue its own properties in the order JavaScript lists
    them, the remote document store and [localStorage] finite maps keyed
    by strings.  [async] methods become tasks that stop
    at each [await]; an event loop resumes them, so that a logout can run
    between the two halves of a cart load exactly as in the browser. *)

From Stdlib Require Import ZArith String Ascii List Bool Lia.
From stdpp Require Import base option list strings gmap pretty.

Open Scope Z_scope.
Open Scope string_scope.

(** ** Data model *)

(** The identity delivered by the identity provider ([user.uid],
    [user.email]). *)
Record User := mkUser { uid : string; email : string }.

(** A catalogue entry, see [getDefaultProducts] and [handleAddItem].
    Services carry no [stock] property. *)
Record Product := mkProduct {
  id : Z;
  name : string;
  price : Z;
  image_url : string;
  category : string;
  description : string;
  stock : option Z
}.

(** A cart line is built by [{...product, quantity: 1}]: a copy of the
    product's properties plus [quantity]. *)
Record CartItem := mkCartItem { snapshot : Product; quantity : Z }.

Definition item_id (i : CartItem) : Z := id (snapshot i).

Definition set_quantity (q : Z) (i : CartItem) : CartItem :=
  {| snapshot := snapshot i; quantity := q |}.

#[global] Instance User_eq_dec : EqDecision User.
Proof. solve_decision. Defined.
#[global] Instance Product_eq_dec : EqDecision Product.
Proof. solve_decision. Defined.
#[global] Instance CartItem_eq_dec : EqDecision CartItem.
Proof. solve_decision. Defined.

(** ** JSON values and [JSON.stringify] *)

#[local] Unset Elimination Schemes.
Inductive JSON :=
| JNull
| JBool (b : bool)
| JNum (z : Z)
| JStr (s : string)
| JArr (elems : list JSON)
| JObj (fields : list (string * JSON)).
#[local] Set Elimination Schemes.

Definition dquote : ascii := "034"%char.
Definition backslash : ascii := "092"%char.

Definition hex_digit (n : N) : ascii :=
  if (n <? 10)%N then ascii_of_N (48 + n) else ascii_of_N (87 + n).

(** One code unit of [QuoteJSONString]. *)
Definition quote_char (c : ascii) : string :=
  let n := N_of_ascii c in
  if (n =? 8)%N then String backslash "b"
  else if (n =? 9)%N then String backslash "t"
  else if (n =? 10)%N then String backslash "n"
  else if (n =? 12)%N then String backslash "f"
  else if (n =? 13)%N then String backslash "r"
  else if (n =? 34)%N then String backslash (String dquote EmptyString)
  else if (n =? 92)%N then String backslash (String backslash EmptyString)
  else if (n <? 32)%N then
    String backslash ("u00" ++ String (hex_digit (n / 16)) (String (hex_digit (n mod 16)) EmptyString))
  else String c EmptyString.

Fixpoint quote_body (s : string) : string :=
  match s with
  | EmptyString => EmptyString
  | String c s' => quote_char c ++ quote_body s'
  end.

Definition quote_string (s : string) : string :=
  String dquote (quote_body s ++ String dquote EmptyString).

Definition join_comma (parts : list string) : string :=
  match parts with
  | [] => EmptyString
  | p :: ps => fold_left (fun acc q => acc ++ "," ++ q) ps p
  end.

(** Numbers are the integers of the data model; [JSON.stringify] writes
    them in plain decimal. *)
Fixpoint JSON_stringify (j : JSON) : string :=
  match j with
  | JNull => "null"
  | JBool true => "true"
  | JBool false => "false"
  | JNum z => pretty z
  | JStr s => quote_string s
  | JArr elems => "[" ++ join_comma (map JSON_stringify elems) ++ "]"
  | JObj fields =>
      "{" ++ join_comma
               (map (fun kv => quote_string (fst kv) ++ ":" ++ JSON_stringify (snd kv)) fields)
          ++ "}"
  end.

Arguments JSON_stringify : simpl never.

Definition Product_fields (p : Product) : list (string * JSON) :=
  [("id", JNum (id p)); ("name", JStr (name p)); ("price", JNum (price p));
   ("image_url", JStr (image_url p)); ("category", JStr (category p));
   ("description", JStr (description p))]
  ++ match stock p with Some s => [("stock", JNum s)] | None => [] end.

Definition CartItem_json (i : CartItem) : JSON :=
  JObj (Product_fields (snapshot i) ++ [("quantity", JNum (quantity i))]).

Definition cart_json (c : list CartItem) : JSON := JArr (map CartItem_json c).
Arguments cart_json : simpl never.

(** ** The catalogue

    [this.products] is a plain object used as a map from category to
    items.  Its own properties are kept in the order in which
    [Object.values] and [JSON.stringify] list them: first the keys that
    are array indices, by increasing index, then the other keys in the
    order in which they were created. *)
Record Catalogue := mkCatalogue { entries : list (string * list Product) }.

Definition is_digit (c : ascii) : bool :=
  let n := N_of_ascii c in ((48 <=? n) && (n <=? 57))%N.

Fixpoint digits_value (s : string) (acc : N) : option N :=
  match s with
  | EmptyString => Some acc
  | String c s' =>
      if is_digit c then digits_value s' (10 * acc + (N_of_ascii c - 48))%N else None
  end.

(** A key is an array index when it is the decimal writing, without a
    leading zero, of an integer below 2^32 - 1. *)
Definition array_index (key : string) : option N :=
  match key with
  | EmptyString => None
  | String c rest =>
      if Ascii.eqb c "0" && negb (String.eqb rest EmptyString) then None
      else match digits_value key 0 with
           | Some n => if (n <? 4294967295)%N then Some n else None
           | None => None
           end
  end.

(** Whether a key that is being created is listed before an existing one. *)
Definition listed_before (created existing : string) : bool :=
  match array_index created, array_index existing with
  | Some n, Some m => (n <? m)%N
  | Some _, None => true
  | None, _ => false
  end.

(** [object[key]] for an own property. *)
Fixpoint own_property (key : string) (es : list (string * list Product))
  : option (list Product) :=
  match es with
  | [] => None
  | (k, v) :: es' => if String.eqb k key then Some v else own_property key es'
  end.

(** [object[key] = value] for a key the object has: the property keeps
    its place. *)
Fixpoint replace_property (key : string) (value : list Product)
    (es : list (string * list Product)) : list (string * list Product) :=
  match es with
  | [] => []
  | (k, v) :: es' =>
      if String.eqb k key then (k, value) :: es'
      else (k, v) :: replace_property key value es'
  end.

(** [object[key] = value] for a key the object does not have. *)
Fixpoint create_property (key : string) (value : list Product)
    (es : list (string * list Product)) : list (string * list Product) :=
  match es with
  | [] => [(key, value)]
  | (k, v) :: es' =>
      if listed_before key k then (key, value) :: (k, v) :: es'
      else (k, v) :: create_property key value es'
  end.

#[global] Instance Catalogue_lookup : Lookup string (list Product) Catalogue :=
  fun key ps => match ps with mkCatalogue es => own_property key es end.

#[global] Instance Catalogue_insert : Insert string (list Product) Catalogue :=
  fun key value ps =>
    match ps with
    | mkCatalogue es =>
        mkCatalogue match own_property key es with
                    | Some _ => replace_property key value es
                    | None => create_property key value es
                    end
    end.

(** ** Orders and customers *)

(** The body of the backend's answer to [POST /verify-payment]. *)
Record VerificationResult := mkVerificationResult {
  success : bool;
  message : option string;
  data : option JSON
}.

(** The order object literal of [handlePaymentSuccess]. *)
Record Order := mkOrder {
  order_id : string;
  customerEmail : string;
  customerName : string;
  customerPhone : string;
  deliveryAddress : string;
  items : list CartItem;
  total : Z;
  status : string;
  date : string;
  paymentMethod : string;
  verified : bool;
  verificationData : option JSON;
  backendVerified : bool
}.

(** A customer as [addCustomer] and [updateCustomerStats] read it: the
    properties [id], [email], [orders] and [totalSpent], an object being
    taken to carry them in this order. *)
Record Customer := mkCustomer {
  customer_id : string;
  customer_email : string;
  customer_orders : Z;
  totalSpent : Z
}.

Definition Order_json (o : Order) : JSON :=
  JObj ([("id", JStr (order_id o)); ("customerEmail", JStr (customerEmail o));
         ("customerName", JStr (customerName o)); ("customerPhone", JStr (customerPhone o));
         ("deliveryAddress", JStr (deliveryAddress o)); ("items", cart_json (items o));
         ("total", JNum (total o)); ("status", JStr (status o)); ("date", JStr (date o));
         ("paymentMethod", JStr (paymentMethod o)); ("verified", JBool (verified o))]
        ++ match verificationData o with Some d => [("verificationData", d)] | None => [] end
        ++ [("backendVerified", JBool (backendVerified o))]).

Definition Customer_json (c : Customer) : JSON :=
  JObj [("id", JStr (customer_id c)); ("email", JStr (customer_email c));
        ("orders", JNum (customer_orders c)); ("totalSpent", JNum (totalSpent c))].

(** ** The world: the two components, the page and the environment *)

(** The fields of [FavsBlingStore] that the session and cart logic
    reads or writes. *)
Record Store := mkStore {
  products : Catalogue;
  cart : list CartItem;
  orders : list Order;
  customers : list Customer;
  adminEmail : string;
  currentUser : option User;
  isAdmin : bool
}.

(** [AuthManager] keeps its own copy of the session; [ADMIN_EMAIL] is the
    module-level variable it compares against. *)
Record Auth := mkAuth {
  am_currentUser : option User;
  am_isAdmin : bool;
  ADMIN_EMAIL : string
}.

(** A JavaScript exception value: [error.name] and [error.message]. *)
Record Error := mkError { error_name : string; error_message : string }.

(** What the user is shown: [showNotification(message, type)] calls in
    order, whether the authentication overlay is open, and the
    [console.error(label, error)] reports. *)
Record Page := mkPage {
  notifications : list (string * string);
  authOverlay : bool;
  console_error : list (string * Error)
}.

(** Everything the client code can only reach through a call: the remote
    document store, [localStorage] (which throws when full), the answer
    the user gives to [confirm], the verification backend and the clock. *)
Record Env := mkEnv {
  remote : gmap string (list CartItem);
  localStorage : gmap string string;
  storage_full : bool;
  confirm_reply : bool;
  backend_verify : string -> option VerificationResult;
  now : string
}.

Record World := mkWorld { store : Store; auth : Auth; page : Page; env : Env }.

Definition set_cart (c : list CartItem) (s : Store) : Store :=
  mkStore (products s) c (orders s) (customers s) (adminEmail s) (currentUser s) (isAdmin s).
Definition set_orders (o : list Order) (s : Store) : Store :=
  mkStore (products s) (cart s) o (customers s) (adminEmail s) (currentUser s) (isAdmin s).
Definition set_customers (c : list Customer) (s : Store) : Store :=
  mkStore (products s) (cart s) (orders s) c (adminEmail s) (currentUser s) (isAdmin s).
Definition set_currentUser (u : option User) (s : Store) : Store :=
  mkStore (products s) (cart s) (orders s) (customers s) (adminEmail s) u (isAdmin s).
Definition set_isAdmin (b : bool) (s : Store) : Store :=
  mkStore (products s) (cart s) (orders s) (customers s) (adminEmail s) (currentUser s) b.

Definition set_am_currentUser (u : option User) (a : Auth) : Auth :=
  mkAuth u (am_isAdmin a) (ADMIN_EMAIL a).
Definition set_am_isAdmin (b : bool) (a : Auth) : Auth :=
  mkAuth (am_currentUser a) b (ADMIN_EMAIL a).

Definition set_notifications (n : list (string * string)) (p : Page) : Page :=
  mkPage n (authOverlay p) (console_error p).
Definition set_authOverlay (b : bool) (p : Page) : Page :=
  mkPage (notifications p) b (console_error p).
Definition set_console_error (c : list (string * Error)) (p : Page) : Page :=
  mkPage (notifications p) (authOverlay p) c.

Definition set_remote (r : gmap string (list CartItem)) (e : Env) : Env :=
  mkEnv r (localStorage e) (storage_full e) (confirm_reply e) (backend_verify e) (now e).
Definition set_localStorage (l : gmap string string) (e : Env) : Env :=
  mkEnv (remote e) l (storage_full e) (confirm_reply e) (backend_verify e) (now e).

Definition on_store (f : Store -> Store) (w : World) : World :=
  mkWorld (f (store w)) (auth w) (page w) (env w).
Definition on_auth (f : Auth -> Auth) (w : World) : World :=
  mkWorld (store w) (f (auth w)) (page w) (env w).
Definition on_page (f : Page -> Page) (w : World) : World :=
  mkWorld (store w) (auth w) (f (page w)) (env w).
Definition on_env (f : Env -> Env) (w : World) : World :=
  mkWorld (store w) (auth w) (page w) (f (env w)).

(** ** Asynchronous tasks *)

Record HttpResponse := mkHttpResponse { parsed_body : option VerificationResult }.

(** The calls whose result is awaited. *)
Inductive Request :=
| RemoteOnce (path : string)
| RemoteSet (path : string) (value : list CartItem)
| FetchVerifyPayment (reference : string)
| ResponseJson (response : HttpResponse).

Definition Reply (rq : Request) : Type :=
  match rq with
  | RemoteOnce _ => option (list CartItem)
  | RemoteSet _ _ => unit
  | FetchVerifyPayment _ => HttpResponse
  | ResponseJson _ => VerificationResult
  end.

Inductive Settled (R : Type) := Fulfilled (r : R) | Rejected (e : Error).
Arguments Fulfilled {R} r.
Arguments Rejected {R} e.

Inductive Outcome (A : Type) := Returned (a : A) | Thrown (e : Error).
Arguments Returned {A} a.
Arguments Thrown {A} e.

(** A task is either finished or parked at an [await]; resuming it with
    the settled promise runs the code up to the next [await] on whatever
    the world is by then. *)
#[local] Unset Elimination Schemes.
Inductive Task (A : Type) :=
| Fin (o : Outcome A)
| Await (rq : Request) (k : Settled (Reply rq) -> World -> World * Task A).
#[local] Set Elimination Schemes.
Arguments Fin {A} o.
Arguments Await {A} rq k.

Definition M (A : Type) : Type := World -> World * Task A.

Definition ret {A} (a : A) : M A := fun w => (w, Fin (Returned a)).
Definition throw {A} (e : Error) : M A := fun w => (w, Fin (Thrown e)).

Fixpoint bind_task {A B} (t : Task A) (f : A -> M B) (w : World) : World * Task B :=
  match t with
  | Fin (Returned a) => f a w
  | Fin (Thrown e) => (w, Fin (Thrown e))
  | Await rq k =>
      (w, Await rq (fun r w' => let (w'', t') := k r w' in bind_task t' f w''))
  end.

Definition bind {A B} (m : M A) (f : A -> M B) : M B :=
  fun w => let (w', t) := m w in bind_task t f w'.

(** [try { body } catch (error) { handler }] *)
Fixpoint catch_task {A} (t : Task A) (h : Error -> M A) (w : World) : World * Task A :=
  match t with
  | Fin (Returned a) => (w, Fin (Returned a))
  | Fin (Thrown e) => h e w
  | Await rq k =>
      (w, Await rq (fun r w' => let (w'', t') := k r w' in catch_task t' h w''))
  end.

Definition try_catch {A} (body : M A) (h : Error -> M A) : M A :=
  fun w => let (w', t) := body w in catch_task t h w'.

(** [await p]: park; a rejected promise throws at the [await]. *)
Definition await (rq : Request) : M (Reply rq) :=
  fun w => (w, Await rq (fun r w' =>
    (w', match r with Fulfilled v => Fin (Returned v) | Rejected e => Fin (Thrown e) end))).

Definition gets {A} (f : World -> A) : M A := fun w => (w, Fin (Returned (f w))).
Definition modify (f : World -> World) : M unit := fun w => (f w, Fin (Returned tt)).

#[global] Instance M_ret : MRet M := @ret.
#[global] Instance M_bind : MBind M := fun A B f m => bind m f.

(** ** The environment's side of an awaited call

    [fault] is what the network does to the call: [None] lets it through,
    [Some e] rejects the promise with [e].  A read fulfils with the record
    stored at the path, if any ([snapshot.exists()] / [snapshot.val()]); a
    write that goes through replaces the record at the path. *)
Definition serve (rq : Request) (fault : option Error) (w : World)
  : World * Settled (Reply rq) :=
  match fault with
  | Some e => (w, Rejected e)
  | None =>
      match rq return World * Settled (Reply rq) with
      | RemoteOnce path => (w, Fulfilled (remote (env w) !! path))
      | RemoteSet path value =>
          (on_env (fun e => set_remote (<[path := value]> (remote e)) e) w, Fulfilled tt)
      | FetchVerifyPayment reference =>
          (w, Fulfilled (mkHttpResponse (backend_verify (env w) reference)))
      | ResponseJson response =>
          match parsed_body response with
          | Some r => (w, Fulfilled r)
          | None => (w, Rejected (mkError "SyntaxError" "Unexpected token in JSON"))
          end
      end
  end.

(** The result of running a task with every [await] settled at once, in
    order, nothing else running in between.  [faults] gives the fate of
    the first, second, ... awaited call; past its end the calls go
    through. *)
Record Run (A : Type) := mkRun {
  final : World;
  outcome : Outcome A;
  calls : list Request
}.
Arguments mkRun {A} final outcome calls.
Arguments final {A} r.
Arguments outcome {A} r.
Arguments calls {A} r.

Fixpoint run_task {A} (t : Task A) (faults : list (option Error)) (w : World) : Run A :=
  match t with
  | Fin o => mkRun w o []
  | Await rq k =>
      let (w1, r) := serve rq (hd None faults) w in
      let (w2, t') := k r w1 in
      let rest := run_task t' (tl faults) w2 in
      mkRun (final rest) (outcome rest) (rq :: calls rest)
  end.

Definition run {A} (m : M A) (faults : list (option Error)) (w : World) : Run A :=
  let (w', t) := m w in run_task t faults w'.

(** ** Helpers shared by both components *)

Definition lower_char (c : ascii) : ascii :=
  let n := N_of_ascii c in
  if ((65 <=? n) && (n <=? 90))%N then ascii_of_N (n + 32) else c.

(** [String.prototype.toLowerCase] on ASCII text. *)
Fixpoint toLowerCase (s : string) : string :=
  match s with
  | EmptyString => EmptyString
  | String c s' => String (lower_char c) (toLowerCase s')
  end.

(** [showNotification(message, type)] *)
Definition showNotification (message type : string) : M unit :=
  modify (on_page (fun p => set_notifications (notifications p ++ [(message, type)]) p)).

(** [window.authManager.showAuthOverlay()] *)
Definition showAuthOverlay : M unit := modify (on_page (set_authOverlay true)).

(** [console.error(label, error)] *)
Definition console_report (label : string) (error : Error) : M unit :=
  modify (on_page (fun p => set_console_error (console_error p ++ [(label, error)]) p)).

(** [localStorage.setItem(key, value)] *)
Definition localStorage_setItem (key value : string) : M unit :=
  full ← gets (fun w => storage_full (env w));
  if (full : bool)
  then throw (mkError "QuotaExceededError" "The quota has been exceeded.")
  else modify (on_env (fun e => set_localStorage (<[key := value]> (localStorage e)) e)).

Definition null_property (prop : string) : Error :=
  mkError "TypeError" ("Cannot read properties of null (reading '" ++ prop ++ "')").
Definition undefined_property (prop : string) : Error :=
  mkError "TypeError" ("Cannot read properties of undefined (reading '" ++ prop ++ "')").

(** ** class FavsBlingStore

    Calls that only draw ([updateCartDisplay], [updateAuthUI],
    [loadProducts], [showSection], [showAdminInterface],
    [hideAdminInterface], [generateReceipt], [showSuccessModal],
    [updateAdminStats]) write the DOM and nothing of the world above; they
    appear as comments at the place of the call.  The page is taken to
    hold the elements they look up, and [window.authManager] and
    [window.store] to be set.  [console.log] traces are left out;
    [console.error] reports are kept. *)
Module FavsBlingStore.

(** [requireAuthForAction(action)] *)
Definition requireAuthForAction (action : string) : M bool :=
  u ← gets (fun w => currentUser (store w));
  match u with
  | None =>
      showNotification ("🔐 Please log in to " ++ action) "info";;
      showAuthOverlay;;
      mret false
  | Some _ => mret true
  end.

(** [async loadUserCart()] *)
Definition loadUserCart : M unit :=
  u ← gets (fun w => currentUser (store w));
  match u with
  | None => mret tt
  | Some user =>
      try_catch
        (snapshot ← await (RemoteOnce ("carts/" ++ uid user));
         match snapshot with
         | Some val => modify (on_store (set_cart val))
         | None => modify (on_store (set_cart []))
         end)
        (fun error =>
           console_report "Error loading user cart:" error;;
           modify (on_store (set_cart [])))
  end.

(** [async saveCart()] *)
Definition saveCart : M unit :=
  u ← gets (fun w => currentUser (store w));
  match u with
  | None => mret tt
  | Some user =>
      try_catch
        (c ← gets (fun w => cart (store w));
         await (RemoteSet ("carts/" ++ uid user) c);;
         mret tt)
        (fun error =>
           console_report "Error saving user cart to Firebase:" error;;
           try_catch
             (u' ← gets (fun w => currentUser (store w));
              match u' with
              | None => throw (null_property "uid")
              | Some user' =>
                  c' ← gets (fun w => cart (store w));
                  localStorage_setItem ("favsCart_" ++ uid user')
                                       (JSON_stringify (cart_json c'))
              end)
             (fun localError =>
                console_report "Error saving to localStorage:" localError))
  end.

(** [async handleUserLogin(user)] *)
Definition handleUserLogin (user : User) : M unit :=
  modify (on_store (set_currentUser (Some user)));;
  admin ← gets (fun w => adminEmail (store w));
  modify (on_store (set_isAdmin
    (String.eqb (toLowerCase (email user)) (toLowerCase admin))));;
  loadUserCart;;
  (* loadProducts(); updateCartDisplay(); updateAuthUI(user); *)
  isAdm ← gets (fun w => isAdmin (store w));
  if (isAdm : bool)
  then showNotification "👑 Welcome Admin! Dashboard activated." "success"
       (* showAdminInterface(); setTimeout(() => showSection('admin'), 1000) *)
  else showNotification ("👋 Welcome " ++ email user ++ "!") "success"
       (* showSection('home') *).

(** [handleUserLogout()]: not [async], it runs to its end in one go. *)
Definition handleUserLogout (w : World) : World :=
  let w := on_store (set_currentUser None) w in
  let w := on_store (set_isAdmin false) w in
  let w := on_store (set_cart []) w in
  (* hideAdminInterface(); updateAuthUI(null); updateCartDisplay();
     showSection('home') *)
  w.

(** [async addToCart(productId, category)] *)
Definition addToCart (productId : Z) (category : string) : M unit :=
  ok ← requireAuthForAction "add items to cart";
  if negb ok then mret tt
  else
    ps ← gets (fun w => products (store w));
    match ps !! category with
    | None => throw (undefined_property "find")
    | Some in_category =>
        match List.find (fun p => (id p =? productId)%Z) in_category with
        | None => mret tt
        | Some product =>
            c ← gets (fun w => cart (store w));
            match list_find (fun item => item_id item = productId) c with
            | Some (i, existingItem) =>
                modify (on_store (set_cart
                  (<[i := set_quantity (quantity existingItem + 1) existingItem]> c)))
            | None =>
                modify (on_store (set_cart (c ++ [mkCartItem product 1])))
            end;;
            saveCart;;
            (* updateCartDisplay(); *)
            showNotification ("✅ Added " ++ name product ++ " to cart!") "success"
        end
    end.

(** [async removeFromCart(productId)] *)
Definition removeFromCart (productId : Z) : M unit :=
  u ← gets (fun w => currentUser (store w));
  match u with
  | None => showNotification "Please log in to manage cart" "error"
  | Some _ =>
      modify (on_store (fun s =>
        set_cart (filter (fun item => item_id item ≠ productId) (cart s)) s));;
      saveCart;;
      (* updateCartDisplay(); *)
      showNotification "🗑️ Item removed from cart" "info"
  end.

(** [async updateQuantity(productId, change)] *)
Definition updateQuantity (productId change : Z) : M unit :=
  u ← gets (fun w => currentUser (store w));
  match u with
  | None => showNotification "Please log in to manage cart" "error"
  | Some _ =>
      c ← gets (fun w => cart (store w));
      match list_find (fun item => item_id item = productId) c with
      | Some (i, item) =>
          let q := quantity item + change in
          modify (on_store (set_cart (<[i := set_quantity q item]> c)));;
          if (q <=? 0)%Z
          then removeFromCart productId
          else saveCart (* ;; updateCartDisplay() *)
      | None => mret tt
      end
  end.

(** [async clearCart()] *)
Definition clearCart : M unit :=
  u ← gets (fun w => currentUser (store w));
  match u with
  | None => showNotification "Please log in to manage cart" "error"
  | Some _ =>
      c ← gets (fun w => cart (store w));
      if (length c =? 0)%nat
      then showNotification "🛒 Cart is already empty" "info"
      else
        yes ← gets (fun w => confirm_reply (env w));
        if (yes : bool)
        then
          modify (on_store (set_cart []));;
          saveCart;;
          (* updateCartDisplay(); *)
          showNotification "🛒 Cart cleared successfully" "success"
        else mret tt
  end.

(** [saveOrders()] and [saveCustomers()] *)
Definition saveOrders : M unit :=
  os ← gets (fun w => orders (store w));
  localStorage_setItem "favsOrders" (JSON_stringify (JArr (map Order_json os))).

Definition saveCustomers : M unit :=
  cs ← gets (fun w => customers (store w));
  localStorage_setItem "favsCustomers" (JSON_stringify (JArr (map Customer_json cs))).

(** [updateCustomerStats(email, amount)] *)
Definition updateCustomerStats (mail : string) (amount : Z) : M unit :=
  cs ← gets (fun w => customers (store w));
  match list_find (fun c => customer_email c = mail) cs with
  | Some (i, customer) =>
      modify (on_store (set_customers
        (<[i := mkCustomer (customer_id customer) (customer_email customer)
                           (customer_orders customer + 1)
                           (totalSpent customer + amount)]> cs)));;
      saveCustomers
  | None => mret tt
  end.

(** [async handlePaymentSuccess(reference, email, total, name, phone, address)] *)
Definition handlePaymentSuccess
    (reference mail : string) (amount : Z) (customer phone address : string) : M unit :=
  try_catch
    (showNotification "🔍 Verifying payment with secure backend..." "info";;
     verificationResponse ← await (FetchVerifyPayment reference);
     verificationResult ← await (ResponseJson verificationResponse);
     if negb (success verificationResult)
     then throw (mkError "Error"
                   match message verificationResult with
                   | Some m => if String.eqb m EmptyString then "Payment verification failed" else m
                   | None => "Payment verification failed"
                   end)
     else
       showNotification "✅ Payment verified securely!" "success";;
       c ← gets (fun w => cart (store w));
       today ← gets (fun w => now (env w));
       let order :=
         {| order_id := reference; customerEmail := mail; customerName := customer;
            customerPhone := phone; deliveryAddress := address; items := c;
            total := amount; status := "paid"; date := today;
            paymentMethod := "paystack"; verified := true;
            verificationData := data verificationResult; backendVerified := true |} in
       modify (on_store (fun s => set_orders (orders s ++ [order]) s));;
       saveOrders;;
       updateCustomerStats mail amount;;
       (* generateReceipt(reference, email, total); *)
       modify (on_store (set_cart []));;
       saveCart;;
       (* updateCartDisplay(); showSuccessModal(); *)
       showNotification "🎉 Payment verified and completed successfully!" "success"
       (* checkoutForm.reset(); if (this.isAdmin) updateAdminStats(); *))
    (fun error =>
       console_report "❌ Payment verification error:" error;;
       showNotification ("❌ Payment verification failed: " ++ error_message error) "error";;
       showNotification "🛒 Items kept in cart for retry" "info").

(** [forceAdminMode()], the testing hook behind [window.forceAdmin]. *)
Definition forceAdminMode : M unit :=
  modify (on_store (set_isAdmin true));;
  (* showAdminInterface(); showSection('admin'); *)
  showNotification "🔧 Admin mode forced for testing" "warning".

End FavsBlingStore.

(** ** class AuthManager *)
Module AuthManager.

(** [handleUserLogin(user)].  The call into the store is not awaited:
    the store's promise is left running and the greeting below is shown
    before the cart load settles. *)
Definition handleUserLogin (user : User) (w : World) : World * Task unit :=
  let w := on_auth (set_am_currentUser (Some user)) w in
  let w := on_auth (fun a => set_am_isAdmin
             (String.eqb (toLowerCase (email user)) (toLowerCase (ADMIN_EMAIL a))) a) w in
  (* showMainWebsite(); updateAuthUI(user); *)
  let w := on_page (set_authOverlay false) w in
  let (w, detached) := FavsBlingStore.handleUserLogin user w in
  let w :=
    if am_isAdmin (auth w)
    then fst (showNotification "👑 Welcome Admin! Dashboard activated." "success" w)
         (* showAdminInterface() *)
    else fst (showNotification ("👋 Welcome " ++ email user ++ "!") "success" w)
         (* hideAdminInterface() *) in
  (w, detached).

(** [handleUserLogout()] *)
Definition handleUserLogout (w : World) : World :=
  let w := on_auth (set_am_currentUser None) w in
  let w := on_auth (set_am_isAdmin false) w in
  (* updateAuthUI(null); *)
  let w := FavsBlingStore.handleUserLogout w in
  (* hideAdminInterface(); *)
  w.

(** The listener registered in [init()] with [auth.onAuthStateChanged]. *)
Definition onAuthStateChanged (user : option User) (w : World) : World * Task unit :=
  match user with
  | Some u => handleUserLogin u w
  | None => (handleUserLogout w, Fin (Returned tt))
  end.

End AuthManager.

(** ** The event loop

    One event runs to its end before the next starts.  An event is the
    identity provider reporting a change, a handler of the page calling a
    method of the store, or a parked promise being settled. *)
Inductive Event :=
| AuthStateChanged (user : option User)
| Invoke (method : M unit)
| Settle (i : nat) (fault : option Error).

Record Machine := mkMachine { world : World; parked : list (Task unit) }.

Definition park (t : Task unit) (ts : list (Task unit)) : list (Task unit) :=
  match t with
  | Fin _ => ts
  | Await _ _ => ts ++ [t]
  end.

Definition step (mc : Machine) (ev : Event) : Machine :=
  match ev with
  | AuthStateChanged user =>
      let (w, t) := AuthManager.onAuthStateChanged user (world mc) in
      mkMachine w (park t (parked mc))
  | Invoke method =>
      let (w, t) := method (world mc) in
      mkMachine w (park t (parked mc))
  | Settle i fault =>
      match parked mc !! i with
      | Some (Await rq k) =>
          let (w1, r) := serve rq fault (world mc) in
          let (w2, t) := k r w1 in
          mkMachine w2 (park t (delete i (parked mc)))
      | _ => mc
      end
  end.

Definition steps (mc : Machine) (evs : list Event) : Machine := fold_left step evs mc.

(** ** A concrete page

    The catalogue of [getDefaultProducts], the fallback configuration of
    [config-secure.js], nobody signed in and an empty remote store. *)
Definition default_clothing : list Product :=
  [ mkProduct 1 "Designer T-Shirt" 4500
      "https://images.unsplash.com/photo-1521572163474-6864f9cf17ab?w=400" "clothing"
      "Premium quality cotton t-shirt with unique design" (Some 50);
    mkProduct 2 "Casual Dress" 8500
      "https://images.unsplash.com/photo-1595777457583-95e059d581b8?w=400" "clothing"
      "Elegant casual dress for everyday wear" (Some 30);
    mkProduct 3 "Denim Jeans" 6500
      "https://images.unsplash.com/photo-1542272604-787c3835535d?w=400" "clothing"
      "Comfortable denim jeans perfect for casual wear" (Some 25);
    mkProduct 4 "Summer Blouse" 5500
      "https://images.unsplash.com/photo-1594633312681-425c7b97ccd1?w=400" "clothing"
      "Light and breezy summer blouse" (Some 40) ].

Definition default_service : list Product :=
  [ mkProduct 101 "Classic Manicure" 2500
      "https://images.unsplash.com/photo-1604654894610-df63bc536371?w=400" "service"
      "Professional classic manicure with nail care" None;
    mkProduct 102 "Gel Nails" 4500
      "https://images.unsplash.com/photo-1607778784676-3ed1c2b6e335?w=400" "service"
      "Long-lasting gel nail polish application" None;
    mkProduct 103 "Nail Art Design" 3500
      "https://images.unsplash.com/photo-1577083552431-6e5fd01988a3?w=400" "service"
      "Custom nail art designs and patterns" None;
    mkProduct 104 "Spa Pedicure" 5000
      "https://images.unsplash.com/photo-1519415510236-718bdfcd89c8?w=400" "service"
      "Relaxing spa pedicure with foot massage" None ].

Definition getDefaultProducts : Catalogue :=
  mkCatalogue [("clothing", default_clothing); ("service", default_service)].

Definition fallback_ADMIN_EMAIL : string := "admin@favsbling.com".

Definition fresh_world : World :=
  {| store := {| products := getDefaultProducts; cart := []; orders := []; customers := [];
                 adminEmail := fallback_ADMIN_EMAIL; currentUser := None; isAdmin := false |};
     auth := {| am_currentUser := None; am_isAdmin := false;
                ADMIN_EMAIL := fallback_ADMIN_EMAIL |};
     page := {| notifications := []; authOverlay := false; console_error := [] |};
     env := {| remote := ∅; localStorage := ∅; storage_full := false; confirm_reply := true;
               backend_verify := fun _ => None; now := "2024-01-01T00:00:00.000Z" |} |}.

Definition fresh_machine : Machine := mkMachine fresh_world [].

Definition user1 : User := mkUser "user1" "a@b.com".

Definition network_down : Error := mkError "Error" "Network request failed".

(** * Vocabulary of the properties *)

(** ** Predicates on tasks *)

Fixpoint Task_induction {A} (P : Task A -> Prop)
    (HFin : forall o, P (Fin o))
    (HAwait : forall rq k, (forall r w, P (snd (k r w))) -> P (Await rq k))
    (t : Task A) : P t :=
  match t with
  | Fin o => HFin o
  | Await rq k => HAwait rq k (fun r w => Task_induction P HFin HAwait (snd (k r w)))
  end.

(** However and whenever the task is resumed, it leaves the fields of the
    store as it finds them. *)
Fixpoint keeps_store {A} (t : Task A) : Prop :=
  match t with
  | Fin _ => True
  | Await rq k => forall r w, store (fst (k r w)) = store w /\ keeps_store (snd (k r w))
  end.

(** However and whenever the task is resumed, it ends by returning: the
    promise of the [async] method is never rejected. *)
Fixpoint never_throws {A} (t : Task A) : Prop :=
  match t with
  | Fin (Returned _) => True
  | Fin (Thrown _) => False
  | Await rq k => forall r w, never_throws (snd (k r w))
  end.

(** The four cart mutators, as one type of call. *)
Inductive Mutator :=
| MAddToCart (productId : Z) (category : string)
| MRemoveFromCart (productId : Z)
| MUpdateQuantity (productId change : Z)
| MClearCart.

Definition mutator (mu : Mutator) : M unit :=
  match mu with
  | MAddToCart p c => FavsBlingStore.addToCart p c
  | MRemoveFromCart p => FavsBlingStore.removeFromCart p
  | MUpdateQuantity p d => FavsBlingStore.updateQuantity p d
  | MClearCart => FavsBlingStore.clearCart
  end.

(** The cart invariant: at most one line per product id, and every
    quantity at least 1. *)
Definition cart_ok (c : list CartItem) : Prop :=
  NoDup (item_id <$> c) /\ Forall (fun line => 1 <= quantity line) c.

(** What a signed-in customer can do to the cart from the page, and the
    network settling one of the saves in flight. *)
Inductive CartEvent :=
| DoAddToCart (productId : Z) (category : string)
| DoUpdateQuantity (productId change : Z)
| DoRemoveFromCart (productId : Z)
| SaveSettles (i : nat) (fault : option Error).

Definition cart_event (ev : CartEvent) : Event :=
  match ev with
  | DoAddToCart p c => Invoke (FavsBlingStore.addToCart p c)
  | DoUpdateQuantity p d => Invoke (FavsBlingStore.updateQuantity p d)
  | DoRemoveFromCart p => Invoke (FavsBlingStore.removeFromCart p)
  | SaveSettles i fault => Settle i fault
  end.

(** [user1] signed in on a fresh page, the cart load settled. *)
Definition signed_in_machine : Machine :=
  steps fresh_machine [AuthStateChanged (Some user1); Settle 0 None].

Definition signed_in_world : World := world signed_in_machine.

(** [user1] has put one T-shirt in the cart, the save went through, and
    they signed out: the remote store holds their cart. *)
Definition returning_customer_world : World :=
  world (steps signed_in_machine
    [Invoke (FavsBlingStore.addToCart 1 "clothing"); Settle 0 None; AuthStateChanged None]).

(** A login for [u], a logout before the cart load has settled, then the
    load settles. *)
Definition login_then_logout (w0 : World) (u : User) : Machine :=
  steps (mkMachine w0 []) [AuthStateChanged (Some u); AuthStateChanged None].

Definition stale_load_settles (w0 : World) (u : User) (fault : option Error) : Machine :=
  step (login_then_logout w0 u) (Settle 0 fault).

(** [user1] is signed in and has put one T-shirt in the cart while the
    remote store was unreachable: the save fell back to [localStorage]. *)
Definition offline_cart_world : World :=
  world (steps signed_in_machine
    [Invoke (FavsBlingStore.addToCart 1 "clothing"); Settle 0 (Some network_down)]).

(** The store is told again of the user it already has, and the cart load
    this starts settles. *)
Definition relogin (u : User) (fault : option Error) (w : World) : World :=
  final (run (FavsBlingStore.handleUserLogin u) [fault] w).

(** The spec's words for the admin check, kept apart from the code's
    [toLowerCase] comparison: two emails are equal up to case when they
    have the same length and, position by position, the same character or
    the two cases of one ASCII letter. *)
Definition is_upper (c : ascii) : bool :=
  let n := N_of_ascii c in ((65 <=? n) && (n <=? 90))%N.

Definition same_letter (a b : ascii) : Prop :=
  a = b
  \/ (is_upper a = true /\ N_of_ascii b = (N_of_ascii a + 32)%N)
  \/ (is_upper b = true /\ N_of_ascii a = (N_of_ascii b + 32)%N).

Inductive case_insensitive_equal : string -> string -> Prop :=
| cie_empty : case_insensitive_equal EmptyString EmptyString
| cie_char a b s t :
    same_letter a b -> case_insensitive_equal s t ->
    case_insensitive_equal (String a s) (String b t).

(** Whether the backend vouches for the payment: the request and the
    reading of its body both go through ([faults] gives the fate of the
    first and of the second awaited call), the body is JSON, and its
    [success] is true. *)
Definition verification_succeeds (faults : list (option Error)) (w : World)
    (reference : string) : bool :=
  match faults !! 0%nat, faults !! 1%nat with
  | Some (Some _), _ | _, Some (Some _) => false
  | _, _ =>
      match backend_verify (env w) reference with
      | Some result => success result
      | None => false
      end
  end.

(** The order that [handlePaymentSuccess] records for a verified payment:
    the lines of the cart at that moment, stamped with the clock. *)
Definition verified_order (w : World) (result : VerificationResult)
    (reference mail : string) (amount : Z) (customer phone address : string) : Order :=
  {| order_id := reference; customerEmail := mail; customerName := customer;
     customerPhone := phone; deliveryAddress := address; items := cart (store w);
     total := amount; status := "paid"; date := now (env w);
     paymentMethod := "paystack"; verified := true;
     verificationData := data result; backendVerified := true |}.

Definition is_RemoteSet (rq : Request) : bool :=
  match rq with RemoteSet _ _ => true | _ => false end.

(** [user1] signed in with two T-shirts in one line. *)
Definition two_shirts_world : World :=
  world (steps signed_in_machine
    [Invoke (FavsBlingStore.addToCart 1 "clothing"); Settle 0 None;
     Invoke (FavsBlingStore.addToCart 1 "clothing"); Settle 0 None]).

(** [user1] at the checkout with one T-shirt; the backend vouches for the
    reference [FB_paid] and for no other. *)
Definition paying_world : World :=
  let w := world (steps signed_in_machine
             [Invoke (FavsBlingStore.addToCart 1 "clothing"); Settle 0 None]) in
  on_env (fun e =>
    mkEnv (remote e) (localStorage e) (storage_full e) (confirm_reply e)
      (fun reference =>
         if String.eqb reference "FB_paid"
         then Some (mkVerificationResult true None (Some (JObj [("status", JStr "success")])))
         else Some (mkVerificationResult false (Some "Transaction not found") None))
      (now e)) w.

(** * Further vocabulary *)

(** The remote record of [u] is the cart in memory (no record standing
    for the empty cart): what a cart load for [u] would give back. *)
Definition remote_in_step (u : User) (w : World) : Prop :=
  default [] (remote (env w) !! ("carts/" ++ uid u)) = cart (store w).

(** The texts expected in [localStorage] are written with an apostrophe
    where the text has a double quote. *)
Fixpoint quoted (s : string) : string :=
  match s with
  | EmptyString => EmptyString
  | String c s' => String (if Ascii.eqb c "'" then dquote else c) (quoted s')
  end.

(** Two entries of the default catalogue. *)
Definition designer_tshirt : Product :=
  mkProduct 1 "Designer T-Shirt" 4500
    "https://images.unsplash.com/photo-1521572163474-6864f9cf17ab?w=400" "clothing"
    "Premium quality cotton t-shirt with unique design" (Some 50).

Definition casual_dress : Product :=
  mkProduct 2 "Casual Dress" 8500
    "https://images.unsplash.com/photo-1595777457583-95e059d581b8?w=400" "clothing"
    "Elegant casual dress for everyday wear" (Some 30).

(** [JSON.stringify] of a cart line with one of each, as the browser
    writes it. *)
Definition tshirt_line_text : string :=
  quoted ("{'id':1,'name':'Designer T-Shirt','price':4500,"
          ++ "'image_url':'https://images.unsplash.com/photo-1521572163474-6864f9cf17ab?w=400',"
          ++ "'category':'clothing',"
          ++ "'description':'Premium quality cotton t-shirt with unique design',"
          ++ "'stock':50,'quantity':1}").

Definition dress_line_text : string :=
  quoted ("{'id':2,'name':'Casual Dress','price':8500,"
          ++ "'image_url':'https://images.unsplash.com/photo-1595777457583-95e059d581b8?w=400',"
          ++ "'category':'clothing',"
          ++ "'description':'Elegant casual dress for everyday wear',"
          ++ "'stock':30,'quantity':1}").

(** A second customer of the same browser. *)
Definition user2 : User := mkUser "user2" "c@d.com".

(** [user1] has called [addToCart] for a T-shirt and then for a dress;
    neither save has settled yet. *)
Definition two_saves_in_flight : Machine :=
  steps signed_in_machine
    [Invoke (FavsBlingStore.addToCart 1 "clothing");
     Invoke (FavsBlingStore.addToCart 2 "clothing")].

(** [user1] has called [addToCart] for a T-shirt and signed out, [user2]
    has signed in, and only then does the save of [user1] fail. *)
Definition save_fails_after_user_switch : Machine :=
  steps signed_in_machine
    [Invoke (FavsBlingStore.addToCart 1 "clothing"); AuthStateChanged None;
     AuthStateChanged (Some user2); Settle 0 (Some network_down)].

(** [user2] has saved a dress and signed out; [user1] is signed in on
    the same browser. *)
Definition shared_browser_world : World :=
  world (steps fresh_machine
    [AuthStateChanged (Some user2); Settle 0 None;
     Invoke (FavsBlingStore.addToCart 2 "clothing"); Settle 0 None;
     AuthStateChanged None; AuthStateChanged (Some user1); Settle 0 None]).

(** A promise that, if it is parked at all, waits for the write of a
    cart at [carts/<uid>] of [u] and, resumed in whatever world, writes
    nothing to the remote store by itself and of [localStorage] at most
    the entry [favsCart_<uid>] of whoever is signed in by then. *)
Definition save_of (u : User) (t : Task unit) : Prop :=
  match t with
  | Fin _ => True
  | Await rq k =>
      (exists c, rq = RemoteSet ("carts/" ++ uid u) c)
      /\ forall r w',
           remote (env (fst (k r w'))) = remote (env w')
           /\ match currentUser (store w') with
              | Some u' =>
                  forall key, key ≠ "favsCart_" ++ uid u' ->
                    localStorage (env (fst (k r w'))) !! key = localStorage (env w') !! key
              | None => localStorage (env (fst (k r w'))) = localStorage (env w')
              end
  end.

(** A promise that, if it is parked at all, waits for a read and writes
    nothing of the environment when it is resumed. *)
Definition load_in_flight (t : Task unit) : Prop :=
  match t with
  | Fin _ => True
  | Await rq k =>
      (exists path, rq = RemoteOnce path) /\ forall r w', env (fst (k r w')) = env w'
  end.

(** ** AuthManager: guards for protected actions *)
Module AuthManager_guards.

(** [isAuthenticated()] *)
Definition isAuthenticated (w : World) : bool :=
  match am_currentUser (auth w) with Some _ => true | None => false end.

(** [requireAuthForAction(action)] *)
Definition requireAuthForAction (action : string) (w : World) : World * bool :=
  if negb (isAuthenticated w)
  then
    let w := fst (showNotification ("🔐 Please log in to " ++ action) "info" w) in
    let w := fst (showAuthOverlay w) in
    (w, false)
  else (w, true).

(** [requireAdminAccess(action)] *)
Definition requireAdminAccess (action : string) (w : World) : World * bool :=
  if negb (isAuthenticated w)
  then
    let w := fst (showNotification ("🔐 Please log in to " ++ action) "info" w) in
    let w := fst (showAuthOverlay w) in
    (w, false)
  else if negb (am_isAdmin (auth w))
  then (fst (showNotification "🔒 Admin access required for this action" "error" w), false)
  else (w, true).

End AuthManager_guards.

(** ** FavsBlingStore: what the cart panel shows

    [updateCartDisplay()] writes the badge, the panel, the two totals and
    the state of the checkout button.  The numbers are kept as numbers
    (the page shows them through [toLocaleString]). *)
Module FavsBlingStore_display.

Record CartRow := mkCartRow {
  row_name : string;
  row_price : Z;
  row_itemTotal : Z;
  row_quantity : Z
}.

Inductive CartPanel :=
| AuthenticationRequired
| EmptyCartState
| CartRows (rows : list CartRow).

Record CartView := mkCartView {
  cartBadge : Z;
  cartItems : CartPanel;
  subtotal : Z;
  totalAmount : Z;
  checkoutBtn_disabled : bool
}.

(** [this.cart.reduce((sum, item) => sum + item.quantity, 0)] *)
Definition totalItems (c : list CartItem) : Z :=
  fold_left (fun sum item => sum + quantity item) c 0.

(** [this.cart.reduce((sum, item) => sum + (item.price * item.quantity), 0)] *)
Definition cart_subtotal (c : list CartItem) : Z :=
  fold_left (fun sum item => sum + price (snapshot item) * quantity item) c 0.

(** [updateCartDisplay()] *)
Definition updateCartDisplay (s : Store) : CartView :=
  match currentUser s with
  | None => mkCartView 0 AuthenticationRequired 0 0 true
  | Some _ =>
      let c := cart s in
      mkCartView (totalItems c)
        (if (length c =? 0)%nat then EmptyCartState
         else CartRows (map (fun item =>
                mkCartRow (name (snapshot item)) (price (snapshot item))
                          (price (snapshot item) * quantity item) (quantity item)) c))
        (cart_subtotal c) (cart_subtotal c)
        (length c =? 0)%nat
  end.

End FavsBlingStore_display.

(** ** FavsBlingStore: checkout

    [handleCheckout()] reads the four fields of the checkout form and
    hands the payment over to [PaystackPop.setup(...)]; it contains no
    [await].  The form, the reference made from [Date.now()] and
    [Math.random()], the public key and whether the Paystack script is
    there are given. *)
Module FavsBlingStore_checkout.

Record CheckoutForm := mkCheckoutForm {
  customerName_value : string;
  customerEmail_value : string;
  customerPhone_value : string;
  customerAddress_value : string
}.

Record CustomField := mkCustomField {
  display_name : string;
  variable_name : string;
  field_value : string
}.

(** The options object given to [PaystackPop.setup].  Its [callback]
    closes over the form values and the total: they are kept here and
    used by [paymentCallback] below. *)
Record PaystackSetup := mkPaystackSetup {
  setup_key : string;
  setup_email : string;
  setup_amount : Z;
  setup_currency : string;
  setup_ref : string;
  custom_fields : list CustomField;
  closure_total : Z;
  closure_form : CheckoutForm
}.

Definition is_empty (s : string) : bool := String.eqb s EmptyString.

(** [handleCheckout()]: the world after it, and the payment it opened
    ([handler.openIframe()]) if any. *)
Definition handleCheckout (form : CheckoutForm) (key ref : string) (PaystackPop : bool)
    (w : World) : World * option PaystackSetup :=
  match currentUser (store w) with
  | None =>
      let w := fst (showNotification "Please log in to checkout" "error" w) in
      let w := fst (showAuthOverlay w) in
      (w, None)
  | Some user =>
      let name_ := customerName_value form in
      let email_ := customerEmail_value form in
      let phone := customerPhone_value form in
      let address := customerAddress_value form in
      let total_ := FavsBlingStore_display.cart_subtotal (cart (store w)) in
      if is_empty name_ || is_empty email_ || is_empty phone
      then (fst (showNotification "Please fill in all required fields" "error" w), None)
      else if (total_ =? 0)%Z
      then (fst (showNotification "Your cart is empty" "error" w), None)
      else
        let w := fst (showNotification "Processing payment..." "info" w) in
        if PaystackPop
        then
          (w, Some
            {| setup_key := key; setup_email := email_; setup_amount := total_ * 100;
               setup_currency := "NGN"; setup_ref := ref;
               custom_fields :=
                 [ mkCustomField "Customer Name" "customer_name" name_;
                   mkCustomField "Phone Number" "phone_number" phone;
                   mkCustomField "Delivery Address" "delivery_address"
                     (if is_empty address then "Not provided" else address);
                   mkCustomField "User ID" "user_id" (uid user) ];
               closure_total := total_; closure_form := form |})
        else
          let w := fst (console_report "Paystack error:"
                          (mkError "ReferenceError" "PaystackPop is not defined") w) in
          (fst (showNotification "Payment initialization failed. Please try again." "error" w),
           None)
  end.

(** [paymentCallback(response)], called by Paystack with the reference of
    the payment. *)
Definition paymentCallback (setup : PaystackSetup) (reference : string) : M unit :=
  FavsBlingStore.handlePaymentSuccess reference
    (customerEmail_value (closure_form setup)) (closure_total setup)
    (customerName_value (closure_form setup)) (customerPhone_value (closure_form setup))
    (customerAddress_value (closure_form setup)).

(** [paymentOnClose()] *)
Definition paymentOnClose : M unit := showNotification "Payment was cancelled" "warning".

End FavsBlingStore_checkout.

(** A filled-in checkout form and the payment [handleCheckout] opens for
    it on [paying_world]. *)
Definition checkout_form : FavsBlingStore_checkout.CheckoutForm :=
  FavsBlingStore_checkout.mkCheckoutForm "Ada" "a@b.com" "0800" EmptyString.

Definition checkout_setup : FavsBlingStore_checkout.PaystackSetup :=
  FavsBlingStore_checkout.mkPaystackSetup "pk_test_fallbackmode" "a@b.com" 450000 "NGN"
    "FB_1_abc"
    [ FavsBlingStore_checkout.mkCustomField "Customer Name" "customer_name" "Ada";
      FavsBlingStore_checkout.mkCustomField "Phone Number" "phone_number" "0800";
      FavsBlingStore_checkout.mkCustomField "Delivery Address" "delivery_address"
        "Not provided";
      FavsBlingStore_checkout.mkCustomField "User ID" "user_id" "user1" ]
    4500 checkout_form.

(** ** The session held by the two components *)

(** Who is signed in and whether they are admin, as the store and as
    [AuthManager] have it. *)
Definition session (w : World) : option User * bool * string * Auth :=
  (currentUser (store w), isAdmin (store w), adminEmail (store w), auth w).

(** However and whenever the task is resumed, it leaves the session as
    it finds it. *)
Fixpoint keeps_session {A} (t : Task A) : Prop :=
  match t with
  | Fin _ => True
  | Await rq k => forall r w, session (fst (k r w)) = session w /\ keeps_session (snd (k r w))
  end.

Definition session_neutral {A} (m : M A) : Prop :=
  forall w, session (fst (m w)) = session w /\ keeps_session (snd (m w)).

(** The two components after their constructors: nobody signed in, no
    admin, one configured admin email. *)
Definition signed_out_page (w : World) : Prop :=
  currentUser (store w) = None /\ isAdmin (store w) = false
  /\ am_currentUser (auth w) = None /\ am_isAdmin (auth w) = false
  /\ ADMIN_EMAIL (auth w) = adminEmail (store w).

(** The two components hold the same user and the same admin flag, and
    the flag is what the email of that user gives. *)
Definition sessions_agree (w : World) : Prop :=
  am_currentUser (auth w) = currentUser (store w)
  /\ am_isAdmin (auth w) = isAdmin (store w)
  /\ ADMIN_EMAIL (auth w) = adminEmail (store w)
  /\ isAdmin (store w)
     = match currentUser (store w) with
       | Some u => String.eqb (toLowerCase (email u)) (toLowerCase (adminEmail (store w)))
       | None => false
       end.

(** What can happen on the page: the identity provider reports a change,
    a cart mutator is called, Paystack calls back after a checkout, a
    parked promise settles. *)
Inductive PageEvent :=
| IdentityChanged (user : option User)
| MutatorCalled (mu : Mutator)
| PaystackCalledBack (reference mail : string) (amount : Z) (customer phone address : string)
| PromiseSettles (i : nat) (fault : option Error).

Definition page_event (ev : PageEvent) : Event :=
  match ev with
  | IdentityChanged user => AuthStateChanged user
  | MutatorCalled mu => Invoke (mutator mu)
  | PaystackCalledBack reference mail amount customer phone address =>
      Invoke (FavsBlingStore.handlePaymentSuccess reference mail amount customer phone address)
  | PromiseSettles i fault => Settle i fault
  end.

(** A page event, or [window.forceAdmin()] called from the console. *)
Inductive FlagEvent :=
| OnPage (ev : PageEvent)
| ForceAdminCalled.

Definition flag_event (ev : FlagEvent) : Event :=
  match ev with
  | OnPage ev => page_event ev
  | ForceAdminCalled => Invoke FavsBlingStore.forceAdminMode
  end.

(** The admin flag as the list of events alone gives it: a report of the
    identity provider decides it from the email, a sign-out clears it,
    [forceAdminMode] sets it, and nothing else has a say. *)
Definition flag_after (admin : string) (flag : bool) (ev : FlagEvent) : bool :=
  match ev with
  | OnPage (IdentityChanged (Some user)) =>
      String.eqb (toLowerCase (email user)) (toLowerCase admin)
  | OnPage (IdentityChanged None) => false
  | ForceAdminCalled => true
  | OnPage _ => flag
  end.

(** ** FavsBlingStore: the admin panel and the customers

    [handleAddItem()] reads the add-item form; [parseInt] of the price
    field is given as [None] for [NaN].  The id of a new item is
    [Date.now()], given as [stamp].  [this.products[category]] is read as
    an own property of the catalogue, which it is for every category but
    the names below. *)

(** The names every plain object inherits from [Object.prototype]: for
    these [this.products[name]] is not [undefined] although the catalogue
    has no such category. *)
Definition Object_prototype_names : list string :=
  [ "constructor"; "__defineGetter__"; "__defineSetter__"; "hasOwnProperty";
    "__lookupGetter__"; "__lookupSetter__"; "isPrototypeOf"; "propertyIsEnumerable";
    "toString"; "valueOf"; "__proto__"; "toLocaleString" ].

Module FavsBlingStore_admin.

Definition set_products (ps : Catalogue) (s : Store) : Store :=
  mkStore ps (cart s) (orders s) (customers s) (adminEmail s) (currentUser s) (isAdmin s).

(** [JSON.stringify(this.products)]: the categories in the order of the
    object's keys, each with its items in the order of the array. *)
Definition products_json (ps : Catalogue) : JSON :=
  JObj (map (fun kv => (fst kv, JArr (map (fun p => JObj (Product_fields p)) (snd kv))))
            (entries ps)).

(** [saveProducts()] *)
Definition saveProducts : M unit :=
  ps ← gets (fun w => products (store w));
  localStorage_setItem "favsProducts" (JSON_stringify (products_json ps)).

Record ItemForm := mkItemForm {
  itemName_value : string;
  itemPrice_parsed : option Z;
  itemCategory_value : string;
  itemImageUrl_value : string;
  itemDescription_value : string
}.

(** [!price] for the result of [parseInt]: true for [NaN] and for 0. *)
Definition no_price (parsed : option Z) : bool :=
  match parsed with
  | None => true
  | Some z => (z =? 0)%Z
  end.

(** [handleAddItem()] *)
Definition handleAddItem (form : ItemForm) (stamp : Z) : M unit :=
  adm ← gets (fun w => isAdmin (store w));
  if negb adm then showNotification "Admin access required" "error"
  else
    let name_ := itemName_value form in
    let category_ := itemCategory_value form in
    let imageUrl := itemImageUrl_value form in
    if String.eqb name_ EmptyString || no_price (itemPrice_parsed form)
       || String.eqb category_ EmptyString || String.eqb imageUrl EmptyString
    then showNotification "Please fill all required fields" "error"
    else
      let newItem :=
        {| id := stamp; name := name_; price := default 0 (itemPrice_parsed form);
           image_url := imageUrl; category := category_;
           description := itemDescription_value form; stock := Some 0 |} in
      modify (on_store (fun s =>
        set_products
          (<[category_ := (default [] (products s !! category_) ++ [newItem])%list]>
             (products s)) s));;
      saveProducts;;
      (* loadProducts(); loadAdminItems(); updateAdminStats(); addItemForm.reset(); *)
      showNotification "✅ Item added successfully!" "success".

(** [deleteItem(itemId, category)] *)
Definition deleteItem (itemId : Z) (category_ : string) : M unit :=
  adm ← gets (fun w => isAdmin (store w));
  if negb adm then showNotification "Admin access required" "error"
  else
    yes ← gets (fun w => confirm_reply (env w));
    if (yes : bool)
    then
      ps ← gets (fun w => products (store w));
      match ps !! category_ with
      | None => throw (undefined_property "filter")
      | Some in_category =>
          modify (on_store (set_products
            (<[category_ := filter (fun item => id item ≠ itemId) in_category]> ps)));;
          saveProducts;;
          (* loadProducts(); loadAdminItems(); updateAdminStats(); *)
          showNotification "🗑️ Item deleted successfully" "success"
      end
    else mret tt.

(** [calculateTotalRevenue()]: ten sales are assumed for every item. *)
Definition calculateTotalRevenue (s : Store) : Z :=
  fold_left (fun revenue kv =>
               fold_left (fun r item => r + price item * 10) (snd kv) revenue)
            (entries (products s)) 0.

(** [addCustomer(customer)] *)
Definition addCustomer (customer : Customer) : M unit :=
  cs ← gets (fun w => customers (store w));
  match List.find (fun c => String.eqb (customer_id c) (customer_id customer)) cs with
  | Some _ => mret tt
  | None =>
      modify (on_store (fun s => set_customers (customers s ++ [customer]) s));;
      FavsBlingStore.saveCustomers
  end.

End FavsBlingStore_admin.

(** The administrator of the fallback configuration signed in on a fresh
    page, the cart load settled; and a form for a new hat. *)
Definition admin_user : User := mkUser "root" "Admin@FavsBling.com".

Definition admin_world : World :=
  world (steps fresh_machine [AuthStateChanged (Some admin_user); Settle 0 None]).

Definition hat_form : FavsBlingStore_admin.ItemForm :=
  FavsBlingStore_admin.mkItemForm "Sun Hat" (Some 3000) "clothing"
    "https://example.com/hat.jpg" "A hat".

(** The administrator on a page whose stored catalogue is one T-shirt and
    no service yet, and a form for a scarf in a category that does not
    exist yet. *)
Definition boutique_world : World :=
  on_store (FavsBlingStore_admin.set_products
              (mkCatalogue [("clothing", [designer_tshirt]); ("service", [])]))
           admin_world.

Definition scarf_form : FavsBlingStore_admin.ItemForm :=
  FavsBlingStore_admin.mkItemForm "Silk Scarf" (Some 2000) "accessories"
    "https://example.com/scarf.jpg" "A scarf".

(** A customer record, and a page that knows this customer. *)
Definition ada : Customer := mkCustomer "c1" "a@b.com" 0 0.

(** Two more customers, and a page that knows [ada] and [bola]. *)
Definition bola : Customer := mkCustomer "c2" "bola@x.com" 3 12000.
Definition chidi : Customer := mkCustomer "c3" "chidi@x.com" 0 0.

Definition regulars_world : World :=
  on_store (set_customers [ada; bola]) paying_world.

Definition ada_world : World :=
  fst (FavsBlingStore_admin.addCustomer ada paying_world).

(** ** config-secure.js: class SecureConfig

    [init()] awaits [fetchFromBackend()], which awaits [fetch] and then
    [response.json()].  Nothing else of the page runs on this object in
    between, so the two settled promises are given: what [fetch] settled
    to, and in the response whether its body parses as JSON. *)
Module SecureConfig.

Record ConfigResponse := mkConfigResponse {
  response_ok : bool;
  response_status : Z;
  response_statusText : string;
  response_json : option JSON
}.

(** The object and what it publishes: [window.CONFIG] and the
    [configReady] events dispatched so far. *)
Record State := mkState {
  config : option JSON;
  isLoaded : bool;
  window_CONFIG : option JSON;
  configReady : nat
}.

(** The state the constructor leaves before it calls [init()]. *)
Definition constructed : State := mkState None false None 0.

(** JavaScript truthiness of a parsed JSON value. *)
Definition truthy (j : JSON) : bool :=
  match j with
  | JNull => false
  | JBool b => b
  | JNum z => negb (z =? 0)%Z
  | JStr s => negb (String.eqb s EmptyString)
  | JArr _ | JObj _ => true
  end.

(** [value.key] for a parsed JSON value other than [null]: the last
    binding of the key in an object, [undefined] otherwise. *)
Definition property (key : string) (j : JSON) : option JSON :=
  match j with
  | JObj fields =>
      snd <$> List.find (fun kv => String.eqb (fst kv) key) (rev fields)
  | _ => None
  end.

Arguments property : simpl never.

Definition truthy_property (key : string) (j : JSON) : bool :=
  match property key j with Some v => truthy v | None => false end.
Arguments truthy_property : simpl never.

(** [setupGlobalConfig()] *)
Definition setupGlobalConfig (s : State) : State :=
  mkState (config s) (isLoaded s) (config s) (S (configReady s)).

(** The object literal of [useSafeFallback()]. *)
Definition fallback_config : JSON :=
  JObj [ ("FIREBASE_API_KEY", JStr "fallback_safe_key");
         ("FIREBASE_AUTH_DOMAIN", JStr "favs-bling.firebaseapp.com");
         ("FIREBASE_DATABASE_URL", JStr "https://favs-bling-default-rtdb.firebaseio.com");
         ("FIREBASE_PROJECT_ID", JStr "favs-bling");
         ("FIREBASE_STORAGE_BUCKET", JStr "favs-bling.appspot.com");
         ("FIREBASE_MESSAGING_SENDER_ID", JStr "000000000000");
         ("FIREBASE_APP_ID", JStr "1:000000000000:web:fallback123");
         ("PAYSTACK_PUBLIC_KEY", JStr "pk_test_fallbackmode");
         ("ADMIN_EMAIL", JStr "admin@favsbling.com");
         ("BACKEND_URL", JStr "https://favs-b-backend.onrender.com");
         ("APP_NAME", JStr "Favs Bling");
         ("SUPPORT_EMAIL", JStr "support@favsbling.com");
         ("ENABLE_BACKEND", JBool true);
         ("ENABLE_PAYSTACK", JBool false);
         ("ENABLE_FIREBASE", JBool true) ].

(** [useSafeFallback()] *)
Definition useSafeFallback (s : State) : State :=
  let s := mkState (Some fallback_config) (isLoaded s) (window_CONFIG s) (configReady s) in
  let s := setupGlobalConfig s in
  mkState (config s) true (window_CONFIG s) (configReady s).

(** [async fetchFromBackend()] *)
Definition fetchFromBackend (fetched : Settled ConfigResponse) (s : State)
  : State * Outcome unit :=
  match fetched with
  | Rejected e => (s, Thrown e)
  | Fulfilled response =>
      if negb (response_ok response)
      then (s, Thrown (mkError "Error"
                  ("HTTP " ++ pretty (response_status response) ++ ": "
                   ++ response_statusText response)))
      else
        match response_json response with
        | None => (s, Thrown (mkError "SyntaxError" "Unexpected token in JSON"))
        | Some JNull => (s, Thrown (null_property "success"))
        | Some data =>
            if truthy_property "success" data && truthy_property "config" data
            then
              let s := mkState (property "config" data) (isLoaded s) (window_CONFIG s)
                               (configReady s) in
              let s := setupGlobalConfig s in
              (mkState (config s) true (window_CONFIG s) (configReady s), Returned tt)
            else (s, Thrown (mkError "Error" "Invalid configuration response"))
        end
  end.

(** [async init()] *)
Definition init (fetched : Settled ConfigResponse) (s : State) : State * Outcome unit :=
  match fetchFromBackend fetched s with
  | (s', Returned _) => (s', Returned tt)
  | (s', Thrown error) => (useSafeFallback s', Returned tt)
  end.

(** The test [initializeFirebase()] of auth.js makes before it goes on:
    [window.CONFIG] is there and has a truthy [FIREBASE_API_KEY]. *)
Definition firebase_config_available (s : State) : bool :=
  match window_CONFIG s with
  | Some cfg => truthy_property "FIREBASE_API_KEY" cfg
  | None => false
  end.

End SecureConfig.

(** * Properties *)

(** ** Reasoning about tasks *)

Ltac unfold_js :=
  unfold AuthManager.onAuthStateChanged, AuthManager.handleUserLogin,
    AuthManager.handleUserLogout, FavsBlingStore.handlePaymentSuccess,
    FavsBlingStore.addToCart, FavsBlingStore.updateQuantity,
    FavsBlingStore.removeFromCart, FavsBlingStore.clearCart,
    FavsBlingStore.handleUserLogin, FavsBlingStore.handleUserLogout,
    FavsBlingStore.requireAuthForAction, FavsBlingStore.saveCart,
    FavsBlingStore.loadUserCart, FavsBlingStore.updateCustomerStats,
    FavsBlingStore.saveOrders, FavsBlingStore.saveCustomers,
    FavsBlingStore.forceAdminMode,
    showNotification, showAuthOverlay, console_report, localStorage_setItem,
    mbind, M_bind, mret, M_ret, bind, try_catch, gets, modify, ret, throw, await in *.

Lemma serve_store rq fault w : store (fst (serve rq fault w)) = store w.
Proof. destruct fault, rq; cbn; try done. by destruct (parsed_body response). Qed.

Lemma keeps_store_bind {A B} (t : Task A) (f : A -> M B) :
  keeps_store t ->
  (forall a w, store (fst (f a w)) = store w /\ keeps_store (snd (f a w))) ->
  forall w, store (fst (bind_task t f w)) = store w /\ keeps_store (snd (bind_task t f w)).
Proof.
  intros Ht Hf. induction t as [o|rq k IH] using Task_induction; intros w.
  - destruct o; cbn; [apply Hf | done].
  - cbn. split; [done|]. intros r w'.
    destruct (Ht r w') as [Hs Hk]. specialize (IH r w' Hk).
    destruct (k r w') as [w'' t']. cbn in *.
    destruct (IH w'') as [IH1 IH2]. split; [congruence | done].
Qed.

(** ** Saving the cart touches nothing of the store *)

Lemma saveCart_keeps_store w :
  store (fst (FavsBlingStore.saveCart w)) = store w
  /\ keeps_store (snd (FavsBlingStore.saveCart w)).
Proof.
  unfold_js. destruct (currentUser (store w)) as [u|]; cbn; [|done].
  split; [done|]. intros [[]|e] w'; cbn; [done|].
  destruct (currentUser (store w')); cbn; [|done].
  by destruct (storage_full (env w')).
Qed.

Lemma saveCart_never_throws w : never_throws (snd (FavsBlingStore.saveCart w)).
Proof.
  unfold_js. destruct (currentUser (store w)) as [u|]; cbn; [|done].
  intros [[]|e] w'; cbn; [done|].
  destruct (currentUser (store w')); cbn; [|done].
  by destruct (storage_full (env w')).
Qed.

(** ** C1: signed out, the cart mutators do nothing *)

(** C1. Called while [currentUser] is absent, each of [addToCart],
    [removeFromCart], [updateQuantity] and [clearCart] returns at once
    (it never reaches an [await], so no remote call is made), leaves the
    in-memory cart and every other field of the store as they were, and
    leaves the remote store and [localStorage] untouched. *)
Theorem signed_out_mutator_changes_nothing (mu : Mutator) (w : World) :
  currentUser (store w) = None ->
  snd (mutator mu w) = Fin (Returned tt)
  /\ cart (store (fst (mutator mu w))) = cart (store w)
  /\ store (fst (mutator mu w)) = store w
  /\ remote (env (fst (mutator mu w))) = remote (env w)
  /\ localStorage (env (fst (mutator mu w))) = localStorage (env w)
  /\ forall faults, calls (run (mutator mu) faults w) = [].
Proof.
  intros H. unfold run.
  destruct mu; cbn [mutator]; unfold_js; cbn; rewrite H; cbn; done.
Qed.

Lemma signed_out_mutator_changes_nothing_witness :
  currentUser (store fresh_world) = None
  /\ snd (mutator (MAddToCart 1 "clothing") fresh_world) = Fin (Returned tt)
  /\ store (fst (mutator (MAddToCart 1 "clothing") fresh_world)) = store fresh_world.
Proof.
  assert (currentUser (store fresh_world) = None) as Hout by reflexivity.
  pose proof (signed_out_mutator_changes_nothing (MAddToCart 1 "clothing") fresh_world Hout)
    as (Hfin & _ & Hstore & _).
  split_and!; [exact Hout | exact Hfin | exact Hstore].
Defined.

(** ** C2: one line per product, quantities at least 1 *)

Lemma cart_ok_nil : cart_ok [].
Proof. split; constructor. Qed.

Lemma cart_ok_set_quantity (c : list CartItem) i line q :
  cart_ok c -> c !! i = Some line -> 1 <= q ->
  cart_ok (<[i := set_quantity q line]> c).
Proof.
  intros [Hnd Hq] Hi Hle. split.
  - rewrite list_fmap_insert. cbn.
    rewrite list_insert_id; [done|]. by rewrite list_lookup_fmap, Hi.
  - by apply Forall_insert.
Qed.

Lemma cart_ok_push (c : list CartItem) product :
  cart_ok c -> list_find (fun item => item_id item = id product) c = None ->
  cart_ok (c ++ [mkCartItem product 1]).
Proof.
  intros [Hnd Hq] Hnone. apply list_find_None in Hnone. split.
  - rewrite fmap_app. apply NoDup_app. split_and!; [done| |apply NoDup_singleton].
    intros x Hx Hx'. apply list_elem_of_singleton in Hx'. cbn in Hx'. subst x.
    apply list_elem_of_fmap in Hx as (line & Hid & Hin).
    rewrite Forall_forall in Hnone. by apply (Hnone line).
  - apply Forall_app. split; [done|]. by repeat constructor.
Qed.

Lemma cart_ok_filter (P : CartItem -> Prop) `{!forall x, Decision (P x)} (c : list CartItem) :
  cart_ok c -> cart_ok (filter P c).
Proof.
  intros [Hnd Hq]. split.
  - eapply sublist_NoDup; [exact Hnd|]. apply fmap_sublist, sublist_filter.
  - rewrite Forall_forall in *. intros x [_ Hx]%list_elem_of_filter. by apply Hq.
Qed.

(** Dropping the lines of a product forgets what was written to one of
    them just before. *)
Lemma filter_after_set_quantity (c : list CartItem) i line q p :
  c !! i = Some line -> item_id line = p ->
  filter (fun item => item_id item ≠ p) (<[i := set_quantity q line]> c)
  = filter (fun item => item_id item ≠ p) c.
Proof.
  revert i. induction c as [|x c IH]; intros i Hi Hid; [done|].
  destruct i as [|i]; simpl in Hi.
  - simplify_eq. change (<[0%nat:=set_quantity q line]> (line :: c)) with (set_quantity q line :: c).
    rewrite !filter_cons.
    destruct (decide (item_id (set_quantity q line) ≠ item_id line)) as [Hne|_];
      [by destruct Hne|].
    by destruct (decide (item_id line ≠ item_id line)).
  - change (<[S i:=set_quantity q line]> (x :: c)) with (x :: <[i:=set_quantity q line]> c).
    rewrite !filter_cons. by rewrite (IH i Hi Hid).
Qed.

Lemma find_product_id (l : list Product) p product :
  List.find (fun x => (id x =? p)%Z) l = Some product -> id product = p.
Proof. intros H. apply find_some in H as [_ H]. by apply Z.eqb_eq. Qed.

(** Each of the three calls keeps the invariant within its first,
    synchronous part, and what it leaves parked never writes the store. *)
Ltac after_saveCart :=
  match goal with
  | |- context [FavsBlingStore.saveCart ?w1] =>
      let Hs := fresh "Hs" in
      let Hk := fresh "Hk" in
      destruct (saveCart_keeps_store w1) as [Hs Hk];
      destruct (FavsBlingStore.saveCart w1) as [? ?]; cbn in Hs, Hk;
      try match goal with
      | |- context [bind_task ?t ?f ?w] =>
          let H1 := fresh "H" in
          let H2 := fresh "H" in
          destruct (keeps_store_bind t f Hk (fun _ _ => conj eq_refl I) w) as [H1 H2];
          rewrite ?H1
      end;
      cbn [fst snd]; rewrite ?Hs
  end.

Ltac unfold_monad :=
  unfold mbind, M_bind, mret, M_ret, bind, gets, ret, throw, showNotification,
    showAuthOverlay, modify.

Lemma addToCart_cart_ok p cat w :
  cart_ok (cart (store w)) ->
  cart_ok (cart (store (fst (FavsBlingStore.addToCart p cat w))))
  /\ keeps_store (snd (FavsBlingStore.addToCart p cat w)).
Proof.
  intros Hok. unfold FavsBlingStore.addToCart, FavsBlingStore.requireAuthForAction.
  unfold_monad. cbn.
  destruct (currentUser (store w)) as [u|] eqn:Hu; cbn; [|done].
  destruct (products (store w) !! cat) as [l|]; cbn; [|done].
  destruct (List.find _ l) as [product|] eqn:Hfind; cbn; [|done].
  apply find_product_id in Hfind. subst p.
  destruct (list_find _ (cart (store w))) as [[i line]|] eqn:Hline; cbn.
  - apply list_find_Some in Hline as (Hi & _ & _).
    assert (1 <= quantity line + 1) as Hq.
    { destruct Hok as [_ Hq]. rewrite Forall_forall in Hq.
      specialize (Hq line (list_elem_of_lookup_2 _ _ _ Hi)). lia. }
    pose proof (cart_ok_set_quantity _ i line _ Hok Hi Hq) as Hok'.
    after_saveCart. done.
  - pose proof (cart_ok_push _ product Hok Hline) as Hok'.
    after_saveCart. done.
Qed.

Lemma removeFromCart_cart_ok p w :
  cart_ok (cart (store w)) ->
  cart_ok (cart (store (fst (FavsBlingStore.removeFromCart p w))))
  /\ keeps_store (snd (FavsBlingStore.removeFromCart p w)).
Proof.
  intros Hok. unfold FavsBlingStore.removeFromCart. unfold_monad. cbn.
  destruct (currentUser (store w)) as [u|] eqn:Hu; cbn; [|done].
  pose proof (cart_ok_filter (fun item => item_id item ≠ p) _ Hok) as Hok'.
  after_saveCart. done.
Qed.

Lemma updateQuantity_cart_ok p d w :
  cart_ok (cart (store w)) ->
  cart_ok (cart (store (fst (FavsBlingStore.updateQuantity p d w))))
  /\ keeps_store (snd (FavsBlingStore.updateQuantity p d w)).
Proof.
  intros Hok. unfold FavsBlingStore.updateQuantity. unfold_monad. cbn.
  destruct (currentUser (store w)) as [u|] eqn:Hu; cbn; [|done].
  destruct (list_find _ (cart (store w))) as [[i line]|] eqn:Hline; cbn; [|done].
  apply list_find_Some in Hline as (Hi & Hid & _).
  destruct (Z.leb_spec (quantity line + d) 0) as [Hle|Hgt].
  - unfold FavsBlingStore.removeFromCart. unfold_monad. cbn. rewrite Hu. cbn.
    after_saveCart. unfold on_store; cbn.
    rewrite (filter_after_set_quantity _ i line _ p Hi Hid).
    split; [|done]. by apply cart_ok_filter.
  - assert (1 <= quantity line + d) as Hq by lia.
    pose proof (cart_ok_set_quantity _ i line _ Hok Hi Hq) as Hok'.
    after_saveCart. done.
Qed.

Lemma park_keeps_store t ts :
  keeps_store t -> Forall keeps_store ts -> Forall keeps_store (park t ts).
Proof.
  intros Ht Hts. destruct t; cbn [park]; [done|].
  apply Forall_app. split; [done|]. by constructor.
Qed.

Lemma cart_event_invariant (mc : Machine) (ev : CartEvent) :
  cart_ok (cart (store (world mc))) -> Forall keeps_store (parked mc) ->
  cart_ok (cart (store (world (step mc (cart_event ev)))))
  /\ Forall keeps_store (parked (step mc (cart_event ev))).
Proof.
  intros Hok Hparked. destruct ev as [p cat|p d|p|i fault]; cbn [cart_event step].
  - destruct (addToCart_cart_ok p cat (world mc) Hok) as [H1 H2].
    destruct (FavsBlingStore.addToCart p cat (world mc)); cbn in *.
    split; [done|]. by apply park_keeps_store.
  - destruct (updateQuantity_cart_ok p d (world mc) Hok) as [H1 H2].
    destruct (FavsBlingStore.updateQuantity p d (world mc)); cbn in *.
    split; [done|]. by apply park_keeps_store.
  - destruct (removeFromCart_cart_ok p (world mc) Hok) as [H1 H2].
    destruct (FavsBlingStore.removeFromCart p (world mc)); cbn in *.
    split; [done|]. by apply park_keeps_store.
  - destruct (parked mc !! i) as [[o|rq k]|] eqn:Hi; [done| |done].
    pose proof (serve_store rq fault (world mc)) as Hserve.
    destruct (serve rq fault (world mc)) as [w1 r]. cbn in Hserve.
    rewrite Forall_forall in Hparked.
    pose proof (Hparked _ (list_elem_of_lookup_2 _ _ _ Hi)) as Hk. cbn in Hk.
    destruct (Hk r w1) as [Hs Hk']. destruct (k r w1) as [w2 t]. cbn in *.
    split; [congruence|]. apply park_keeps_store; [done|].
    apply Forall_delete. by apply Forall_forall.
Qed.

Lemma cart_events_invariant (evs : list CartEvent) (mc : Machine) :
  cart_ok (cart (store (world mc))) -> Forall keeps_store (parked mc) ->
  cart_ok (cart (store (world (steps mc (cart_event <$> evs)))))
  /\ Forall keeps_store (parked (steps mc (cart_event <$> evs))).
Proof.
  revert mc. induction evs as [|ev evs IH]; intros mc Hok Hparked; [done|].
  cbn. destruct (cart_event_invariant mc ev Hok Hparked) as [H1 H2].
  by apply IH.
Qed.

(** Adding a product that already has a line bumps that line. *)
Lemma addToCart_existing_line p cat w u l product i line :
  currentUser (store w) = Some u ->
  products (store w) !! cat = Some l ->
  List.find (fun x => (id x =? p)%Z) l = Some product ->
  list_find (fun item => item_id item = p) (cart (store w)) = Some (i, line) ->
  cart (store (fst (FavsBlingStore.addToCart p cat w)))
  = <[i := mkCartItem (snapshot line) (quantity line + 1)]> (cart (store w)).
Proof.
  intros Hu Hl Hfind Hline.
  unfold FavsBlingStore.addToCart, FavsBlingStore.requireAuthForAction.
  unfold_monad. cbn. rewrite Hu. cbn. rewrite Hl. cbn. rewrite Hfind. cbn.
  rewrite Hline. cbn. after_saveCart. done.
Qed.

(** C2. Start from a cart with at most one line per product id and all
    quantities at least 1 (the empty cart, say).  Let the page call
    [addToCart], [updateQuantity] and [removeFromCart] in any order and
    number, the saves they start settling (or failing) at any moment in
    between.  Then the cart again has at most one line per product id and
    all quantities at least 1; and if a user is signed in and [addToCart]
    is now called for a catalogue product that has a line in the cart, the
    cart keeps its length, that line holds the same product with a
    quantity greater by exactly one, and every other line is as it was. *)
Theorem cart_invariant_preserved (w0 : World) (evs : list CartEvent) :
  cart_ok (cart (store w0)) ->
  let w := world (steps (mkMachine w0 []) (cart_event <$> evs)) in
  cart_ok (cart (store w))
  /\ forall u p cat l product i line,
       currentUser (store w) = Some u ->
       products (store w) !! cat = Some l ->
       List.find (fun x => (id x =? p)%Z) l = Some product ->
       list_find (fun item => item_id item = p) (cart (store w)) = Some (i, line) ->
       let c' := cart (store (fst (FavsBlingStore.addToCart p cat w))) in
       c' = <[i := mkCartItem (snapshot line) (quantity line + 1)]> (cart (store w))
       /\ length c' = length (cart (store w))
       /\ (exists line', c' !! i = Some line'
                         /\ quantity line' = quantity line + 1
                         /\ snapshot line' = snapshot line)
       /\ (forall j, j ≠ i -> c' !! j = cart (store w) !! j)
       /\ (item_id <$> c') = (item_id <$> cart (store w)).
Proof.
  intros Hok w. split.
  - apply cart_events_invariant; [done|]. constructor.
  - intros u p cat l product i line Hu Hl Hfind Hline c'. subst c'.
    rewrite (addToCart_existing_line p cat w u l product i line Hu Hl Hfind Hline).
    apply list_find_Some in Hline as (Hi & _).
    assert (i < length (cart (store w)))%nat as Hlt by by eapply lookup_lt_Some.
    split_and!; [done | by rewrite length_insert | | |].
    + eexists. split; [by apply list_lookup_insert_eq | done].
    + intros j Hj. by apply list_lookup_insert_ne.
    + rewrite list_fmap_insert. apply list_insert_id. by rewrite list_lookup_fmap, Hi.
Qed.

Lemma cart_invariant_preserved_witness :
  cart_ok (cart (store signed_in_world))
  /\ cart_ok (cart (store (world (steps (mkMachine signed_in_world [])
       (cart_event <$> [DoAddToCart 1 "clothing"; DoAddToCart 1 "clothing";
                         SaveSettles 0 None; DoUpdateQuantity 1 (-2);
                         DoAddToCart 101 "service"; DoRemoveFromCart 7])))))
  /\ cart (store (world (steps (mkMachine signed_in_world [])
       (cart_event <$> [DoAddToCart 1 "clothing"]))))
     = [mkCartItem designer_tshirt 1]
  /\ cart (store (fst (FavsBlingStore.addToCart 1 "clothing"
       (world (steps (mkMachine signed_in_world [])
          (cart_event <$> [DoAddToCart 1 "clothing"]))))))
     = [mkCartItem designer_tshirt 2].
Proof.
  assert (cart_ok (cart (store signed_in_world))) as Hok by (split; constructor).
  split_and!; [exact Hok | | reflexivity |].
  - exact (proj1 (cart_invariant_preserved signed_in_world
      [DoAddToCart 1 "clothing"; DoAddToCart 1 "clothing"; SaveSettles 0 None;
       DoUpdateQuantity 1 (-2); DoAddToCart 101 "service"; DoRemoveFromCart 7] Hok)).
  - destruct (proj2 (cart_invariant_preserved signed_in_world [DoAddToCart 1 "clothing"] Hok)
                user1 1 "clothing" default_clothing designer_tshirt 0%nat
                (mkCartItem designer_tshirt 1) eq_refl eq_refl eq_refl eq_refl)
      as (Hcart & _).
    rewrite Hcart. reflexivity.
Defined.

(** [addItem(p)] twice on an empty cart gives one line of quantity 2. *)
Example add_twice_one_line :
  (fun line => (item_id line, quantity line)) <$>
    cart (store (world (steps signed_in_machine
      (cart_event <$> [DoAddToCart 1 "clothing"; DoAddToCart 1 "clothing"]))))
  = [(1, 2)].
Proof. reflexivity. Qed.

(** ** C3: a cart load that settles after a logout *)

(** C3, as stated, fails: [user1] has a saved cart, signs in and out
    again before the load settles; when it settles the cart is the saved
    one, not the empty sequence, although nobody is signed in. *)
Lemma stale_load_not_discarded :
  cart (store (world (login_then_logout returning_customer_world user1))) = []
  /\ currentUser (store (world (stale_load_settles returning_customer_world user1 None))) = None
  /\ cart (store (world (stale_load_settles returning_customer_world user1 None))) <> [].
Proof. split_and!; [reflexivity | reflexivity | discriminate]. Qed.

(** C3, amended. A login for [u] followed by a logout before the load
    settles leaves the cart empty, nobody signed in and the load parked.
    When the load then settles, nobody is signed in still, and its result
    is applied as it is: the cart becomes the record stored remotely for
    [u], or the empty sequence when there is none or the read failed. *)
Theorem stale_load_is_applied (w0 : World) (u : User) (fault : option Error) :
  let before := login_then_logout w0 u in
  let after := stale_load_settles w0 u fault in
  cart (store (world before)) = []
  /\ currentUser (store (world before)) = None
  /\ length (parked before) = 1%nat
  /\ currentUser (store (world after)) = None
  /\ isAdmin (store (world after)) = false
  /\ parked after = []
  /\ cart (store (world after))
     = match fault with
       | None => default [] (remote (env w0) !! ("carts/" ++ uid u))
       | Some _ => []
       end.
Proof.
  unfold stale_load_settles, login_then_logout, steps. cbn [fold_left step].
  unfold_js. destruct w0 as [[ps c os cs ae cu adm] a p e]. cbn.
  destruct (String.eqb _ (toLowerCase (ADMIN_EMAIL a))); cbn;
    (split_and!; try reflexivity);
    destruct fault as [err|]; cbn; try reflexivity;
    destruct (remote e !! _); reflexivity.
Qed.

(** The same late load, with another user signed in meanwhile: the cart
    in memory is then the one stored for the first user. *)
Example late_load_crosses_users :
  let other := mkUser "user2" "c@d.com" in
  let mc := steps (mkMachine returning_customer_world [])
              [AuthStateChanged (Some user1); AuthStateChanged None;
               AuthStateChanged (Some other); Settle 1 None; Settle 0 None] in
  currentUser (store (world mc)) = Some other
  /\ remote (env (world mc)) !! "carts/user2" = None
  /\ Some (cart (store (world mc))) = remote (env (world mc)) !! "carts/user1".
Proof. cbv zeta. split_and!; reflexivity. Qed.

(** ** C4: the same user reported again *)

(** C4, as stated, fails: [user1] is signed in with one line in the cart
    that could only be saved locally; the same user is reported again and
    the cart comes back empty. *)
Lemma relogin_changes_cart :
  currentUser (store offline_cart_world) = Some user1
  /\ length (cart (store offline_cart_world)) = 1%nat
  /\ cart (store (relogin user1 None offline_cart_world)) = []
  /\ cart (store (relogin user1 None offline_cart_world)) <> cart (store offline_cart_world).
Proof. split_and!; [reflexivity | reflexivity | reflexivity | discriminate]. Qed.

(** C4, amended. Told again of the user it already has, the store keeps
    [currentUser], sets [isAdmin] to what the email gives, and loads the
    cart anew: the cart becomes the user's remote record, or the empty
    sequence when there is none or the read failed.  Nothing is written.
    So the session and the cart are as before whenever [isAdmin] was what
    the email gives, the read succeeds and the remote record is the cart
    in memory (no record standing for the empty cart). *)
Theorem relogin_reloads_cart (u : User) (fault : option Error) (w : World) :
  currentUser (store w) = Some u ->
  let w' := relogin u fault w in
  let loaded := match fault with
                | None => default [] (remote (env w) !! ("carts/" ++ uid u))
                | Some _ => []
                end in
  currentUser (store w') = Some u
  /\ isAdmin (store w')
     = String.eqb (toLowerCase (email u)) (toLowerCase (adminEmail (store w)))
  /\ cart (store w') = loaded
  /\ env w' = env w
  /\ (isAdmin (store w)
        = String.eqb (toLowerCase (email u)) (toLowerCase (adminEmail (store w))) ->
      loaded = cart (store w) ->
      store w' = store w).
Proof.
  intros Hu. unfold relogin, run. unfold_js. cbn.
  destruct w as [[ps c os cs ae cu adm] a p e]. cbn in *. subst cu.
  destruct fault as [err|]; cbn.
  - destruct (String.eqb _ _); cbn; (split_and!; try reflexivity);
      intros -> <-; reflexivity.
  - destruct (remote e !! _) as [saved|]; cbn;
      destruct (String.eqb _ _); cbn; (split_and!; try reflexivity);
      intros -> <-; reflexivity.
Qed.

Lemma relogin_reloads_cart_witness :
  currentUser (store (signed_in_world)) = Some user1
  /\ cart (store (relogin user1 None (signed_in_world))) = []
  /\ store (relogin user1 None (signed_in_world)) = store (signed_in_world).
Proof.
  assert (currentUser (store (signed_in_world)) = Some user1) as Hu by reflexivity.
  pose proof (relogin_reloads_cart user1 None (signed_in_world) Hu) as H.
  cbv zeta in H. destruct H as (_ & _ & Hcart & _ & Hsame).
  split_and!; [exact Hu | exact Hcart | apply Hsame; reflexivity].
Defined.

(** ** C5: logout *)

(** C5. The logout event by itself, with nothing to settle afterwards,
    leaves the in-memory cart empty, [currentUser] absent and [isAdmin]
    false in the store (and in [AuthManager]).  It makes no call: the
    promises in flight are the same, and the remote store, the record of
    every user in it, and [localStorage] are what they were. *)
Theorem logout_clears_cart_only (mc : Machine) :
  let mc' := step mc (AuthStateChanged None) in
  world mc' = AuthManager.handleUserLogout (world mc)
  /\ cart (store (world mc')) = []
  /\ currentUser (store (world mc')) = None
  /\ isAdmin (store (world mc')) = false
  /\ am_currentUser (auth (world mc')) = None
  /\ am_isAdmin (auth (world mc')) = false
  /\ parked mc' = parked mc
  /\ remote (env (world mc')) = remote (env (world mc))
  /\ localStorage (env (world mc')) = localStorage (env (world mc))
  /\ cart (store (FavsBlingStore.handleUserLogout (world mc))) = []
  /\ env (FavsBlingStore.handleUserLogout (world mc)) = env (world mc).
Proof. cbn. split_and!; reflexivity. Qed.

(** The spec's scenario: the cart is saved, cleared in memory by the
    logout, still stored remotely, and loaded back at the next login. *)
Example logout_keeps_remote_record :
  let line := mkCartItem (mkProduct 1 "Designer T-Shirt" 4500
      "https://images.unsplash.com/photo-1521572163474-6864f9cf17ab?w=400" "clothing"
      "Premium quality cotton t-shirt with unique design" (Some 50)) 1 in
  cart (store returning_customer_world) = []
  /\ remote (env returning_customer_world) !! "carts/user1" = Some [line]
  /\ cart (store (world (steps (mkMachine returning_customer_world [])
             [AuthStateChanged (Some user1); Settle 0 None]))) = [line].
Proof. split_and!; reflexivity. Qed.

(** ** C6: saving the cart *)




(** A failed remote write leaves the serialized cart in [localStorage]. *)
Example failed_save_falls_back_to_localStorage :
  localStorage (env offline_cart_world) !! "favsCart_user1"
  = Some ("[" ++ tshirt_line_text ++ "]")
  /\ remote (env offline_cart_world) !! "carts/user1" = None.
Proof. split; reflexivity. Qed.

(** ** C7: loading the cart *)

(** C7. With [u] signed in, [loadUserCart] makes one call, the read of
    [carts/<uid>], and returns normally.  The cart becomes the record
    found there, the empty sequence if there is none, and the empty
    sequence if the read fails.  Nothing of the environment is written,
    and the outcome is the same whatever [localStorage] holds: the local
    copy that [saveCart] may have left is not consulted. *)
Theorem loadUserCart_reads_remote_only (u : User) (fault : option Error) (w : World) :
  currentUser (store w) = Some u ->
  let r := run FavsBlingStore.loadUserCart [fault] w in
  outcome r = Returned tt
  /\ calls r = [RemoteOnce ("carts/" ++ uid u)]
  /\ cart (store (final r))
     = match fault with
       | None => default [] (remote (env w) !! ("carts/" ++ uid u))
       | Some _ => []
       end
  /\ env (final r) = env w
  /\ forall ls : gmap string string,
       cart (store (final (run FavsBlingStore.loadUserCart [fault]
                             (on_env (set_localStorage ls) w))))
       = cart (store (final r)).
Proof.
  intros Hu r. subst r. unfold run. unfold_js.
  destruct w as [s a p e]; cbn in *. rewrite Hu. cbn.
  destruct fault as [err|]; cbn; [done|].
  destruct (remote e !! _); cbn; done.
Qed.

Lemma loadUserCart_reads_remote_only_witness :
  currentUser (store offline_cart_world) = Some user1
  /\ cart (store (final (run FavsBlingStore.loadUserCart [None] offline_cart_world))) = []
  /\ localStorage (env offline_cart_world) !! "favsCart_user1" <> None.
Proof.
  assert (currentUser (store offline_cart_world) = Some user1) as Hu by reflexivity.
  pose proof (loadUserCart_reads_remote_only user1 None offline_cart_world Hu) as H.
  cbv zeta in H. destruct H as (_ & _ & Hcart & _).
  split_and!; [exact Hu | rewrite Hcart; reflexivity | discriminate].
Defined.

(** ** C8: the admin flag *)

Lemma N_of_lower_char c :
  N_of_ascii (lower_char c)
  = if is_upper c then (N_of_ascii c + 32)%N else N_of_ascii c.
Proof.
  unfold lower_char, is_upper. cbv zeta.
  destruct ((65 <=? N_of_ascii c) && (N_of_ascii c <=? 90))%N eqn:Hup; [|done].
  apply andb_true_iff in Hup as [_ Hle%N.leb_le].
  apply N_ascii_embedding. lia.
Qed.

Lemma lower_char_same_letter a b : lower_char a = lower_char b <-> same_letter a b.
Proof.
  assert (forall x y, x = y <-> N_of_ascii x = N_of_ascii y) as Hcode.
  { intros x y. split; [by intros ->|]. intros H.
    by rewrite <- (ascii_N_embedding x), <- (ascii_N_embedding y), H. }
  unfold same_letter. rewrite (Hcode (lower_char a)), !N_of_lower_char, (Hcode a b).
  unfold is_upper. cbv zeta.
  destruct (N.leb_spec 65 (N_of_ascii a)), (N.leb_spec (N_of_ascii a) 90),
    (N.leb_spec 65 (N_of_ascii b)), (N.leb_spec (N_of_ascii b) 90);
    cbn; split; intros Hx; try lia;
    try (destruct Hx as [Hx|[[? Hx]|[? Hx]]]; (lia || discriminate));
    try (left; lia); try (right; left; split; [done|lia]);
    try (right; right; split; [done|lia]).
Qed.

(** The code's comparison and the spec's wording agree. *)
Lemma toLowerCase_case_insensitive_equal s t :
  String.eqb (toLowerCase s) (toLowerCase t) = true <-> case_insensitive_equal s t.
Proof.
  rewrite String.eqb_eq. split.
  - revert t. induction s as [|a s IH]; intros [|b t] H; cbn in H; try discriminate.
    + constructor.
    + injection H as Hc Hs. constructor; [by apply lower_char_same_letter | by apply IH].
  - induction 1 as [|a b s t Hab _ IH]; [done|]. cbn.
    apply lower_char_same_letter in Hab. by rewrite Hab, IH.
Qed.

(** What leaves the session alone.  The cart mutators, the payment
    callback and the cart load never write [currentUser], [isAdmin] or
    the admin email, at whatever moment they are resumed. *)
Lemma keeps_session_bind_task {A B} (t : Task A) (f : A -> M B) :
  keeps_session t -> (forall a, session_neutral (f a)) ->
  forall w, session (fst (bind_task t f w)) = session w
            /\ keeps_session (snd (bind_task t f w)).
Proof.
  intros Ht Hf. induction t as [o|rq k IH] using Task_induction; intros w.
  - destruct o; cbn; [apply Hf | done].
  - cbn. split; [done|]. intros r w'.
    destruct (Ht r w') as [Hs Hk]. specialize (IH r w' Hk).
    destruct (k r w') as [w'' t']. cbn in *.
    destruct (IH w'') as [IH1 IH2]. split; [congruence | done].
Qed.

Lemma keeps_session_catch_task {A} (t : Task A) (h : Error -> M A) :
  keeps_session t -> (forall e, session_neutral (h e)) ->
  forall w, session (fst (catch_task t h w)) = session w
            /\ keeps_session (snd (catch_task t h w)).
Proof.
  intros Ht Hh. induction t as [o|rq k IH] using Task_induction; intros w.
  - destruct o; cbn; [done | apply Hh].
  - cbn. split; [done|]. intros r w'.
    destruct (Ht r w') as [Hs Hk]. specialize (IH r w' Hk).
    destruct (k r w') as [w'' t']. cbn in *.
    destruct (IH w'') as [IH1 IH2]. split; [congruence | done].
Qed.

Lemma session_neutral_bind {A B} (m : M A) (f : A -> M B) :
  session_neutral m -> (forall a, session_neutral (f a)) -> session_neutral (bind m f).
Proof.
  intros Hm Hf w. unfold bind. destruct (Hm w) as [H1 H2].
  destruct (m w) as [w' t]. cbn in *.
  destruct (keeps_session_bind_task t f H2 Hf w') as [H3 H4]. split; [congruence|done].
Qed.

Lemma session_neutral_try_catch {A} (body : M A) (h : Error -> M A) :
  session_neutral body -> (forall e, session_neutral (h e)) ->
  session_neutral (try_catch body h).
Proof.
  intros Hm Hh w. unfold try_catch. destruct (Hm w) as [H1 H2].
  destruct (body w) as [w' t]. cbn in *.
  destruct (keeps_session_catch_task t h H2 Hh w') as [H3 H4]. split; [congruence|done].
Qed.

Lemma session_neutral_modify (f : World -> World) :
  (forall w, session (f w) = session w) -> session_neutral (modify f).
Proof. intros Hf w. by split; [apply Hf|]. Qed.

Lemma session_neutral_gets {A} (f : World -> A) : session_neutral (gets f).
Proof. by intros w. Qed.

Lemma session_neutral_ret {A} (a : A) : session_neutral (ret a).
Proof. by intros w. Qed.

Lemma session_neutral_throw {A} (e : Error) : session_neutral (@throw A e).
Proof. by intros w. Qed.

Lemma session_neutral_await rq : session_neutral (await rq).
Proof. intros w. split; [done|]. intros [v|e] w'; by cbn. Qed.

Ltac session_neutral :=
  unfold FavsBlingStore.handlePaymentSuccess, FavsBlingStore.addToCart,
    FavsBlingStore.updateQuantity, FavsBlingStore.removeFromCart, FavsBlingStore.clearCart,
    FavsBlingStore.requireAuthForAction, FavsBlingStore.saveCart,
    FavsBlingStore.loadUserCart, FavsBlingStore.updateCustomerStats,
    FavsBlingStore.saveOrders, FavsBlingStore.saveCustomers,
    showNotification, showAuthOverlay, console_report, localStorage_setItem,
    mbind, M_bind, mret, M_ret;
  repeat first
    [ apply session_neutral_ret
    | apply session_neutral_throw
    | apply session_neutral_gets
    | apply session_neutral_await
    | apply session_neutral_modify; by intros []
    | apply session_neutral_bind; [|intros ?]
    | apply session_neutral_try_catch; [|intros ?]
    | match goal with
      | |- session_neutral (match ?x with _ => _ end) => destruct x
      | |- session_neutral (let (_, _) := ?x in _) => destruct x
      end ].

Lemma mutator_session_neutral mu : session_neutral (mutator mu).
Proof. destruct mu; cbn [mutator]; session_neutral. Qed.

Lemma handlePaymentSuccess_session_neutral reference mail amount customer phone address :
  session_neutral
    (FavsBlingStore.handlePaymentSuccess reference mail amount customer phone address).
Proof. session_neutral. Qed.

Lemma loadUserCart_session_neutral : session_neutral FavsBlingStore.loadUserCart.
Proof. session_neutral. Qed.

Lemma serve_session rq fault w : session (fst (serve rq fault w)) = session w.
Proof. destruct fault, rq; cbn; try done. by destruct (parsed_body response). Qed.

Lemma handleUserLogin_session user w :
  currentUser (store (fst (FavsBlingStore.handleUserLogin user w))) = Some user
  /\ isAdmin (store (fst (FavsBlingStore.handleUserLogin user w)))
     = String.eqb (toLowerCase (email user)) (toLowerCase (adminEmail (store w)))
  /\ adminEmail (store (fst (FavsBlingStore.handleUserLogin user w))) = adminEmail (store w)
  /\ auth (fst (FavsBlingStore.handleUserLogin user w)) = auth w
  /\ keeps_session (snd (FavsBlingStore.handleUserLogin user w)).
Proof.
  unfold FavsBlingStore.handleUserLogin, mbind, M_bind, mret, M_ret.
  unfold bind at 1. cbn. unfold bind at 1. cbn. unfold bind at 1. cbn.
  match goal with
  | |- context [bind FavsBlingStore.loadUserCart ?f ?w1] =>
      assert (session_neutral (bind FavsBlingStore.loadUserCart f)) as Hrest
        by session_neutral;
      destruct (Hrest w1) as [Hs Hk];
      destruct (bind FavsBlingStore.loadUserCart f w1) as [w2 t]
  end.
  cbn in *. unfold session in Hs. cbn in Hs. injection Hs as H1 H2 H3 H4.
  split_and!; (done || congruence).
Qed.

Lemma park_keeps_session t ts :
  keeps_session t -> Forall keeps_session ts -> Forall keeps_session (park t ts).
Proof.
  intros Ht Hts. destruct t; cbn [park]; [done|].
  apply Forall_app. split; [done|]. by constructor.
Qed.

Lemma flag_event_step (mc : Machine) (ev : FlagEvent) (admin : string) :
  adminEmail (store (world mc)) = admin ->
  Forall keeps_session (parked mc) ->
  isAdmin (store (world (step mc (flag_event ev))))
  = flag_after admin (isAdmin (store (world mc))) ev
  /\ adminEmail (store (world (step mc (flag_event ev)))) = admin
  /\ Forall keeps_session (parked (step mc (flag_event ev))).
Proof.
  intros Hadmin Hparked.
  destruct ev as [[[user|]|mu|reference mail amount customer phone address|i fault]|];
    cbn [flag_event page_event flag_after step].
  - unfold AuthManager.onAuthStateChanged, AuthManager.handleUserLogin.
    match goal with
    | |- context [FavsBlingStore.handleUserLogin user ?w1] =>
        destruct (handleUserLogin_session user w1) as (H1 & H2 & H3 & H4 & H5);
        destruct (FavsBlingStore.handleUserLogin user w1) as [w2 t]
    end.
    cbn in *. destruct (am_isAdmin (auth w2)); cbn;
      (split_and!; [congruence | congruence | by apply park_keeps_session]).
  - cbn. split_and!; done.
  - destruct (mutator_session_neutral mu (world mc)) as [Hs Hk].
    destruct (mutator mu (world mc)) as [w' t]. cbn in *.
    unfold session in Hs. injection Hs as H1 H2 H3 H4.
    split_and!; [congruence | congruence | by apply park_keeps_session].
  - destruct (handlePaymentSuccess_session_neutral reference mail amount customer phone
                address (world mc)) as [Hs Hk].
    destruct (FavsBlingStore.handlePaymentSuccess _ _ _ _ _ _ (world mc)) as [w' t].
    cbn in *. unfold session in Hs. injection Hs as H1 H2 H3 H4.
    split_and!; [congruence | congruence | by apply park_keeps_session].
  - destruct (parked mc !! i) as [[o|rq k]|] eqn:Hi; [done| |done].
    pose proof (serve_session rq fault (world mc)) as Hserve.
    destruct (serve rq fault (world mc)) as [w1 r]. cbn in Hserve.
    rewrite Forall_forall in Hparked.
    pose proof (Hparked _ (list_elem_of_lookup_2 _ _ _ Hi)) as Hk. cbn in Hk.
    destruct (Hk r w1) as [Hs Hk']. destruct (k r w1) as [w2 t]. cbn in *.
    assert (session w2 = session (world mc)) as Hsame by congruence.
    unfold session in Hsame. injection Hsame as H1 H2 H3 H4.
    split_and!; [congruence | congruence |].
    apply park_keeps_session; [done|]. apply Forall_delete. by apply Forall_forall.
  - unfold_js. cbn. split_and!; done.
Qed.

Lemma flag_events_steps (evs : list FlagEvent) (mc : Machine) (admin : string) :
  adminEmail (store (world mc)) = admin ->
  Forall keeps_session (parked mc) ->
  isAdmin (store (world (steps mc (flag_event <$> evs))))
  = fold_left (flag_after admin) evs (isAdmin (store (world mc))).
Proof.
  revert mc. induction evs as [|ev evs IH]; intros mc Hadmin Hparked; [done|].
  cbn. destruct (flag_event_step mc ev admin Hadmin Hparked) as (H1 & H2 & H3).
  rewrite <- H1. by apply IH.
Qed.

(** C8, as stated, fails in its last clause: [forceAdminMode], which the
    page exposes as [window.forceAdmin], sets [isAdmin] with nobody signed
    in, and with a user signed in whose email is not the admin email. *)
Lemma isAdmin_set_without_admin_email :
  currentUser (store (fst (FavsBlingStore.forceAdminMode fresh_world))) = None
  /\ isAdmin (store (fst (FavsBlingStore.forceAdminMode fresh_world))) = true
  /\ currentUser (store (fst (FavsBlingStore.forceAdminMode signed_in_world)))
     = Some user1
  /\ ~ case_insensitive_equal (email user1) (adminEmail (store signed_in_world))
  /\ isAdmin (store (fst (FavsBlingStore.forceAdminMode signed_in_world))) = true.
Proof.
  split_and!; try reflexivity.
  rewrite <- toLowerCase_case_insensitive_equal. discriminate.
Qed.

(** C8, amended. Whenever a signed-in user is reported, whatever the
    store held before (an [isAdmin] forced by hand included) and however
    the cart load goes, [isAdmin] ends up true exactly when the user's
    email equals the configured admin email up to case, and false
    otherwise; it is so as soon as the handler has run its first part.
    [AuthManager] computes its own flag the same way from [ADMIN_EMAIL].
    One other signal sets the flag: [forceAdminMode] makes it true whoever
    is signed in, or nobody.  Over any run of the page (identity reports,
    cart mutators, payment callbacks, promises settling and calls of
    [forceAdminMode]) the flag is what the last identity report gave, a
    sign-out giving false, unless [forceAdminMode] was called since, and
    then it is true; nothing else changes it. *)
Theorem isAdmin_from_email_unless_forced
    (user : User) (faults : list (option Error)) (evs : list FlagEvent) (w : World) :
  (isAdmin (store (final (run (FavsBlingStore.handleUserLogin user) faults w))) = true
     <-> case_insensitive_equal (email user) (adminEmail (store w)))
  /\ (isAdmin (store (fst (FavsBlingStore.handleUserLogin user w))) = true
     <-> case_insensitive_equal (email user) (adminEmail (store w)))
  /\ (am_isAdmin (auth (fst (AuthManager.handleUserLogin user w))) = true
     <-> case_insensitive_equal (email user) (ADMIN_EMAIL (auth w)))
  /\ (isAdmin (store (fst (AuthManager.handleUserLogin user w))) = true
     <-> case_insensitive_equal (email user) (adminEmail (store w)))
  /\ currentUser (store (final (run (FavsBlingStore.handleUserLogin user) faults w)))
     = Some user
  /\ isAdmin (store (fst (FavsBlingStore.forceAdminMode w))) = true
  /\ currentUser (store (fst (FavsBlingStore.forceAdminMode w))) = currentUser (store w)
  /\ isAdmin (store (world (steps (mkMachine w []) (flag_event <$> evs))))
     = fold_left (flag_after (adminEmail (store w))) evs (isAdmin (store w)).
Proof.
  assert (isAdmin (store (world (steps (mkMachine w []) (flag_event <$> evs))))
          = fold_left (flag_after (adminEmail (store w))) evs (isAdmin (store w))) as Hrun.
  { by apply (flag_events_steps evs (mkMachine w [])). }
  revert Hrun. generalize (steps (mkMachine w []) (flag_event <$> evs)). intros mc Hrun.
  rewrite <- !toLowerCase_case_insensitive_equal.
  unfold run. unfold_js. destruct w as [[ps c os cs ae cu adm] a p e]. cbn in *.
  destruct (hd None faults) as [err|]; cbn.
  - destruct (String.eqb _ (toLowerCase ae)) eqn:E1,
      (String.eqb _ (toLowerCase (ADMIN_EMAIL a))) eqn:E2;
      cbn; rewrite ?E1, ?E2; done.
  - destruct (remote e !! _); cbn;
      destruct (String.eqb _ (toLowerCase ae)) eqn:E1,
        (String.eqb _ (toLowerCase (ADMIN_EMAIL a))) eqn:E2;
      cbn; rewrite ?E1, ?E2; done.
Qed.

(** Any case variant of the fallback admin email is an admin; another
    email is not, even after [forceAdminMode]; and a flag forced after
    the sign-in stays through cart calls until the next report. *)
Example ADMIN_in_capitals_is_admin :
  isAdmin (store (fst (FavsBlingStore.handleUserLogin
                         (mkUser "root" "ADMIN@FavsBling.com") fresh_world))) = true
  /\ isAdmin (store (fst (FavsBlingStore.handleUserLogin user1
                         (fst (FavsBlingStore.forceAdminMode fresh_world))))) = false
  /\ isAdmin (store (world (steps fresh_machine (flag_event <$>
       [OnPage (IdentityChanged (Some user1)); ForceAdminCalled;
        OnPage (PromiseSettles 0 None); OnPage (MutatorCalled (MAddToCart 1 "clothing"))]))))
     = true
  /\ isAdmin (store (world (steps fresh_machine (flag_event <$>
       [OnPage (IdentityChanged (Some user1)); ForceAdminCalled;
        OnPage (IdentityChanged (Some user1))]))))
     = false.
Proof. split_and!; reflexivity. Qed.

(** ** C9: a quantity brought to zero or below *)

(** C9. With [u] signed in and a line for [p] in the cart, a change that
    brings its quantity to zero or below (the negated quantity, for one)
    makes [updateQuantity(p, change)] the very same task as
    [removeFromCart(p)]: the same world after its first part and the same
    continuation, hence the same effects however the save goes.  The cart
    loses every line for [p], and this cart is what is written at
    [carts/<uid>]. *)
Theorem updateQuantity_to_zero_is_removeFromCart
    (u : User) (p change : Z) (i : nat) (line : CartItem)
    (faults : list (option Error)) (w : World) :
  currentUser (store w) = Some u ->
  list_find (fun item => item_id item = p) (cart (store w)) = Some (i, line) ->
  quantity line + change <= 0 ->
  let removed := filter (fun item => item_id item ≠ p) (cart (store w)) in
  FavsBlingStore.updateQuantity p change w = FavsBlingStore.removeFromCart p w
  /\ run (FavsBlingStore.updateQuantity p change) faults w
     = run (FavsBlingStore.removeFromCart p) faults w
  /\ cart (store (final (run (FavsBlingStore.updateQuantity p change) faults w))) = removed
  /\ (p ∉ item_id <$> removed)
  /\ calls (run (FavsBlingStore.updateQuantity p change) faults w)
     = [RemoteSet ("carts/" ++ uid u) removed].
Proof.
  intros Hu Hline Hle removed.
  apply list_find_Some in Hline as Hfound. destruct Hfound as (Hi & Hid & _).
  assert (FavsBlingStore.updateQuantity p change w = FavsBlingStore.removeFromCart p w) as Heq.
  { unfold FavsBlingStore.updateQuantity, FavsBlingStore.removeFromCart.
    unfold mbind, M_bind, mret, M_ret, bind, gets, modify, ret.
    destruct w as [[ps c os cs ae cu adm] a pg e]. cbn in Hu, Hi, Hline. subst cu.
    cbn. rewrite Hline. cbn.
    destruct (Z.leb_spec (quantity line + change) 0) as [_|Hgt]; [|lia].
    unfold on_store. cbn.
    by rewrite (filter_after_set_quantity _ i line _ p Hi Hid). }
  assert (forall fs,
    run (FavsBlingStore.removeFromCart p) fs w
    = mkRun (final (run (FavsBlingStore.removeFromCart p) fs w)) (Returned tt)
            [RemoteSet ("carts/" ++ uid u) removed]
    /\ cart (store (final (run (FavsBlingStore.removeFromCart p) fs w))) = removed) as Hrun.
  { intros fs. subst removed. unfold run. unfold_js.
    destruct w as [[ps c os cs ae cu adm] a pg e]. cbn in *. subst cu. cbn.
    destruct (hd None fs) as [err|]; cbn; [|done].
    destruct (storage_full e); cbn; done. }
  destruct (Hrun faults) as [Hr Hcart].
  split_and!; [exact Heq | by unfold run; rewrite Heq | | |].
  - unfold run. rewrite Heq. exact Hcart.
  - subst removed. intros (x & Hx & Hin)%list_elem_of_fmap.
    apply list_elem_of_filter in Hin as [Hne _]. by apply Hne.
  - unfold run at 1. rewrite Heq. fold (run (FavsBlingStore.removeFromCart p) faults w).
    by rewrite Hr.
Qed.

Lemma updateQuantity_to_zero_is_removeFromCart_witness :
  (quantity <$> cart (store two_shirts_world)) = [2]
  /\ run (FavsBlingStore.updateQuantity 1 (-2)) [None] two_shirts_world
     = run (FavsBlingStore.removeFromCart 1) [None] two_shirts_world
  /\ cart (store (final (run (FavsBlingStore.updateQuantity 1 (-2)) [None] two_shirts_world)))
     = [].
Proof.
  set (w := two_shirts_world).
  assert (currentUser (store w) = Some user1) as Hu by reflexivity.
  assert (exists line, list_find (fun item => item_id item = 1) (cart (store w))
                       = Some (0%nat, line) /\ quantity line + -2 <= 0) as (line & Hline & Hle).
  { eexists. split; [reflexivity|]. cbn. lia. }
  pose proof (updateQuantity_to_zero_is_removeFromCart user1 1 (-2) 0 line [None] w
                Hu Hline Hle) as H.
  cbv zeta in H. destruct H as (_ & Hrun & Hcart & _).
  split_and!; [reflexivity | exact Hrun | rewrite Hcart; reflexivity].
Defined.

(** ** C10: payment verification *)

(** C10. [handlePaymentSuccess] always returns normally.  When the
    backend does not vouch for the payment (the request fails, its body
    cannot be read, or it says [success: false]), the store is left as it
    was, cart and orders included, nothing is written to the environment
    and no cart write is sent.  Only when the verification succeeds is
    the order, holding the lines of the cart, appended to the orders; then,
    [localStorage] accepting the orders, the cart is emptied and the empty
    cart is written at [carts/<uid>] of the user signed in (if
    [localStorage] refuses the orders, the cart is kept and not written). *)
Theorem unverified_payment_keeps_cart
    (reference mail : string) (amount : Z) (customer phone address : string)
    (faults : list (option Error)) (w : World) :
  let r := run (FavsBlingStore.handlePaymentSuccess
                  reference mail amount customer phone address) faults w in
  outcome r = Returned tt
  /\ if verification_succeeds faults w reference
     then exists result,
            backend_verify (env w) reference = Some result
            /\ success result = true
            /\ orders (store (final r))
               = (orders (store w)
                  ++ [verified_order w result reference mail amount customer phone address])%list
            /\ if storage_full (env w)
               then cart (store (final r)) = cart (store w)
                    /\ filter (fun rq => is_RemoteSet rq = true) (calls r) = []
               else cart (store (final r)) = []
                    /\ match currentUser (store w) with
                       | Some u => RemoteSet ("carts/" ++ uid u) [] ∈ calls r
                       | None => True
                       end
     else store (final r) = store w
          /\ env (final r) = env w
          /\ filter (fun rq => is_RemoteSet rq = true) (calls r) = [].
Proof.
  intros r. subst r. unfold run, verification_succeeds, verified_order.
  unfold_js. destruct w as [[ps c os cs ae cu adm] a pg [rem ls full yes back clock]]. cbn.
  destruct faults as [|[err0|] faults]; cbn.
  all: destruct (back reference) as [[ok msg dat]|] eqn:Hback; cbn.
  all: try (split_and!; reflexivity).
  all: try (destruct faults as [|[err1|] faults]; cbn).
  all: try (split_and!; reflexivity).
  all: destruct ok; cbn.
  all: try (split_and!; reflexivity).
  all: (split; [|eexists; split; [reflexivity|split; [reflexivity|]]]).
  all: destruct full; cbn.
  all: try reflexivity.
  all: try (split_and!; reflexivity).
  all: destruct (list_find _ cs) as [[i cust]|]; cbn.
  all: destruct cu as [u|]; cbn.
  all: try (destruct (hd None faults) as [err2|]; cbn).
  all: try reflexivity.
  all: (split; [reflexivity | split; [reflexivity|]]).
  all: try exact I.
  all: apply elem_of_cons; right; apply elem_of_cons; right; apply elem_of_cons; by left.
Qed.

(** A refused payment keeps the cart and records nothing; an accepted one
    records the order and empties the cart, in memory and remotely. *)
Example refused_then_accepted_payment :
  let pay reference :=
    final (run (FavsBlingStore.handlePaymentSuccess reference "a@b.com" 4500
                  "Ada" "0800" "Lagos") [] paying_world) in
  cart (store (pay "FB_refused")) = cart (store paying_world)
  /\ orders (store (pay "FB_refused")) = []
  /\ remote (env (pay "FB_refused")) = remote (env paying_world)
  /\ cart (store (pay "FB_paid")) = []
  /\ (order_id <$> orders (store (pay "FB_paid"))) = ["FB_paid"]
  /\ (items <$> orders (store (pay "FB_paid"))) = [cart (store paying_world)]
  /\ calls (run (FavsBlingStore.handlePaymentSuccess "FB_paid" "a@b.com" 4500
                   "Ada" "0800" "Lagos") [] paying_world)
     = [FetchVerifyPayment "FB_paid";
        ResponseJson (mkHttpResponse (backend_verify (env paying_world) "FB_paid"));
        RemoteSet "carts/user1" []].
Proof. cbv zeta. split_and!; reflexivity. Qed.


(** * Further properties of the store *)

(** ** Promises that are never rejected *)

Lemma never_throws_bind_task {A B} (t : Task A) (f : A -> M B) :
  never_throws t ->
  (forall a w, never_throws (snd (f a w))) ->
  forall w, never_throws (snd (bind_task t f w)).
Proof.
  intros Ht Hf. induction t as [o|rq k IH] using Task_induction; intros w.
  - destruct o; cbn in *; [apply Hf | done].
  - cbn. intros r w'. specialize (Ht r w'). specialize (IH r w' Ht).
    destruct (k r w') as [w'' t']. apply IH.
Qed.

Lemma never_throws_bind {A B} (m : M A) (f : A -> M B) :
  (forall w, never_throws (snd (m w))) ->
  (forall a w, never_throws (snd (f a w))) ->
  forall w, never_throws (snd (bind m f w)).
Proof.
  intros Hm Hf w. unfold bind. specialize (Hm w). destruct (m w) as [w' t].
  by apply never_throws_bind_task.
Qed.

Lemma never_throws_catch_task {A} (t : Task A) (h : Error -> M A) :
  (forall e w, never_throws (snd (h e w))) ->
  forall w, never_throws (snd (catch_task t h w)).
Proof.
  intros Hh. induction t as [o|rq k IH] using Task_induction; intros w.
  - destruct o; cbn; [done | apply Hh].
  - cbn. intros r w'. specialize (IH r w'). destruct (k r w') as [w'' t']. apply IH.
Qed.

Lemma never_throws_try_catch {A} (body : M A) (h : Error -> M A) :
  (forall e w, never_throws (snd (h e w))) ->
  forall w, never_throws (snd (try_catch body h w)).
Proof.
  intros Hh w. unfold try_catch. destruct (body w) as [w' t].
  by apply never_throws_catch_task.
Qed.

Lemma loadUserCart_never_throws w : never_throws (snd (FavsBlingStore.loadUserCart w)).
Proof.
  unfold FavsBlingStore.loadUserCart, mbind, M_bind, mret, M_ret.
  apply never_throws_bind; [done|]. intros [u|] w'; [|done].
  apply never_throws_try_catch. intros e w''. by unfold_js.
Qed.

Lemma removeFromCart_never_throws p w :
  never_throws (snd (FavsBlingStore.removeFromCart p w)).
Proof.
  unfold FavsBlingStore.removeFromCart, mbind, M_bind, mret, M_ret.
  apply never_throws_bind; [done|]. intros [u|] w'; [|done].
  apply never_throws_bind; [done|]. intros _ w''.
  apply never_throws_bind; [apply saveCart_never_throws|]. done.
Qed.

(** X1. The promises of [removeFromCart], [updateQuantity], [clearCart],
    [loadUserCart], [saveCart], [handleUserLogin] and
    [handlePaymentSuccess] are never rejected, in whatever world they are
    started and whenever and however their awaited calls settle; the one
    of [addToCart] is never rejected when the category is a key of the
    catalogue. *)
Theorem store_promises_never_rejected (w : World) :
  (forall p, never_throws (snd (FavsBlingStore.removeFromCart p w)))
  /\ (forall p change, never_throws (snd (FavsBlingStore.updateQuantity p change w)))
  /\ never_throws (snd (FavsBlingStore.clearCart w))
  /\ never_throws (snd (FavsBlingStore.loadUserCart w))
  /\ never_throws (snd (FavsBlingStore.saveCart w))
  /\ (forall user, never_throws (snd (FavsBlingStore.handleUserLogin user w)))
  /\ (forall reference mail amount customer phone address,
        never_throws (snd (FavsBlingStore.handlePaymentSuccess
                             reference mail amount customer phone address w)))
  /\ (forall p cat, is_Some (products (store w) !! cat) ->
        never_throws (snd (FavsBlingStore.addToCart p cat w))).
Proof.
  split_and!.
  - intros p. apply removeFromCart_never_throws.
  - intros p change.
    unfold FavsBlingStore.updateQuantity, mbind, M_bind, mret, M_ret.
    apply never_throws_bind; [done|]. intros [u|] w1; [|done].
    apply never_throws_bind; [done|]. intros c w2.
    destruct (list_find _ c) as [[i line]|]; [|done].
    apply never_throws_bind; [done|]. intros _ w3.
    destruct (_ <=? _)%Z; [apply removeFromCart_never_throws | apply saveCart_never_throws].
  - unfold FavsBlingStore.clearCart, mbind, M_bind, mret, M_ret.
    apply never_throws_bind; [done|]. intros [u|] w1; [|done].
    apply never_throws_bind; [done|]. intros c w2.
    destruct (_ =? _)%nat; [done|].
    apply never_throws_bind; [done|]. intros [|] w3; [|done].
    apply never_throws_bind; [done|]. intros _ w4.
    apply never_throws_bind; [apply saveCart_never_throws|]. done.
  - apply loadUserCart_never_throws.
  - apply saveCart_never_throws.
  - intros user.
    unfold FavsBlingStore.handleUserLogin, mbind, M_bind, mret, M_ret.
    apply never_throws_bind; [done|]. intros _ w1.
    apply never_throws_bind; [done|]. intros admin w2.
    apply never_throws_bind; [done|]. intros _ w3.
    apply never_throws_bind; [apply loadUserCart_never_throws|]. intros _ w4.
    apply never_throws_bind; [done|]. intros [|] w5; done.
  - intros reference mail amount customer phone address.
    unfold FavsBlingStore.handlePaymentSuccess.
    apply never_throws_try_catch. intros e w'. by unfold_js.
  - intros p cat [l Hl].
    unfold FavsBlingStore.addToCart, FavsBlingStore.requireAuthForAction,
      mbind, M_bind, mret, M_ret.
    unfold bind at 1. unfold bind at 1. cbn.
    destruct (currentUser (store w)) as [u|]; cbn; [|done].
    rewrite Hl. destruct (List.find _ l) as [product|]; [|done].
    apply never_throws_bind; [done|]. intros c w2.
    apply never_throws_bind; [by destruct (list_find _ c) as [[i line]|]|]. intros _ w3.
    apply never_throws_bind; [apply saveCart_never_throws|]. done.
Qed.

Lemma store_promises_never_rejected_witness :
  is_Some (products (store signed_in_world) !! "clothing")
  /\ never_throws (snd (FavsBlingStore.addToCart 1 "clothing" signed_in_world)).
Proof.
  assert (is_Some (products (store signed_in_world) !! "clothing")) as Hcat
    by (eexists; reflexivity).
  split; [exact Hcat|].
  destruct (store_promises_never_rejected signed_in_world) as (_&_&_&_&_&_&_&Hadd).
  exact (Hadd 1 "clothing" Hcat).
Defined.

(** ** Edge cases of the cart mutators *)

(** X2. With a user signed in, [addToCart] for a category that is not a
    key of the catalogue rejects its promise with a [TypeError] before
    anything is touched; for a known category without a product of that
    id it returns at once.  In both cases the world is exactly as before:
    no cart line, no notification, no call. *)
Theorem addToCart_unknown_product (u : User) (p : Z) (cat : string) (w : World) :
  currentUser (store w) = Some u ->
  match products (store w) !! cat with
  | None =>
      FavsBlingStore.addToCart p cat w = (w, Fin (Thrown (undefined_property "find")))
  | Some l =>
      List.find (fun x => (id x =? p)%Z) l = None ->
      FavsBlingStore.addToCart p cat w = (w, Fin (Returned tt))
  end.
Proof.
  intros Hu. unfold_js. cbn. rewrite Hu. cbn.
  destruct (products (store w) !! cat) as [l|]; cbn; [|done].
  by intros ->.
Qed.

Lemma addToCart_unknown_product_witness :
  currentUser (store signed_in_world) = Some user1
  /\ FavsBlingStore.addToCart 1 "shoes" signed_in_world
     = (signed_in_world, Fin (Thrown (undefined_property "find")))
  /\ FavsBlingStore.addToCart 9 "clothing" signed_in_world
     = (signed_in_world, Fin (Returned tt)).
Proof.
  assert (currentUser (store signed_in_world) = Some user1) as Hu by reflexivity.
  split_and!; [exact Hu | |].
  - exact (addToCart_unknown_product user1 1 "shoes" signed_in_world Hu).
  - exact (addToCart_unknown_product user1 9 "clothing" signed_in_world Hu eq_refl).
Defined.

(** X3. With a user signed in, [addToCart] for a catalogue product that
    has no line yet puts a copy of the product with quantity 1 at the end
    of the cart, the lines before it untouched, sends that cart to
    [carts/<uid>] as its only call, and announces the product by name. *)
Theorem addToCart_new_line
    (u : User) (p : Z) (cat : string) (l : list Product) (product : Product)
    (faults : list (option Error)) (w : World) :
  currentUser (store w) = Some u ->
  products (store w) !! cat = Some l ->
  List.find (fun x => (id x =? p)%Z) l = Some product ->
  list_find (fun item => item_id item = p) (cart (store w)) = None ->
  let r := run (FavsBlingStore.addToCart p cat) faults w in
  cart (store (final r)) = (cart (store w) ++ [mkCartItem product 1])%list
  /\ calls r = [RemoteSet ("carts/" ++ uid u) (cart (store w) ++ [mkCartItem product 1])%list]
  /\ outcome r = Returned tt
  /\ last (notifications (page (final r)))
     = Some ("✅ Added " ++ name product ++ " to cart!", "success").
Proof.
  intros Hu Hl Hfind Hline r. subst r. unfold run. unfold_js.
  destruct w as [[ps c os cs ae cu adm] a pg [rem ls full yes back clock]].
  cbn in Hu, Hl, Hline. subst cu. cbn. rewrite Hl. cbn. rewrite Hfind. cbn.
  rewrite Hline. cbn.
  destruct (hd None faults) as [err|]; cbn; [destruct full; cbn|];
    rewrite last_snoc; done.
Qed.

Lemma addToCart_new_line_witness :
  cart (store (final (run (FavsBlingStore.addToCart 2 "clothing") [] two_shirts_world)))
  = (cart (store two_shirts_world)
     ++ [mkCartItem casual_dress 1])%list.
Proof.
  refine (proj1 (addToCart_new_line user1 2 "clothing" default_clothing _ []
                   two_shirts_world _ _ _ _)); reflexivity.
Defined.

Lemma filter_absent_product (c : list CartItem) p :
  list_find (fun item => item_id item = p) c = None ->
  filter (fun item => item_id item ≠ p) c = c.
Proof.
  intros Hnone%list_find_None. induction Hnone as [|x c Hx _ IH]; [done|].
  rewrite filter_cons. destruct (decide (item_id x ≠ p)); [by rewrite IH | done].
Qed.

(** X4. With a user signed in and no line for [p] in the cart,
    [removeFromCart(p)] leaves the cart as it is but still writes it to
    [carts/<uid>] and announces a removal, whereas [updateQuantity(p, _)]
    does nothing at all: no write, no notification. *)
Theorem absent_product_remove_saves_update_does_not
    (u : User) (p change : Z) (faults : list (option Error)) (w : World) :
  currentUser (store w) = Some u ->
  list_find (fun item => item_id item = p) (cart (store w)) = None ->
  let r := run (FavsBlingStore.removeFromCart p) faults w in
  cart (store (final r)) = cart (store w)
  /\ calls r = [RemoteSet ("carts/" ++ uid u) (cart (store w))]
  /\ last (notifications (page (final r))) = Some ("🗑️ Item removed from cart", "info")
  /\ FavsBlingStore.updateQuantity p change w = (w, Fin (Returned tt)).
Proof.
  intros Hu Hline r. subst r. unfold run. unfold_js.
  destruct w as [[ps c os cs ae cu adm] a pg [rem ls full yes back clock]].
  cbn in Hu, Hline. subst cu. cbn. rewrite Hline. cbn.
  pose proof (filter_absent_product c p Hline) as Hsame.
  rewrite Hsame.
  destruct (hd None faults) as [err|]; cbn; [destruct full; cbn|];
    rewrite last_snoc; (split_and!; [exact Hsame|done..]).
Qed.

Lemma absent_product_remove_saves_update_does_not_witness :
  calls (run (FavsBlingStore.removeFromCart 7) [] two_shirts_world)
  = [RemoteSet ("carts/" ++ uid user1) (cart (store two_shirts_world))]
  /\ FavsBlingStore.updateQuantity 7 1 two_shirts_world
     = (two_shirts_world, Fin (Returned tt)).
Proof.
  assert (currentUser (store two_shirts_world) = Some user1) as Hu by reflexivity.
  assert (list_find (fun item => item_id item = 7) (cart (store two_shirts_world)) = None)
    as Hline by reflexivity.
  pose proof (absent_product_remove_saves_update_does_not user1 7 1 [] two_shirts_world
                Hu Hline) as H.
  cbv zeta in H. destruct H as (_ & Hcalls & _ & Hupd).
  split; [exact Hcalls | exact Hupd].
Defined.

(** X5. With a user signed in, a line for [p] in the cart and a change
    that leaves its quantity positive, [updateQuantity] rewrites the
    quantity of that line only (the first with that id), keeps every
    other line and the order, writes the cart to [carts/<uid>] as its only
    call, and shows no notification. *)
Theorem updateQuantity_positive
    (u : User) (p change : Z) (i : nat) (line : CartItem)
    (faults : list (option Error)) (w : World) :
  currentUser (store w) = Some u ->
  list_find (fun item => item_id item = p) (cart (store w)) = Some (i, line) ->
  0 < quantity line + change ->
  let r := run (FavsBlingStore.updateQuantity p change) faults w in
  let c' := <[i := set_quantity (quantity line + change) line]> (cart (store w)) in
  cart (store (final r)) = c'
  /\ calls r = [RemoteSet ("carts/" ++ uid u) c']
  /\ c' !! i = Some (set_quantity (quantity line + change) line)
  /\ (forall j, j ≠ i -> c' !! j = cart (store w) !! j)
  /\ item_id <$> c' = item_id <$> cart (store w)
  /\ notifications (page (final r)) = notifications (page w).
Proof.
  intros Hu Hline Hpos r c'. subst r c'. unfold run. unfold_js.
  apply list_find_Some in Hline as Hfound. destruct Hfound as (Hi & Hid & _).
  destruct w as [[ps c os cs ae cu adm] a pg [rem ls full yes back clock]].
  cbn in Hu, Hline, Hi. subst cu. cbn. rewrite Hline. cbn.
  destruct (Z.leb_spec (quantity line + change) 0) as [Hle|_]; [lia|].
  assert (item_id <$> <[i:=set_quantity (quantity line + change) line]> c = item_id <$> c)
    as Hids.
  { rewrite list_fmap_insert. cbn. apply list_insert_id. by rewrite list_lookup_fmap, Hi. }
  assert (<[i:=set_quantity (quantity line + change) line]> c !! i
          = Some (set_quantity (quantity line + change) line)) as Hnew.
  { apply list_lookup_insert_eq. by eapply lookup_lt_Some. }
  cbn.
  destruct (hd None faults) as [err|]; cbn; [destruct full; cbn|].
  all: (split_and!; [done|done|exact Hnew| |exact Hids|done]);
    intros j Hj; by apply list_lookup_insert_ne.
Qed.

Lemma updateQuantity_positive_witness :
  cart (store (final (run (FavsBlingStore.updateQuantity 1 (-1)) [] two_shirts_world)))
  = [mkCartItem designer_tshirt 1].
Proof.
  assert (0 < quantity (mkCartItem designer_tshirt 2) + -1) as Hpos by (cbn; lia).
  exact (proj1 (updateQuantity_positive user1 1 (-1) 0 (mkCartItem designer_tshirt 2) []
                  two_shirts_world eq_refl eq_refl Hpos)).
Defined.

(** X6. With a user signed in, [clearCart] on an empty cart only says so;
    on a cart with lines it asks for confirmation: declined, the world is
    exactly as before; accepted, the cart becomes empty and the empty
    cart is written to [carts/<uid>] as the only call. *)
Theorem clearCart_cases (u : User) (faults : list (option Error)) (w : World) :
  currentUser (store w) = Some u ->
  match cart (store w) with
  | [] =>
      FavsBlingStore.clearCart w
      = (fst (showNotification "🛒 Cart is already empty" "info" w), Fin (Returned tt))
  | _ :: _ =>
      if confirm_reply (env w)
      then cart (store (final (run FavsBlingStore.clearCart faults w))) = []
           /\ calls (run FavsBlingStore.clearCart faults w)
              = [RemoteSet ("carts/" ++ uid u) []]
           /\ outcome (run FavsBlingStore.clearCart faults w) = Returned tt
      else FavsBlingStore.clearCart w = (w, Fin (Returned tt))
  end.
Proof.
  intros Hu. unfold run. unfold_js.
  destruct w as [[ps c os cs ae cu adm] a pg [rem ls full yes back clock]].
  cbn in Hu. subst cu. cbn. destruct c as [|x c]; cbn; [done|].
  destruct yes; cbn; [|done].
  destruct (hd None faults) as [err|]; cbn; [destruct full; cbn|]; done.
Qed.

Lemma clearCart_cases_witness :
  cart (store (final (run FavsBlingStore.clearCart [] two_shirts_world))) = []
  /\ calls (run FavsBlingStore.clearCart [] two_shirts_world)
     = [RemoteSet ("carts/" ++ uid user1) []].
Proof.
  pose proof (clearCart_cases user1 [] two_shirts_world eq_refl) as H.
  cbn in H. destruct H as (Hcart & Hcalls & _). split; [exact Hcart | exact Hcalls].
Defined.

(** ** Carts of different users *)

Lemma mutator_parks_save (mu : Mutator) (u : User) (w : World) :
  currentUser (store w) = Some u ->
  env (fst (mutator mu w)) = env w /\ save_of u (snd (mutator mu w)).
Proof.
  intros Hu.
  destruct w as [[ps c os cs ae cu adm] a pg [rem ls full yes back clock]].
  cbn in Hu. subst cu.
  assert (forall (f : unit -> M unit) w1,
            (forall x w2, env (fst (f x w2)) = env w2) ->
            currentUser (store w1) = Some u ->
            env (fst (bind FavsBlingStore.saveCart f w1)) = env w1
            /\ save_of u (snd (bind FavsBlingStore.saveCart f w1))) as Hsave.
  { intros f [s1 a1 p1 e1] Hf Hu1. cbn in Hu1. unfold_js. cbn. rewrite Hu1. cbn.
    split; [done|]. split; [by eexists|].
    intros [[]|err] [s2 a2 p2 e2]; cbn.
    - rewrite Hf. cbn. split; [done|]. by destruct (currentUser s2).
    - destruct (currentUser s2) as [u2|]; cbn; [destruct (storage_full e2); cbn|];
        rewrite Hf; cbn; (split; [done|]); try done.
      intros key Hkey. by rewrite lookup_insert_ne. }
  destruct mu as [p cat|p|p d|]; cbn [mutator].
  - unfold FavsBlingStore.addToCart, FavsBlingStore.requireAuthForAction.
    unfold_monad. cbn.
    destruct (ps !! cat) as [l|]; cbn; [|done].
    destruct (List.find _ l) as [product|]; cbn; [|done].
    destruct (list_find _ c) as [[i line]|]; cbn; by apply Hsave.
  - unfold FavsBlingStore.removeFromCart. unfold_monad. cbn. by apply Hsave.
  - unfold FavsBlingStore.updateQuantity, FavsBlingStore.removeFromCart.
    unfold_monad. cbn.
    destruct (list_find _ c) as [[i line]|]; cbn; [|done].
    destruct (_ <=? _)%Z; cbn.
    + by apply Hsave.
    + unfold_js. cbn. split; [done|]. split; [by eexists|].
      intros [[]|err] [s2 a2 p2 e2]; cbn.
      * split; [done|]. by destruct (currentUser s2).
      * destruct (currentUser s2) as [u2|]; cbn; [destruct (storage_full e2); cbn|];
          (split; [done|]); try done.
        intros key Hkey. by rewrite lookup_insert_ne.
  - unfold FavsBlingStore.clearCart. unfold_monad. cbn.
    destruct c as [|x c]; cbn; [done|]. destruct yes; cbn; [|done]. by apply Hsave.
Qed.

Lemma login_parks_load (user : option User) (w : World) :
  env (fst (AuthManager.onAuthStateChanged user w)) = env w
  /\ load_in_flight (snd (AuthManager.onAuthStateChanged user w)).
Proof.
  destruct user as [u|]; [|done]. unfold_js.
  destruct w as [[ps c os cs ae cu adm] [au aadm aemail] pg e]. cbn.
  destruct (String.eqb _ (toLowerCase aemail)); cbn.
  all: split; [done|]; split; [by eexists|].
  all: intros [[l|]|err] [s2 a2 p2 e2]; cbn; by destruct (isAdmin s2).
Qed.

Lemma reports_park_loads (reports : list (option User)) (mc : Machine) :
  env (world (steps mc (AuthStateChanged <$> reports))) = env (world mc)
  /\ exists loads,
       parked (steps mc (AuthStateChanged <$> reports)) = (parked mc ++ loads)%list
       /\ Forall load_in_flight loads.
Proof.
  unfold steps. revert mc. induction reports as [|user reports IH]; intros mc.
  - split; [done|]. exists []. by rewrite app_nil_r.
  - cbn. destruct (IH (step mc (AuthStateChanged user))) as (Henv & loads & Hparked & Hloads).
    destruct (login_parks_load user (world mc)) as [H1 H2].
    cbn [step] in *.
    destruct (AuthManager.onAuthStateChanged user (world mc)) as [w1 t]. cbn in *.
    split; [congruence|].
    destruct t as [o|rq k]; cbn [park] in *.
    + by exists loads.
    + exists (Await rq k :: loads). split; [by rewrite Hparked, <- app_assoc|].
      by constructor.
Qed.

(** X7. A signed-in user [u] calls a cart mutator; the identity provider
    then reports whatever changes it likes; then the oldest promise in
    flight settles or fails.  Of the remote store only [carts/<uid>] of
    [u] can have changed: the records of every other user are as before.
    Of [localStorage] only the entry [favsCart_<uid>] of the user who is
    signed in when the promise settles can have changed, and nothing at
    all when nobody is; with no report in between, that user is [u]. *)
Theorem mutator_writes_own_records_only
    (mu : Mutator) (u : User) (reports : list (option User)) (fault : option Error)
    (w : World) :
  currentUser (store w) = Some u ->
  let called := step (mkMachine w []) (Invoke (mutator mu)) in
  let later := steps called (AuthStateChanged <$> reports) in
  let settled := step later (Settle 0 fault) in
  (forall path, path ≠ "carts/" ++ uid u ->
     remote (env (world settled)) !! path = remote (env w) !! path)
  /\ (forall v, uid v ≠ uid u ->
     remote (env (world settled)) !! ("carts/" ++ uid v)
     = remote (env w) !! ("carts/" ++ uid v))
  /\ match currentUser (store (world later)) with
     | Some u' =>
         forall key, key ≠ "favsCart_" ++ uid u' ->
           localStorage (env (world settled)) !! key = localStorage (env w) !! key
     | None => localStorage (env (world settled)) = localStorage (env w)
     end
  /\ (reports = [] -> currentUser (store (world later)) = Some u).
Proof.
  intros Hu called later settled.
  destruct (mutator_parks_save mu u w Hu) as [Henv Hsave].
  destruct (mutator_session_neutral mu w) as [Hsession _].
  destruct (reports_park_loads reports called) as (Hlater & loads & Hparked & Hloads).
  fold later in Hlater, Hparked.
  assert (env (world later) = env w) as Hsame.
  { rewrite Hlater. subst called. cbn. by destruct (mutator mu w). }
  assert (parked called = park (snd (mutator mu w)) []) as Hcalled.
  { subst called. cbn. by destruct (mutator mu w). }
  assert ((forall path, path ≠ "carts/" ++ uid u ->
             remote (env (world settled)) !! path = remote (env w) !! path)
          /\ match currentUser (store (world later)) with
             | Some u' =>
                 forall key, key ≠ "favsCart_" ++ uid u' ->
                   localStorage (env (world settled)) !! key = localStorage (env w) !! key
             | None => localStorage (env (world settled)) = localStorage (env w)
             end) as [Hremote Hlocal].
  { subst settled. cbn [step]. rewrite Hparked, Hcalled.
    destruct (snd (mutator mu w)) as [o|rq k]; cbn [park app].
    - destruct (loads !! 0%nat) as [[o'|rq k]|] eqn:Hload; cbn.
      1, 3: rewrite Hsame; split; [done | by destruct (currentUser (store (world later)))].
      rewrite Forall_forall in Hloads.
      destruct (Hloads _ (list_elem_of_lookup_2 _ _ _ Hload)) as [[path ->] Hk]. cbn in Hk.
      destruct fault as [err|]; cbn;
        match goal with
        | |- context [k ?r (world later)] =>
            specialize (Hk r (world later)); destruct (k r (world later)) as [w2 t]
        end;
        cbn in *; rewrite Hk, Hsame;
        (split; [done | by destruct (currentUser (store (world later)))]).
    - destruct Hsave as [[c ->] Hk]. cbn.
      destruct fault as [err|]; cbn;
        match goal with
        | |- context [k ?r ?w1] =>
            destruct (Hk r w1) as [Hr Hl]; destruct (k r w1) as [w2 t]
        end;
        cbn in *; rewrite Hr, ?Hsame;
        (split; [intros path Hpath; by rewrite ?lookup_insert_ne|]);
        (destruct (currentUser (store (world later))) as [u'|]; [|by rewrite Hl, ?Hsame]);
        intros key Hkey; by rewrite (Hl key Hkey), ?Hsame. }
  split_and!; [exact Hremote | | exact Hlocal |].
  - intros v Hv. apply Hremote. intros Heq. apply Hv.
    by apply (inj (String.append "carts/")) in Heq.
  - intros ->. subst later called. cbn. unfold session in Hsession.
    destruct (mutator mu w) as [w1 t]. cbn in *. congruence.
Qed.
Lemma mutator_writes_own_records_only_witness :
  currentUser (store shared_browser_world) = Some user1
  /\ remote (env shared_browser_world) !! "carts/user2" = Some [mkCartItem casual_dress 1]
  /\ remote (env (world (step (steps (step (mkMachine shared_browser_world [])
                                       (Invoke (mutator (MAddToCart 1 "clothing"))))
                                 (AuthStateChanged <$> [None; Some user2]))
                          (Settle 0 (Some network_down))))) !! "carts/user2"
     = Some [mkCartItem casual_dress 1]
  /\ localStorage (env (world (step (steps (step (mkMachine shared_browser_world [])
                                       (Invoke (mutator (MAddToCart 1 "clothing"))))
                                 (AuthStateChanged <$> [None; Some user2]))
                          (Settle 0 (Some network_down))))) !! "favsCart_user1"
     = None.
Proof.
  assert (currentUser (store shared_browser_world) = Some user1) as Hu by reflexivity.
  pose proof (mutator_writes_own_records_only (MAddToCart 1 "clothing") user1
                [None; Some user2] (Some network_down) shared_browser_world Hu) as H.
  cbv zeta in H. destruct H as (_ & Hothers & Hlocal & _).
  assert (currentUser (store (world (steps (step (mkMachine shared_browser_world [])
                                       (Invoke (mutator (MAddToCart 1 "clothing"))))
                                 (AuthStateChanged <$> [None; Some user2]))))
          = Some user2) as Hnow by reflexivity.
  rewrite Hnow in Hlocal.
  split_and!; [exact Hu | reflexivity | |].
  - etrans; [apply (Hothers user2); discriminate | reflexivity].
  - etrans; [apply (Hlocal "favsCart_user1"); discriminate | reflexivity].
Defined.

(** ** Saving, signing out, signing in *)

(** X8. If the remote record of the signed-in user is the cart in memory,
    it still is after any cart mutator whose save goes through: what a
    later load would give back is the cart the mutator left. *)
Theorem mutator_keeps_remote_in_step
    (mu : Mutator) (u : User) (faults : list (option Error)) (w : World) :
  currentUser (store w) = Some u ->
  remote_in_step u w ->
  hd None faults = None ->
  remote_in_step u (final (run (mutator mu) faults w))
  /\ currentUser (store (final (run (mutator mu) faults w))) = Some u.
Proof.
  intros Hu Hstep Hok. unfold remote_in_step in *. unfold run.
  destruct w as [[ps c os cs ae cu adm] a pg [rem ls full yes back clock]].
  cbn in Hu, Hstep. subst cu.
  destruct mu as [p cat|p|p d|]; cbn [mutator]; unfold_js; cbn.
  - destruct (ps !! cat) as [l|]; cbn; [|done].
    destruct (List.find _ l) as [product|]; cbn; [|done].
    destruct (list_find _ c) as [[i line]|]; cbn; rewrite Hok; cbn;
      by rewrite lookup_insert_eq.
  - rewrite Hok; cbn. by rewrite lookup_insert_eq.
  - destruct (list_find _ c) as [[i line]|]; cbn; [|done].
    destruct (_ <=? _)%Z; cbn; rewrite Hok; cbn; by rewrite lookup_insert_eq.
  - destruct c as [|x c]; cbn; [done|]. destruct yes; cbn; [|done].
    rewrite Hok; cbn. by rewrite lookup_insert_eq.
Qed.

Lemma mutator_keeps_remote_in_step_witness :
  remote_in_step user1 two_shirts_world
  /\ remote_in_step user1
       (final (run (mutator (MUpdateQuantity 1 (-2))) [] two_shirts_world)).
Proof.
  assert (remote_in_step user1 two_shirts_world) as Hstep by reflexivity.
  split; [exact Hstep|].
  exact (proj1 (mutator_keeps_remote_in_step (MUpdateQuantity 1 (-2)) user1 []
                  two_shirts_world eq_refl Hstep eq_refl)).
Defined.

(** X9. If the remote record of the signed-in user is the cart in memory,
    then signing out and in again, the load going through, brings back
    exactly that cart: the session is the same user, nothing is left
    parked and the remote store is untouched. *)
Theorem sign_out_and_in_restores_cart (u : User) (w : World) :
  currentUser (store w) = Some u ->
  remote_in_step u w ->
  let mc := steps (mkMachine w [])
              [AuthStateChanged None; AuthStateChanged (Some u); Settle 0 None] in
  cart (store (world mc)) = cart (store w)
  /\ currentUser (store (world mc)) = Some u
  /\ am_currentUser (auth (world mc)) = Some u
  /\ parked mc = []
  /\ remote (env (world mc)) = remote (env w).
Proof.
  intros Hu Hstep. unfold remote_in_step in Hstep.
  unfold steps. cbn [fold_left step]. unfold_js.
  destruct w as [[ps c os cs ae cu adm] a pg [rem ls full yes back clock]].
  cbn in Hu, Hstep. subst cu. cbn.
  destruct (String.eqb _ (toLowerCase (ADMIN_EMAIL a))); cbn;
    destruct (rem !! _) as [saved|]; cbn in *; subst;
    destruct (String.eqb _ (toLowerCase ae)); cbn; done.
Qed.

Lemma sign_out_and_in_restores_cart_witness :
  cart (store (world (steps (mkMachine two_shirts_world [])
         [AuthStateChanged None; AuthStateChanged (Some user1); Settle 0 None])))
  = cart (store two_shirts_world).
Proof.
  exact (proj1 (sign_out_and_in_restores_cart user1 two_shirts_world eq_refl eq_refl)).
Defined.

(** X10. A mutator's save that is still in flight when the user signs out
    and then fails is kept nowhere: the remote store and [localStorage]
    are as before the mutator was called, and the cart in memory is empty.
    If instead the write goes through after the sign-out, [localStorage]
    is untouched and nothing but the record of that user has changed. *)
Theorem save_settling_after_sign_out
    (mu : Mutator) (u : User) (fault : option Error) (w : World) :
  currentUser (store w) = Some u ->
  let mc := steps (mkMachine w [])
              [Invoke (mutator mu); AuthStateChanged None; Settle 0 fault] in
  cart (store (world mc)) = []
  /\ currentUser (store (world mc)) = None
  /\ localStorage (env (world mc)) = localStorage (env w)
  /\ match fault with
     | Some _ => remote (env (world mc)) = remote (env w)
     | None => forall path, path ≠ "carts/" ++ uid u ->
                 remote (env (world mc)) !! path = remote (env w) !! path
     end.
Proof.
  intros Hu. unfold steps. cbn [fold_left step].
  destruct w as [[ps c os cs ae cu adm] a pg [rem ls full yes back clock]].
  cbn in Hu. subst cu.
  destruct mu as [p cat|p|p d|]; cbn [mutator]; unfold_js; cbn.
  - destruct (ps !! cat) as [l|]; cbn; [|by destruct fault].
    destruct (List.find _ l) as [product|]; cbn; [|by destruct fault].
    destruct (list_find _ c) as [[i line]|]; cbn;
      (destruct fault as [err|]; cbn; [done|]);
      (split_and!; try done); intros k Hk; by rewrite lookup_insert_ne.
  - destruct fault as [err|]; cbn; [done|].
    split_and!; try done. intros k Hk; by rewrite lookup_insert_ne.
  - destruct (list_find _ c) as [[i line]|]; cbn; [|by destruct fault].
    destruct (_ <=? _)%Z; cbn;
      (destruct fault as [err|]; cbn; [done|]);
      (split_and!; try done); intros k Hk; by rewrite lookup_insert_ne.
  - destruct c as [|x c]; cbn; [by destruct fault|]. destruct yes; cbn; [|by destruct fault].
    destruct fault as [err|]; cbn; [done|].
    split_and!; try done. intros k Hk; by rewrite lookup_insert_ne.
Qed.

Lemma save_settling_after_sign_out_witness :
  localStorage (env (world (steps (mkMachine two_shirts_world [])
     [Invoke (mutator (MAddToCart 2 "clothing")); AuthStateChanged None;
      Settle 0 (Some network_down)])))
  = localStorage (env two_shirts_world)
  /\ remote (env (world (steps (mkMachine two_shirts_world [])
     [Invoke (mutator (MAddToCart 2 "clothing")); AuthStateChanged None;
      Settle 0 (Some network_down)])))
  = remote (env two_shirts_world).
Proof.
  pose proof (save_settling_after_sign_out (MAddToCart 2 "clothing") user1
                (Some network_down) two_shirts_world eq_refl) as H.
  cbv zeta in H. destruct H as (_ & _ & Hls & Hrem). split; [exact Hls | exact Hrem].
Defined.

(** ** AuthManager: who may do what *)

(** X11. [requireAdminAccess] answers true exactly when [AuthManager]
    holds a user and its admin flag, and then changes nothing.  Without a
    user it asks to log in and opens the overlay; with a user who is not
    admin it shows the admin-denied error and leaves the overlay as it
    is.  [requireAuthForAction] answers true exactly when there is a
    user.  Neither touches the store or the environment, and a refusal
    adds its notification again each time it is asked. *)
Theorem requireAdminAccess_cases (action : string) (w : World) :
  let (w', granted) := AuthManager_guards.requireAdminAccess action w in
  let (w'', allowed) := AuthManager_guards.requireAuthForAction action w in
  (granted = true <-> is_Some (am_currentUser (auth w)) /\ am_isAdmin (auth w) = true)
  /\ (allowed = true <-> is_Some (am_currentUser (auth w)))
  /\ store w' = store w /\ env w' = env w /\ auth w' = auth w
  /\ store w'' = store w /\ env w'' = env w /\ auth w'' = auth w
  /\ match am_currentUser (auth w), am_isAdmin (auth w) with
     | None, _ =>
         notifications (page w')
         = (notifications (page w) ++ [("🔐 Please log in to " +:+ action, "info")])%list
         /\ authOverlay (page w') = true
         /\ w'' = w'
     | Some _, false =>
         notifications (page w')
         = (notifications (page w)
            ++ [("🔒 Admin access required for this action", "error")])%list
         /\ authOverlay (page w') = authOverlay (page w)
         /\ w'' = w
     | Some _, true => w' = w /\ w'' = w
     end.
Proof.
  unfold AuthManager_guards.requireAdminAccess, AuthManager_guards.requireAuthForAction,
    AuthManager_guards.isAuthenticated.
  destruct w as [s [[u|] adm ae] pg e]; cbn; [destruct adm; cbn|].
  all: split_and!; try done.
  all: unfold is_Some; split; [intros Hyes; try discriminate; eauto | ].
  all: first [ by intros [_ [=]] | by intros [[? [=]] _] | by intros [? [=]] | done ].
Qed.

(** X12. Once the identity provider has reported a user, [AuthManager]
    grants admin access exactly when the email of that user equals
    [ADMIN_EMAIL] up to case; once it has reported a sign-out it grants
    neither admin access nor any protected action. *)
Theorem admin_access_after_session_change (user : User) (action : string) (w : World) :
  (snd (AuthManager_guards.requireAdminAccess action
          (fst (AuthManager.onAuthStateChanged (Some user) w))) = true
     <-> case_insensitive_equal (email user) (ADMIN_EMAIL (auth w)))
  /\ snd (AuthManager_guards.requireAuthForAction action
            (fst (AuthManager.onAuthStateChanged (Some user) w))) = true
  /\ snd (AuthManager_guards.requireAdminAccess action
            (fst (AuthManager.onAuthStateChanged None w))) = false
  /\ snd (AuthManager_guards.requireAuthForAction action
            (fst (AuthManager.onAuthStateChanged None w))) = false.
Proof.
  rewrite <- toLowerCase_case_insensitive_equal.
  unfold AuthManager_guards.requireAdminAccess, AuthManager_guards.requireAuthForAction,
    AuthManager_guards.isAuthenticated.
  unfold_js. destruct w as [[ps c os cs ae cu adm] a pg e]. cbn.
  destruct (String.eqb _ (toLowerCase ae)) eqn:E1,
    (String.eqb _ (toLowerCase (ADMIN_EMAIL a))) eqn:E2; cbn; rewrite ?E1, ?E2; done.
Qed.

(** ** What the cart panel shows *)

Lemma fold_left_sum {A} (f : A -> Z) (c : list A) (a : Z) :
  fold_left (fun sum x => sum + f x) c a = a + fold_left (fun sum x => sum + f x) c 0.
Proof.
  revert a. induction c as [|x c IH]; intros a; cbn [fold_left]; [lia|].
  rewrite (IH (a + f x)), (IH (0 + f x)). lia.
Qed.

Lemma sum_snoc {A} (f : A -> Z) (c : list A) (x : A) :
  fold_left (fun sum x => sum + f x) (c ++ [x]) 0
  = fold_left (fun sum x => sum + f x) c 0 + f x.
Proof. by rewrite fold_left_app. Qed.

Lemma sum_insert {A} (f : A -> Z) (c : list A) (i : nat) (x y : A) :
  c !! i = Some x ->
  fold_left (fun sum x => sum + f x) (<[i := y]> c) 0
  = fold_left (fun sum x => sum + f x) c 0 - f x + f y.
Proof.
  revert i. induction c as [|z c IH]; intros i Hi; [done|].
  destruct i as [|i]; simpl in Hi.
  - simplify_eq. change (<[0%nat:=y]> (x :: c)) with (y :: c). cbn [fold_left].
    rewrite (fold_left_sum f c (0 + f y)), (fold_left_sum f c (0 + f x)). lia.
  - change (<[S i:=y]> (z :: c)) with (z :: <[i:=y]> c). cbn [fold_left].
    rewrite (fold_left_sum f (<[i:=y]> c)), (fold_left_sum f c (0 + f z)), (IH i Hi). lia.
Qed.

Lemma sum_at_least_length {A} (f : A -> Z) (c : list A) :
  Forall (fun x => 1 <= f x) c ->
  Z.of_nat (length c) <= fold_left (fun sum x => sum + f x) c 0.
Proof.
  induction 1 as [|x c Hx _ IH]; cbn [fold_left length]; [lia|].
  rewrite (fold_left_sum f c (0 + f x)). lia.
Qed.

(** X13. With a user signed in, [addToCart] for a catalogue product
    raises the badge of the cart by exactly one and leaves the checkout
    button enabled.  The subtotal goes up by the price kept in the cart
    line when the product already has one (not by the price the catalogue
    has now), and by the catalogue price when the line is new. *)
Theorem addToCart_display
    (u : User) (p : Z) (cat : string) (l : list Product) (product : Product)
    (faults : list (option Error)) (w : World) :
  currentUser (store w) = Some u ->
  products (store w) !! cat = Some l ->
  List.find (fun x => (id x =? p)%Z) l = Some product ->
  let before := FavsBlingStore_display.updateCartDisplay (store w) in
  let after := FavsBlingStore_display.updateCartDisplay
                 (store (final (run (FavsBlingStore.addToCart p cat) faults w))) in
  FavsBlingStore_display.cartBadge after = FavsBlingStore_display.cartBadge before + 1
  /\ FavsBlingStore_display.subtotal after
     = FavsBlingStore_display.subtotal before
       + match list_find (fun item => item_id item = p) (cart (store w)) with
         | Some (_, line) => price (snapshot line)
         | None => price product
         end
  /\ FavsBlingStore_display.totalAmount after = FavsBlingStore_display.subtotal after
  /\ FavsBlingStore_display.checkoutBtn_disabled after = false.
Proof.
  intros Hu Hl Hfind before after. subst before after.
  unfold FavsBlingStore_display.updateCartDisplay, FavsBlingStore_display.totalItems,
    FavsBlingStore_display.cart_subtotal.
  unfold run. unfold_js.
  destruct w as [[ps c os cs ae cu adm] a pg [rem ls full yes back clock]].
  cbn in Hu, Hl. subst cu. cbn. rewrite Hl. cbn. rewrite Hfind. cbn.
  destruct (list_find _ c) as [[i line]|] eqn:Hline; cbn.
  - apply list_find_Some in Hline as (Hi & _ & _).
    assert (length (<[i:=set_quantity (quantity line + 1) line]> c) ≠ 0%nat) as Hlen.
    { rewrite length_insert. apply lookup_lt_Some in Hi. lia. }
    apply Nat.eqb_neq in Hlen.
    pose proof (sum_insert quantity c i line (set_quantity (quantity line + 1) line) Hi)
      as Hq.
    pose proof (sum_insert (fun x => price (snapshot x) * quantity x) c i line
                  (set_quantity (quantity line + 1) line) Hi) as Hp.
    cbn in Hq, Hp.
    destruct (hd None faults) as [err|]; cbn; [destruct full; cbn|];
      rewrite Hlen, Hq, Hp; (split_and!; [lia|lia|done|done]).
  - assert (length (c ++ [mkCartItem product 1]) ≠ 0%nat) as Hlen.
    { rewrite length_app. cbn. lia. }
    apply Nat.eqb_neq in Hlen.
    pose proof (sum_snoc quantity c (mkCartItem product 1)) as Hq.
    pose proof (sum_snoc (fun x => price (snapshot x) * quantity x) c
                  (mkCartItem product 1)) as Hp.
    cbn in Hq, Hp.
    destruct (hd None faults) as [err|]; cbn; [destruct full; cbn|];
      rewrite Hlen, Hq, Hp; (split_and!; [lia|lia|done|done]).
Qed.

Lemma addToCart_display_witness :
  FavsBlingStore_display.cartBadge
    (FavsBlingStore_display.updateCartDisplay
       (store (final (run (FavsBlingStore.addToCart 1 "clothing") [] two_shirts_world))))
  = FavsBlingStore_display.cartBadge
      (FavsBlingStore_display.updateCartDisplay (store two_shirts_world)) + 1.
Proof.
  exact (proj1 (addToCart_display user1 1 "clothing" default_clothing designer_tshirt []
                  two_shirts_world eq_refl eq_refl eq_refl)).
Defined.

(** X14. Nobody signed in, the panel asks to authenticate and shows zero
    items, zero totals and a disabled checkout button, whatever the cart
    in memory holds.  Somebody signed in, the checkout button is disabled
    exactly when the cart has no line; and with the cart within its
    invariant, the badge counts at least one per line and the button is
    disabled exactly when the badge shows zero. *)
Theorem updateCartDisplay_cases (s : Store) :
  let v := FavsBlingStore_display.updateCartDisplay s in
  match currentUser s with
  | None => v = FavsBlingStore_display.mkCartView
                  0 FavsBlingStore_display.AuthenticationRequired 0 0 true
  | Some _ =>
      (FavsBlingStore_display.checkoutBtn_disabled v = true <-> cart s = [])
      /\ (cart_ok (cart s) ->
          Z.of_nat (length (cart s)) <= FavsBlingStore_display.cartBadge v
          /\ (FavsBlingStore_display.checkoutBtn_disabled v = true
              <-> FavsBlingStore_display.cartBadge v = 0))
  end.
Proof.
  intros v. subst v. unfold FavsBlingStore_display.updateCartDisplay.
  destruct (currentUser s) as [u|]; [|done]. cbn. split.
  - by destruct (cart s).
  - intros [_ Hq].
    pose proof (sum_at_least_length quantity (cart s) Hq) as Hlen.
    unfold FavsBlingStore_display.totalItems.
    destruct (cart s) as [|x c]; cbn in *; [done|].
    split; [lia|]. split; (done || lia).
Qed.

(** After a cart load that settled late, nobody is signed in and the
    cart is not empty: the panel shows none of it.  With two shirts in
    one line and [user1] signed in, the badge shows at least one. *)
Lemma updateCartDisplay_cases_witness :
  currentUser (store (world (stale_load_settles returning_customer_world user1 None))) = None
  /\ cart (store (world (stale_load_settles returning_customer_world user1 None)))
     = [mkCartItem designer_tshirt 1]
  /\ FavsBlingStore_display.updateCartDisplay
       (store (world (stale_load_settles returning_customer_world user1 None)))
     = FavsBlingStore_display.mkCartView
         0 FavsBlingStore_display.AuthenticationRequired 0 0 true
  /\ Z.of_nat (length (cart (store two_shirts_world)))
     <= FavsBlingStore_display.cartBadge
          (FavsBlingStore_display.updateCartDisplay (store two_shirts_world)).
Proof.
  assert (cart_ok (cart (store two_shirts_world))) as Hok.
  { split; [apply NoDup_singleton | repeat constructor; cbn; lia]. }
  split_and!; [reflexivity | reflexivity | |].
  - exact (updateCartDisplay_cases
             (store (world (stale_load_settles returning_customer_world user1 None)))).
  - exact (proj1 (proj2 (updateCartDisplay_cases (store two_shirts_world)) Hok)).
Defined.

(** ** Checkout *)

(** X15. [handleCheckout] never touches the store or the environment.  It
    opens a Paystack payment exactly when a user is signed in, name, email
    and phone are filled in, the total of the cart is not zero and the
    Paystack script is there.  The payment it opens is in naira for one
    hundred times the cart total, for the email of the form, carries the
    uid of the user, and stands in "Not provided" for an empty address. *)
Theorem handleCheckout_opens_payment
    (form : FavsBlingStore_checkout.CheckoutForm) (key ref : string) (PaystackPop : bool)
    (w : World) :
  let (w', opened) := FavsBlingStore_checkout.handleCheckout form key ref PaystackPop w in
  let total_ := FavsBlingStore_display.cart_subtotal (cart (store w)) in
  store w' = store w /\ env w' = env w /\ auth w' = auth w
  /\ (is_Some opened <->
        is_Some (currentUser (store w))
        /\ FavsBlingStore_checkout.customerName_value form ≠ EmptyString
        /\ FavsBlingStore_checkout.customerEmail_value form ≠ EmptyString
        /\ FavsBlingStore_checkout.customerPhone_value form ≠ EmptyString
        /\ total_ ≠ 0
        /\ PaystackPop = true)
  /\ match opened, currentUser (store w) with
     | Some setup, Some user =>
         FavsBlingStore_checkout.setup_amount setup = total_ * 100
         /\ FavsBlingStore_checkout.setup_currency setup = "NGN"
         /\ FavsBlingStore_checkout.setup_email setup
            = FavsBlingStore_checkout.customerEmail_value form
         /\ FavsBlingStore_checkout.closure_total setup = total_
         /\ FavsBlingStore_checkout.closure_form setup = form
         /\ FavsBlingStore_checkout.mkCustomField "User ID" "user_id" (uid user)
            ∈ FavsBlingStore_checkout.custom_fields setup
         /\ (FavsBlingStore_checkout.customerAddress_value form = EmptyString ->
             FavsBlingStore_checkout.mkCustomField "Delivery Address" "delivery_address"
               "Not provided" ∈ FavsBlingStore_checkout.custom_fields setup)
     | Some _, None => False
     | None, _ => True
     end.
Proof.
  unfold FavsBlingStore_checkout.handleCheckout, FavsBlingStore_checkout.is_empty.
  destruct form as [n m ph ad]. destruct w as [[ps c os cs ae cu adm] a pg e]. cbn.
  destruct cu as [u|]; cbn.
  2: { split_and!; try done. split; [by intros [? [=]] | by intros [[? [=]] _]]. }
  destruct (String.eqb_spec n EmptyString) as [->|Hn]; cbn.
  { split_and!; try done. split; [by intros [? [=]] | by intros (_ & ? & _)]. }
  destruct (String.eqb_spec m EmptyString) as [->|Hm]; cbn.
  { split_and!; try done. split; [by intros [? [=]] | by intros (_ & _ & ? & _)]. }
  destruct (String.eqb_spec ph EmptyString) as [->|Hph]; cbn.
  { split_and!; try done. split; [by intros [? [=]] | by intros (_ & _ & _ & ? & _)]. }
  destruct (_ =? 0)%Z eqn:Hz; cbn.
  { apply Z.eqb_eq in Hz.
    split_and!; try done. split; [by intros [? [=]] | by intros (_ & _ & _ & _ & ? & _)]. }
  apply Z.eqb_neq in Hz.
  destruct PaystackPop; cbn.
  2: { split_and!; try done. split; [by intros [? [=]] | by intros (_ & _ & _ & _ & _ & ?)]. }
  split_and!; try done.
  - do 3 (apply elem_of_cons; right). apply elem_of_cons. by left.
  - intros ->. cbn. do 2 (apply elem_of_cons; right). apply elem_of_cons. by left.
Qed.

Lemma handleCheckout_opens_payment_frame
    (form : FavsBlingStore_checkout.CheckoutForm) (key ref : string) (w : World) :
  let (w', opened) := FavsBlingStore_checkout.handleCheckout form key ref true w in
  store w' = store w
  /\ match opened with
     | Some setup =>
         FavsBlingStore_checkout.setup_amount setup
         = FavsBlingStore_display.cart_subtotal (cart (store w)) * 100
         /\ FavsBlingStore_checkout.closure_total setup
            = FavsBlingStore_display.cart_subtotal (cart (store w))
         /\ FavsBlingStore_checkout.closure_form setup = form
     | None => True
     end.
Proof.
  unfold FavsBlingStore_checkout.handleCheckout.
  destruct (currentUser (store w)) as [u|]; cbn; [|done].
  destruct (_ || _); cbn; [done|]. destruct (_ =? _)%Z; cbn; done.
Qed.

(** The order a verified payment appends, stated where the proofs below
    can share it. *)
Lemma verified_payment_appends_order
    (reference mail : string) (amount : Z) (customer phone address : string)
    (faults : list (option Error)) (w : World) :
  verification_succeeds faults w reference = true ->
  exists result,
    backend_verify (env w) reference = Some result
    /\ orders (store (final (run (FavsBlingStore.handlePaymentSuccess
                                    reference mail amount customer phone address) faults w)))
       = (orders (store w)
          ++ [verified_order w result reference mail amount customer phone address])%list.
Proof.
  unfold run, verification_succeeds, verified_order.
  unfold_js. destruct w as [[ps c os cs ae cu adm] a pg [rem ls full yes back clock]]. cbn.
  destruct faults as [|[err0|] faults]; cbn; [| done |].
  all: destruct (back reference) as [[ok msg dat]|] eqn:Hback; cbn.
  all: try (destruct faults as [|[err1|] faults]; cbn).
  all: try done.
  all: destruct ok; cbn; [intros _|done].
  all: eexists; split; [reflexivity|].
  all: destruct full; cbn; [reflexivity|].
  all: destruct (list_find _ cs) as [[i cust]|]; cbn.
  all: destruct cu as [u|]; cbn.
  all: try (destruct (hd None faults) as [err2|]; cbn).
  all: reflexivity.
Qed.

(** X16. From the checkout to the recorded order: when [handleCheckout]
    opens a payment, Paystack calls back with a reference, the backend
    vouches for it, and nothing else happens in between, the order
    appended has that reference as id, the email of the form, the lines
    of the cart as they were at checkout, and as total the sum of price
    times quantity over those lines, a hundredth of the amount charged. *)
Theorem checkout_to_order
    (form : FavsBlingStore_checkout.CheckoutForm) (key ref reference : string)
    (setup : FavsBlingStore_checkout.PaystackSetup)
    (faults : list (option Error)) (w w1 : World) :
  FavsBlingStore_checkout.handleCheckout form key ref true w = (w1, Some setup) ->
  verification_succeeds faults w1 reference = true ->
  exists order,
    last (orders (store (final (run (FavsBlingStore_checkout.paymentCallback setup reference)
                                  faults w1)))) = Some order
    /\ length (orders (store (final (run (FavsBlingStore_checkout.paymentCallback
                                            setup reference) faults w1))))
       = S (length (orders (store w)))
    /\ order_id order = reference
    /\ customerEmail order = FavsBlingStore_checkout.customerEmail_value form
    /\ items order = cart (store w)
    /\ total order = FavsBlingStore_display.cart_subtotal (items order)
    /\ FavsBlingStore_checkout.setup_amount setup = total order * 100
    /\ verified order = true.
Proof.
  intros Hcheckout Hverified.
  pose proof (handleCheckout_opens_payment_frame form key ref w) as Hframe.
  rewrite Hcheckout in Hframe. destruct Hframe as (Hstore & Hsetup).
  unfold FavsBlingStore_checkout.paymentCallback.
  destruct (verified_payment_appends_order reference
              (FavsBlingStore_checkout.customerEmail_value (FavsBlingStore_checkout.closure_form setup))
              (FavsBlingStore_checkout.closure_total setup)
              (FavsBlingStore_checkout.customerName_value (FavsBlingStore_checkout.closure_form setup))
              (FavsBlingStore_checkout.customerPhone_value (FavsBlingStore_checkout.closure_form setup))
              (FavsBlingStore_checkout.customerAddress_value (FavsBlingStore_checkout.closure_form setup))
              faults w1 Hverified) as (result & _ & Horders).
  rewrite Horders. eexists. rewrite last_snoc, length_app. cbn.
  destruct Hsetup as (Hamount & Htotal & Hform).
  rewrite Hstore, Hform, Htotal, Hamount.
  unfold verified_order. cbn. rewrite Hstore.
  split_and!; try done. lia.
Qed.

Lemma checkout_to_order_witness :
  exists order,
    last (orders (store (final (run
      (FavsBlingStore_checkout.paymentCallback checkout_setup "FB_paid") []
      (fst (FavsBlingStore_checkout.handleCheckout checkout_form "pk_test_fallbackmode"
              "FB_1_abc" true paying_world)))))) = Some order
    /\ total order = 4500.
Proof.
  destruct (checkout_to_order checkout_form "pk_test_fallbackmode" "FB_1_abc" "FB_paid"
              checkout_setup [] paying_world
              (fst (FavsBlingStore_checkout.handleCheckout checkout_form
                      "pk_test_fallbackmode" "FB_1_abc" true paying_world))
              eq_refl eq_refl) as (order & Hlast & _ & _ & _ & Hitems & Htotal & _).
  exists order. split; [exact Hlast|]. rewrite Htotal, Hitems. reflexivity.
Defined.

Lemma handleCheckout_opens_payment_example :
  snd (FavsBlingStore_checkout.handleCheckout checkout_form "pk_test_fallbackmode"
         "FB_1_abc" true paying_world) = Some checkout_setup.
Proof. reflexivity. Qed.

(** ** The two components never disagree *)

Lemma sessions_agree_session w w' :
  session w' = session w -> sessions_agree w -> sessions_agree w'.
Proof.
  unfold session, sessions_agree. intros [= H1 H2 H3 H4]. by rewrite H1, H2, H3, H4.
Qed.

Lemma page_event_sessions_agree (mc : Machine) (ev : PageEvent) (admin : string) :
  ADMIN_EMAIL (auth (world mc)) = adminEmail (store (world mc)) ->
  adminEmail (store (world mc)) = admin ->
  (sessions_agree (world mc) \/ exists user, ev = IdentityChanged user) ->
  Forall keeps_session (parked mc) ->
  sessions_agree (world (step mc (page_event ev)))
  /\ adminEmail (store (world (step mc (page_event ev)))) = admin
  /\ Forall keeps_session (parked (step mc (page_event ev))).
Proof.
  intros Hemail Hadmin Hagree Hparked.
  destruct ev as [[user|]|mu|reference mail amount customer phone address|i fault];
    cbn [page_event step].
  - unfold AuthManager.onAuthStateChanged, AuthManager.handleUserLogin.
    match goal with
    | |- context [FavsBlingStore.handleUserLogin user ?w1] =>
        destruct (handleUserLogin_session user w1) as (H1 & H2 & H3 & H4 & H5);
        destruct (FavsBlingStore.handleUserLogin user w1) as [w2 t]
    end.
    cbn in *.
    assert (sessions_agree w2) as Hw2.
    { unfold sessions_agree. rewrite H1, H2, H3, H4. cbn. by rewrite Hemail. }
    destruct (am_isAdmin (auth w2)).
    all: split_and!; [by eapply sessions_agree_session; [|exact Hw2]
                     | cbn; congruence | by apply park_keeps_session].
  - cbn. split_and!; done.
  - destruct Hagree as [Hagree|[? [=]]].
    destruct (mutator_session_neutral mu (world mc)) as [Hs Hk].
    destruct (mutator mu (world mc)) as [w' t]. cbn in *.
    split_and!; [by eapply sessions_agree_session | | by apply park_keeps_session].
    unfold session in Hs. congruence.
  - destruct Hagree as [Hagree|[? [=]]].
    destruct (handlePaymentSuccess_session_neutral reference mail amount customer phone
                address (world mc)) as [Hs Hk].
    destruct (FavsBlingStore.handlePaymentSuccess _ _ _ _ _ _ (world mc)) as [w' t].
    cbn in *.
    split_and!; [by eapply sessions_agree_session | | by apply park_keeps_session].
    unfold session in Hs. congruence.
  - destruct Hagree as [Hagree|[? [=]]].
    destruct (parked mc !! i) as [[o|rq k]|] eqn:Hi; [done| |done].
    pose proof (serve_session rq fault (world mc)) as Hserve.
    destruct (serve rq fault (world mc)) as [w1 r]. cbn in Hserve.
    rewrite Forall_forall in Hparked.
    pose proof (Hparked _ (list_elem_of_lookup_2 _ _ _ Hi)) as Hk. cbn in Hk.
    destruct (Hk r w1) as [Hs Hk']. destruct (k r w1) as [w2 t]. cbn in *.
    assert (session w2 = session (world mc)) as Hsame by congruence.
    split_and!; [by eapply sessions_agree_session | |].
    + unfold session in Hsame. congruence.
    + apply park_keeps_session; [done|]. apply Forall_delete. by apply Forall_forall.
Qed.

Lemma page_events_sessions_agree (evs : list PageEvent) (mc : Machine) (admin : string) :
  adminEmail (store (world mc)) = admin ->
  sessions_agree (world mc) ->
  Forall keeps_session (parked mc) ->
  sessions_agree (world (steps mc (page_event <$> evs)))
  /\ adminEmail (store (world (steps mc (page_event <$> evs)))) = admin.
Proof.
  revert mc. induction evs as [|ev evs IH]; intros mc Hadmin Hagree Hparked; [done|].
  cbn. pose proof Hagree as (_ & _ & Hemail & _).
  destruct (page_event_sessions_agree mc ev admin Hemail Hadmin (or_introl Hagree) Hparked)
    as (H1 & H2 & H3).
  by apply IH.
Qed.

(** X17. On a page whose two components start signed out with one
    configured admin email, whatever the identity provider reports,
    whatever cart mutators and payment callbacks are called and whenever
    their promises settle (late cart loads included), the store and
    [AuthManager] hold the same user and the same admin flag, the admin
    email is the configured one, and the flag is set exactly when a user
    is signed in whose email equals it up to case. *)
Theorem sessions_always_agree (w0 : World) (evs : list PageEvent) :
  signed_out_page w0 ->
  let w := world (steps (mkMachine w0 []) (page_event <$> evs)) in
  am_currentUser (auth w) = currentUser (store w)
  /\ am_isAdmin (auth w) = isAdmin (store w)
  /\ adminEmail (store w) = adminEmail (store w0)
  /\ (isAdmin (store w) = true
      <-> exists u, currentUser (store w) = Some u
                    /\ case_insensitive_equal (email u) (adminEmail (store w0))).
Proof.
  intros (Hu & Hadm & Hau & Haadm & Hemail) w.
  assert (sessions_agree w0) as Hagree.
  { unfold sessions_agree. by rewrite Hu, Hadm, Hau, Haadm, Hemail. }
  destruct (page_events_sessions_agree evs (mkMachine w0 []) (adminEmail (store w0))
              eq_refl Hagree ltac:(constructor)) as [(H1 & H2 & H3 & H4) H5].
  fold w in H1, H2, H3, H4, H5.
  split_and!; [done|done|done|].
  rewrite H4. destruct (currentUser (store w)) as [u|].
  - rewrite H5. rewrite toLowerCase_case_insensitive_equal.
    split; [intros H; by exists u | by intros (u' & [= <-] & H)].
  - split; [done | by intros (u' & [=] & _)].
Qed.

Lemma sessions_always_agree_witness :
  signed_out_page fresh_world
  /\ am_currentUser (auth (world (steps (mkMachine fresh_world [])
       (page_event <$> [IdentityChanged (Some user1); IdentityChanged None;
                         PromiseSettles 0 None]))))
     = currentUser (store (world (steps (mkMachine fresh_world [])
       (page_event <$> [IdentityChanged (Some user1); IdentityChanged None;
                         PromiseSettles 0 None])))).
Proof.
  assert (signed_out_page fresh_world) as Hfresh by (repeat split).
  split; [exact Hfresh|].
  exact (proj1 (sessions_always_agree fresh_world
                  [IdentityChanged (Some user1); IdentityChanged None; PromiseSettles 0 None]
                  Hfresh)).
Defined.

(** ** The admin panel *)

Ltac unfold_admin :=
  unfold FavsBlingStore_admin.handleAddItem, FavsBlingStore_admin.deleteItem,
    FavsBlingStore_admin.addCustomer, FavsBlingStore_admin.saveProducts,
    FavsBlingStore_admin.no_price in *.

Lemma find_after_none {A} (f : A -> bool) (l k : list A) :
  List.find f l = None -> List.find f (l ++ k) = List.find f k.
Proof.
  induction l as [|x l IH]; cbn; [done|]. destruct (f x); [done | exact IH].
Qed.

(** The catalogue behaves as a map: a category that was just assigned is
    found, the others are as before. *)
Lemma own_property_replace_eq key v es :
  is_Some (own_property key es) -> own_property key (replace_property key v es) = Some v.
Proof.
  induction es as [|[k v0] es IH]; cbn; [by intros [? [=]]|].
  destruct (String.eqb_spec k key) as [->|Hne]; cbn.
  - by rewrite String.eqb_refl.
  - intros H. destruct (String.eqb_spec k key); [done | by apply IH].
Qed.

Lemma own_property_replace_ne key key' v es :
  key ≠ key' -> own_property key' (replace_property key v es) = own_property key' es.
Proof.
  intros Hne. induction es as [|[k v0] es IH]; cbn; [done|].
  destruct (String.eqb_spec k key) as [->|Hk]; cbn.
  - by destruct (String.eqb_spec key key').
  - destruct (String.eqb_spec k key'); [done | exact IH].
Qed.

Lemma own_property_create_eq key v es :
  own_property key es = None -> own_property key (create_property key v es) = Some v.
Proof.
  induction es as [|[k v0] es IH]; cbn.
  - by rewrite String.eqb_refl.
  - destruct (String.eqb_spec k key) as [->|Hk]; [done|]. intros Hnone.
    destruct (listed_before key k); cbn.
    + by rewrite String.eqb_refl.
    + destruct (String.eqb_spec k key); [done | by apply IH].
Qed.

Lemma own_property_create_ne key key' v es :
  key ≠ key' -> own_property key' (create_property key v es) = own_property key' es.
Proof.
  intros Hne. induction es as [|[k v0] es IH]; cbn.
  - by destruct (String.eqb_spec key key').
  - destruct (listed_before key k); cbn.
    + by destruct (String.eqb_spec key key').
    + destruct (String.eqb_spec k key'); [done | exact IH].
Qed.

Lemma catalogue_lookup_insert_eq (ps : Catalogue) key v : <[key := v]> ps !! key = Some v.
Proof.
  destruct ps as [es]. unfold insert, lookup, Catalogue_insert, Catalogue_lookup.
  destruct (own_property key es) eqn:Hown.
  - apply own_property_replace_eq. by rewrite Hown.
  - by apply own_property_create_eq.
Qed.

Lemma catalogue_lookup_insert_ne (ps : Catalogue) key key' v :
  key ≠ key' -> <[key := v]> ps !! key' = ps !! key'.
Proof.
  intros Hne. destruct ps as [es]. unfold insert, lookup, Catalogue_insert, Catalogue_lookup.
  destruct (own_property key es).
  - by apply own_property_replace_ne.
  - by apply own_property_create_ne.
Qed.

(** The order of the keys: an assigned category keeps its place, a new
    one comes last, unless it is an array index. *)
Example catalogue_key_order :
  (entries (<["clothing" := []]> getDefaultProducts)).*1 = ["clothing"; "service"]
  /\ (entries (<["shoes" := []]> getDefaultProducts)).*1 = ["clothing"; "service"; "shoes"]
  /\ (entries (<["7" := []]> (<["shoes" := []]> getDefaultProducts))).*1
     = ["7"; "clothing"; "service"; "shoes"]
  /\ (entries (<["10" := []]> (<["7" := []]> getDefaultProducts))).*1
     = ["7"; "10"; "clothing"; "service"]
  /\ (entries (<["07" := []]> getDefaultProducts)).*1 = ["clothing"; "service"; "07"].
Proof. split_and!; reflexivity. Qed.

(** X18. Without the admin flag, [handleAddItem] and [deleteItem] return
    after the notification "Admin access required": the catalogue, the
    rest of the store and the environment are as before, whatever the
    form holds and whatever [confirm] would answer. *)
Theorem admin_actions_need_admin
    (form : FavsBlingStore_admin.ItemForm) (stamp itemId : Z) (cat : string) (w : World) :
  isAdmin (store w) = false ->
  FavsBlingStore_admin.handleAddItem form stamp w
  = (fst (showNotification "Admin access required" "error" w), Fin (Returned tt))
  /\ FavsBlingStore_admin.deleteItem itemId cat w
     = (fst (showNotification "Admin access required" "error" w), Fin (Returned tt))
  /\ store (fst (showNotification "Admin access required" "error" w)) = store w
  /\ env (fst (showNotification "Admin access required" "error" w)) = env w.
Proof. intros Hadm. unfold_admin. unfold_js. cbn. by rewrite Hadm. Qed.

Lemma admin_actions_need_admin_witness :
  isAdmin (store two_shirts_world) = false
  /\ products (store (fst (FavsBlingStore_admin.handleAddItem hat_form 1700000000000
                             two_shirts_world)))
     = products (store two_shirts_world).
Proof.
  assert (isAdmin (store two_shirts_world) = false) as Hadm by reflexivity.
  split; [exact Hadm|].
  destruct (admin_actions_need_admin hat_form 1700000000000 1 "clothing" two_shirts_world
              Hadm) as (Hadd & _ & Hstore & _).
  rewrite Hadd. cbn [fst]. by rewrite Hstore.
Defined.

Lemma replace_property_keys key v es :
  (replace_property key v es).*1 = es.*1.
Proof.
  induction es as [|[k v0] es IH]; cbn; [done|].
  destruct (String.eqb k key); cbn; [done | by rewrite IH].
Qed.

Lemma create_property_last key v es :
  array_index key = None -> create_property key v es = (es ++ [(key, v)])%list.
Proof.
  intros Hkey. induction es as [|[k v0] es IH]; cbn; [done|].
  unfold listed_before. rewrite Hkey. by rewrite IH.
Qed.

(** X19. With the admin flag and a category that is not a name every
    object inherits, [handleAddItem] refuses a form whose name, category
    or image URL is empty or whose price is not a number or is zero, and
    changes nothing then.  Any other form (a negative price included)
    appends the new item, with the timestamp as id and stock 0, to its
    category and leaves the other categories untouched: a category that
    exists keeps its place among the keys, a new one (not an array index)
    comes last.  If no item of the category had that id, looking the id
    up in the category now finds the new item.  [JSON.stringify] of the
    catalogue is put in [localStorage] under [favsProducts], every other
    entry left alone; if that throws, the item stays in memory and the
    exception leaves the handler. *)
Theorem handleAddItem_cases
    (form : FavsBlingStore_admin.ItemForm) (stamp : Z) (w : World) :
  isAdmin (store w) = true ->
  FavsBlingStore_admin.itemCategory_value form ∉ Object_prototype_names ->
  let cat := FavsBlingStore_admin.itemCategory_value form in
  let old := default [] (products (store w) !! cat) in
  let newItem :=
    mkProduct stamp (FavsBlingStore_admin.itemName_value form)
      (default 0 (FavsBlingStore_admin.itemPrice_parsed form))
      (FavsBlingStore_admin.itemImageUrl_value form) cat
      (FavsBlingStore_admin.itemDescription_value form) (Some 0) in
  let (w', t) := FavsBlingStore_admin.handleAddItem form stamp w in
  if String.eqb (FavsBlingStore_admin.itemName_value form) EmptyString
     || match FavsBlingStore_admin.itemPrice_parsed form with
        | None => true
        | Some z => (z =? 0)%Z
        end
     || String.eqb cat EmptyString
     || String.eqb (FavsBlingStore_admin.itemImageUrl_value form) EmptyString
  then store w' = store w /\ env w' = env w /\ t = Fin (Returned tt)
  else
    products (store w') !! cat = Some (old ++ [newItem])%list
    /\ (forall other, other ≠ cat -> products (store w') !! other = products (store w) !! other)
    /\ match products (store w) !! cat with
       | Some _ => (entries (products (store w'))).*1 = (entries (products (store w))).*1
       | None =>
           array_index cat = None ->
           entries (products (store w'))
           = (entries (products (store w)) ++ [(cat, [newItem])])%list
       end
    /\ (List.find (fun x => (id x =? stamp)%Z) old = None ->
        List.find (fun x => (id x =? stamp)%Z) (old ++ [newItem]) = Some newItem)
    /\ cart (store w') = cart (store w)
    /\ if storage_full (env w)
       then env w' = env w /\ exists e, t = Fin (Thrown e)
       else t = Fin (Returned tt)
            /\ localStorage (env w')
               = <["favsProducts" :=
                     JSON_stringify (FavsBlingStore_admin.products_json (products (store w')))]>
                   (localStorage (env w)).
Proof.
  intros Hadm _ cat old newItem. subst cat old newItem.
  unfold_admin. unfold_js.
  destruct form as [n pr cat img descr].
  destruct w as [[ps c os cs ae cu adm] a pg [rem ls full yes back clock]].
  cbn in Hadm. subst adm. cbn.
  destruct (_ || _ || _ || _)%bool; cbn; [done|].
  assert (List.find (fun x => (id x =? stamp)%Z) (default [] (ps !! cat)) = None ->
          List.find (fun x => (id x =? stamp)%Z)
            (default [] (ps !! cat)
             ++ [mkProduct stamp n (default 0 pr) img cat descr (Some 0)])
          = Some (mkProduct stamp n (default 0 pr) img cat descr (Some 0))) as Hfind.
  { intros Hnone. rewrite (find_after_none _ _ _ Hnone). cbn. by rewrite Z.eqb_refl. }
  assert (match ps !! cat with
          | Some _ =>
              (entries (<[cat := (default [] (ps !! cat)
                 ++ [mkProduct stamp n (default 0 pr) img cat descr (Some 0)])%list]> ps)).*1
              = (entries ps).*1
          | None =>
              array_index cat = None ->
              entries (<[cat := (default [] (ps !! cat)
                 ++ [mkProduct stamp n (default 0 pr) img cat descr (Some 0)])%list]> ps)
              = (entries ps
                 ++ [(cat, [mkProduct stamp n (default 0 pr) img cat descr (Some 0)])])%list
          end) as Hkeys.
  { destruct ps as [es]. unfold insert, lookup, Catalogue_insert, Catalogue_lookup.
    destruct (own_property cat es) as [l|]; cbn.
    - apply replace_property_keys.
    - apply create_property_last. }
  destruct full; cbn; split_and!;
    first [ done | by rewrite catalogue_lookup_insert_eq | exact Hfind | exact Hkeys
          | by eauto | intros other Hother; by rewrite catalogue_lookup_insert_ne ].
Qed.

Lemma handleAddItem_cases_witness :
  isAdmin (store boutique_world) = true
  /\ localStorage (env (fst (FavsBlingStore_admin.handleAddItem scarf_form 1700000000000
                               boutique_world))) !! "favsProducts"
     = Some (quoted
         ("{'clothing':[{'id':1,'name':'Designer T-Shirt','price':4500,"
          ++ "'image_url':'https://images.unsplash.com/photo-1521572163474-6864f9cf17ab?w=400',"
          ++ "'category':'clothing',"
          ++ "'description':'Premium quality cotton t-shirt with unique design',"
          ++ "'stock':50}],'service':[],"
          ++ "'accessories':[{'id':1700000000000,'name':'Silk Scarf','price':2000,"
          ++ "'image_url':'https://example.com/scarf.jpg','category':'accessories',"
          ++ "'description':'A scarf','stock':0}]}")).
Proof.
  assert (isAdmin (store boutique_world) = true) as Hadm by reflexivity.
  assert (FavsBlingStore_admin.itemCategory_value scarf_form ∉ Object_prototype_names)
    as Hcat by (apply (bool_decide_unpack _); vm_compute; exact I).
  split; [exact Hadm|].
  pose proof (handleAddItem_cases scarf_form 1700000000000 boutique_world Hadm Hcat) as H.
  cbv zeta in H.
  destruct (FavsBlingStore_admin.handleAddItem scarf_form 1700000000000 boutique_world)
    as [w' t].
  cbn in H. destruct H as (_ & _ & Hkeys & _ & _ & _ & Hls).
  cbn [fst]. rewrite Hls, lookup_insert_eq. f_equal.
  destruct (products (store w')) as [es]. cbn in Hkeys.
  unfold FavsBlingStore_admin.products_json. cbn [entries].
  rewrite (Hkeys eq_refl). reflexivity.
Defined.

Lemma find_in_filtered (l : list Product) (p : Z) :
  List.find (fun x => (id x =? p)%Z) (filter (fun item => id item ≠ p) l) = None.
Proof.
  induction l as [|x l IH]; [done|]. rewrite filter_cons.
  destruct (decide (id x ≠ p)) as [Hne|_]; [|exact IH].
  cbn. by destruct (Z.eqb_spec (id x) p).
Qed.

(** X20. With the admin flag, [deleteItem] does nothing when [confirm] is
    declined, and throws a [TypeError] before touching anything when the
    category is no key of the catalogue.  Otherwise it drops from that
    category every item with that id and leaves the other categories, the
    cart and the session alone: a cart line of the deleted product stays.
    From then on [addToCart] for that id and category returns without
    doing anything, a line of the product being in the cart or not. *)
Theorem deleteItem_cases (itemId : Z) (cat : string) (w : World) :
  isAdmin (store w) = true ->
  if confirm_reply (env w)
  then
    match products (store w) !! cat with
    | None =>
        FavsBlingStore_admin.deleteItem itemId cat w
        = (w, Fin (Thrown (undefined_property "filter")))
    | Some l =>
        let w' := fst (FavsBlingStore_admin.deleteItem itemId cat w) in
        products (store w') !! cat = Some (filter (fun item => id item ≠ itemId) l)
        /\ (forall other, other ≠ cat ->
              products (store w') !! other = products (store w) !! other)
        /\ cart (store w') = cart (store w)
        /\ currentUser (store w') = currentUser (store w)
        /\ (is_Some (currentUser (store w)) ->
            FavsBlingStore.addToCart itemId cat w' = (w', Fin (Returned tt)))
    end
  else FavsBlingStore_admin.deleteItem itemId cat w = (w, Fin (Returned tt)).
Proof.
  intros Hadm. unfold_admin. unfold_js.
  destruct w as [[ps c os cs ae cu adm] a pg [rem ls full yes back clock]].
  cbn in Hadm. subst adm. cbn. destruct yes; cbn; [|done].
  destruct (ps !! cat) as [l|] eqn:Hl; cbn; [|done].
  destruct full; cbn; (split_and!; [by rewrite catalogue_lookup_insert_eq | | done | done | ]).
  1, 3: intros other Hother; by rewrite catalogue_lookup_insert_ne.
  all: intros [u ->]; cbn; rewrite catalogue_lookup_insert_eq; cbn;
    by rewrite find_in_filtered.
Qed.

Lemma deleteItem_cases_witness :
  isAdmin (store admin_world) = true
  /\ (id <$> default [] (products (store (fst (FavsBlingStore_admin.deleteItem 1 "clothing"
                                                admin_world))) !! "clothing"))
     = [2; 3; 4].
Proof.
  assert (isAdmin (store admin_world) = true) as Hadm by reflexivity.
  split; [exact Hadm|].
  pose proof (deleteItem_cases 1 "clothing" admin_world Hadm) as H.
  cbn in H. destruct H as (Hcat & _). rewrite Hcat. reflexivity.
Defined.

(** ** The revenue figure *)

Lemma revenue_shift (es : list (string * list Product)) (y : Z) :
  fold_left (fun revenue kv =>
               fold_left (fun r item => r + price item * 10) (snd kv) revenue) es y
  = y + fold_left (fun revenue kv =>
                     fold_left (fun r item => r + price item * 10) (snd kv) revenue) es 0.
Proof.
  revert y. induction es as [|[k v] es IH]; intros y; cbn [fold_left snd]; [lia|].
  rewrite (IH (fold_left _ v y)), (IH (fold_left _ v 0)),
    (fold_left_sum (fun item => price item * 10) v y). lia.
Qed.

Lemma revenue_replace key l old (es : list (string * list Product)) :
  own_property key es = Some old ->
  fold_left (fun revenue kv =>
               fold_left (fun r item => r + price item * 10) (snd kv) revenue)
            (replace_property key l es) 0
  = fold_left (fun revenue kv =>
                 fold_left (fun r item => r + price item * 10) (snd kv) revenue) es 0
    - fold_left (fun r item => r + price item * 10) old 0
    + fold_left (fun r item => r + price item * 10) l 0.
Proof.
  induction es as [|[k v] es IH]; cbn [own_property replace_property]; [done|].
  destruct (String.eqb k key); cbn [fold_left snd].
  - intros [= ->]. rewrite (revenue_shift es (fold_left _ l 0)),
      (revenue_shift es (fold_left _ old 0)). lia.
  - intros Hold. rewrite (revenue_shift _ (fold_left _ v 0)), (IH Hold),
      (revenue_shift es (fold_left _ v 0)). lia.
Qed.

Lemma revenue_create key l (es : list (string * list Product)) :
  fold_left (fun revenue kv =>
               fold_left (fun r item => r + price item * 10) (snd kv) revenue)
            (create_property key l es) 0
  = fold_left (fun revenue kv =>
                 fold_left (fun r item => r + price item * 10) (snd kv) revenue) es 0
    + fold_left (fun r item => r + price item * 10) l 0.
Proof.
  induction es as [|[k v] es IH]; cbn [create_property]; [cbn; lia|].
  destruct (listed_before key k); cbn [fold_left snd].
  - rewrite (revenue_shift es (fold_left _ v (fold_left _ l 0))),
      (revenue_shift es (fold_left _ v 0)),
      (fold_left_sum (fun item => price item * 10) v (fold_left _ l 0)). lia.
  - rewrite (revenue_shift _ (fold_left _ v 0)), IH,
      (revenue_shift es (fold_left _ v 0)). lia.
Qed.

Lemma revenue_insert (ps : Catalogue) (cat : string) (l : list Product) :
  fold_left (fun revenue kv =>
               fold_left (fun r item => r + price item * 10) (snd kv) revenue)
            (entries (<[cat := l]> ps)) 0
  = fold_left (fun revenue kv =>
                 fold_left (fun r item => r + price item * 10) (snd kv) revenue)
              (entries ps) 0
    - fold_left (fun r item => r + price item * 10) (default [] (ps !! cat)) 0
    + fold_left (fun r item => r + price item * 10) l 0.
Proof.
  destruct ps as [es]. unfold insert, lookup, Catalogue_insert, Catalogue_lookup.
  cbn [entries]. destruct (own_property cat es) as [old|] eqn:Hold; cbn [default].
  - by apply revenue_replace.
  - rewrite revenue_create. cbn. lia.
Qed.

Lemma payment_keeps_products
    (reference mail : string) (amount : Z) (customer phone address : string)
    (faults : list (option Error)) (w : World) :
  products (store (final (run (FavsBlingStore.handlePaymentSuccess
                                 reference mail amount customer phone address) faults w)))
  = products (store w).
Proof.
  unfold run. unfold_js.
  destruct w as [[ps c os cs ae cu adm] a pg [rem ls full yes back clock]]. cbn.
  destruct faults as [|[err0|] faults]; cbn; [| done |].
  all: destruct (back reference) as [[ok msg dat]|] eqn:Hback; cbn.
  all: try (destruct faults as [|[err1|] faults]; cbn).
  all: try done.
  all: destruct ok; cbn; [|done].
  all: destruct full; cbn; [reflexivity|].
  all: destruct (list_find _ cs) as [[i cust]|]; cbn.
  all: destruct cu as [u|]; cbn.
  all: try (destruct (hd None faults) as [err2|]; cbn).
  all: reflexivity.
Qed.

(** X21. The revenue the admin panel shows is made from the catalogue
    alone: an item added through [handleAddItem] raises it by ten times
    the price of the item, and a payment, verified or not, leaves it as
    it was. *)
Theorem calculateTotalRevenue_ignores_orders
    (form : FavsBlingStore_admin.ItemForm) (stamp : Z) (z : Z)
    (reference mail : string) (amount : Z) (customer phone address : string)
    (faults : list (option Error)) (w : World) :
  isAdmin (store w) = true ->
  FavsBlingStore_admin.itemName_value form ≠ EmptyString ->
  FavsBlingStore_admin.itemCategory_value form ≠ EmptyString ->
  FavsBlingStore_admin.itemImageUrl_value form ≠ EmptyString ->
  FavsBlingStore_admin.itemPrice_parsed form = Some z ->
  z ≠ 0 ->
  FavsBlingStore_admin.calculateTotalRevenue
    (store (fst (FavsBlingStore_admin.handleAddItem form stamp w)))
  = FavsBlingStore_admin.calculateTotalRevenue (store w) + z * 10
  /\ FavsBlingStore_admin.calculateTotalRevenue
       (store (final (run (FavsBlingStore.handlePaymentSuccess
                             reference mail amount customer phone address) faults w)))
     = FavsBlingStore_admin.calculateTotalRevenue (store w).
Proof.
  intros Hadm Hn Hc Hi Hp Hz. split.
  - unfold FavsBlingStore_admin.calculateTotalRevenue.
    unfold_admin. unfold_js.
    destruct form as [n pr cat img descr]. cbn in Hn, Hc, Hi, Hp. subst pr.
    destruct w as [[ps c os cs ae cu adm] a pg [rem ls full yes back clock]].
    cbn in Hadm. subst adm. cbn.
    apply String.eqb_neq in Hn, Hc, Hi. apply Z.eqb_neq in Hz.
    rewrite Hn, Hc, Hi, Hz. cbn.
    destruct full; cbn; rewrite revenue_insert, fold_left_app; cbn; lia.
  - unfold FavsBlingStore_admin.calculateTotalRevenue. by rewrite payment_keeps_products.
Qed.

Lemma calculateTotalRevenue_ignores_orders_witness :
  FavsBlingStore_admin.calculateTotalRevenue
    (store (fst (FavsBlingStore_admin.handleAddItem hat_form 1700000000000 admin_world)))
  = FavsBlingStore_admin.calculateTotalRevenue (store admin_world) + 3000 * 10.
Proof.
  refine (proj1 (calculateTotalRevenue_ignores_orders hat_form 1700000000000 3000
                   "FB_x" "a@b.com" 1 "Ada" "0800" "Lagos" [] admin_world _ _ _ _ _ _));
    (reflexivity || discriminate).
Defined.

(** ** Customers *)

Lemma find_customer_id (cs : list Customer) (cid : string) :
  List.find (fun c => String.eqb (customer_id c) cid) cs = None
  <-> cid ∉ customer_id <$> cs.
Proof.
  induction cs as [|c cs IH]; cbn.
  - split; [intros _; apply not_elem_of_nil | done].
  - rewrite not_elem_of_cons. destruct (String.eqb_spec (customer_id c) cid) as [->|Hne].
    + split; [done | by intros [? _]].
    + rewrite IH. split; [by intros ?; split; [congruence|] | by intros [_ ?]].
Qed.

Lemma addCustomer_customers (customer : Customer) (w : World) :
  customers (store (fst (FavsBlingStore_admin.addCustomer customer w)))
  = match List.find (fun c => String.eqb (customer_id c) (customer_id customer))
            (customers (store w)) with
    | Some _ => customers (store w)
    | None => (customers (store w) ++ [customer])%list
    end.
Proof.
  unfold_admin. unfold_js.
  destruct w as [[ps c os cs ae cu adm] a pg [rem ls full yes back clock]]. cbn.
  destruct (List.find _ cs); cbn; [done|]. by destruct full.
Qed.

Lemma updateCustomerStats_customers (mail : string) (amount : Z) (w : World) :
  customers (store (fst (FavsBlingStore.updateCustomerStats mail amount w)))
  = match list_find (fun c => customer_email c = mail) (customers (store w)) with
    | Some (i, c) =>
        <[i := mkCustomer (customer_id c) (customer_email c) (customer_orders c + 1)
                          (totalSpent c + amount)]> (customers (store w))
    | None => customers (store w)
    end.
Proof.
  unfold_js.
  destruct w as [[ps c os cs ae cu adm] a pg [rem ls full yes back clock]]. cbn.
  destruct (list_find _ cs) as [[i cust]|]; cbn; [|done]. by destruct full.
Qed.

(** X22. [addCustomer] and [updateCustomerStats] keep the ids of the
    customers distinct.  [addCustomer] with an id that is already there
    changes nothing and writes nothing; with a new id it appends the
    customer, and adding the same customer again changes nothing more.
    [updateCustomerStats] keeps every id and every email in place. *)
Theorem customers_ids_stay_distinct (customer : Customer) (mail : string) (amount : Z)
    (w : World) :
  NoDup (customer_id <$> customers (store w)) ->
  let added := fst (FavsBlingStore_admin.addCustomer customer w) in
  let updated := fst (FavsBlingStore.updateCustomerStats mail amount w) in
  NoDup (customer_id <$> customers (store added))
  /\ (customer_id customer ∈ customer_id <$> customers (store w) ->
      FavsBlingStore_admin.addCustomer customer w = (w, Fin (Returned tt)))
  /\ (customer_id customer ∉ customer_id <$> customers (store w) ->
      customers (store added) = (customers (store w) ++ [customer])%list)
  /\ customers (store (fst (FavsBlingStore_admin.addCustomer customer added)))
     = customers (store added)
  /\ customer_id <$> customers (store updated) = customer_id <$> customers (store w)
  /\ customer_email <$> customers (store updated) = customer_email <$> customers (store w).
Proof.
  intros Hnd added updated. subst added updated.
  rewrite !addCustomer_customers, updateCustomerStats_customers.
  pose proof (find_customer_id (customers (store w)) (customer_id customer)) as Hfind.
  split_and!.
  - destruct (List.find _ (customers (store w))); [done|].
    rewrite fmap_app. apply NoDup_app. split_and!; [done| |apply NoDup_singleton].
    intros x Hx Hx'. apply list_elem_of_singleton in Hx'. cbn in Hx'. subst x.
    by apply (proj1 Hfind).
  - intros Hin. unfold_admin. unfold_js. cbn.
    destruct (List.find _ (customers (store w))); [done|]. by destruct (proj1 Hfind).
  - intros Hnot. by rewrite (proj2 Hfind Hnot).
  - destruct (List.find _ (customers (store w))) eqn:Hfound; [by rewrite Hfound|].
    destruct (List.find _ (customers (store w) ++ [customer])) eqn:Hagain; [done|].
    apply find_customer_id in Hagain. destruct Hagain.
    rewrite fmap_app. apply elem_of_app. right. by apply list_elem_of_singleton.
  - destruct (list_find _ (customers (store w))) as [[i c]|] eqn:Hc; [|done].
    apply list_find_Some in Hc as (Hi & _). rewrite list_fmap_insert. cbn.
    apply list_insert_id. by rewrite list_lookup_fmap, Hi.
  - destruct (list_find _ (customers (store w))) as [[i c]|] eqn:Hc; [|done].
    apply list_find_Some in Hc as (Hi & _). rewrite list_fmap_insert. cbn.
    apply list_insert_id. by rewrite list_lookup_fmap, Hi.
Qed.

Lemma customers_ids_stay_distinct_witness :
  NoDup (customer_id <$> customers (store regulars_world))
  /\ customers (store regulars_world) = [ada; bola]
  /\ FavsBlingStore_admin.addCustomer (mkCustomer "c2" "other@x.com" 0 0) regulars_world
     = (regulars_world, Fin (Returned tt))
  /\ customers (store (fst (FavsBlingStore_admin.addCustomer chidi regulars_world)))
     = [ada; bola; chidi]
  /\ NoDup (customer_id <$>
            customers (store (fst (FavsBlingStore_admin.addCustomer chidi regulars_world))))
  /\ (customer_id <$>
      customers (store (fst (FavsBlingStore.updateCustomerStats "bola@x.com" 500
                               regulars_world))))
     = ["c1"; "c2"].
Proof.
  assert (NoDup (customer_id <$> customers (store regulars_world))) as Hnd.
  { apply (bool_decide_unpack _). vm_compute. exact I. }
  pose proof (customers_ids_stay_distinct (mkCustomer "c2" "other@x.com" 0 0)
                "bola@x.com" 500 regulars_world Hnd) as Hsame.
  pose proof (customers_ids_stay_distinct chidi "bola@x.com" 500 regulars_world Hnd)
    as Hnew.
  cbv zeta in Hsame, Hnew.
  destruct Hsame as (_ & Hpresent & _ & _ & Hids & _).
  destruct Hnew as (Hnd' & _ & Habsent & _).
  split_and!; [exact Hnd | reflexivity | | | exact Hnd' |].
  - apply Hpresent. apply (bool_decide_unpack _). vm_compute. exact I.
  - rewrite Habsent; [reflexivity|]. apply (bool_decide_unpack _). vm_compute. exact I.
  - rewrite Hids. reflexivity.
Defined.



(** ** Loading the configuration *)

Lemma truthy_property_true key d :
  SecureConfig.truthy_property key d = true ->
  exists cfg, SecureConfig.property key d = Some cfg /\ SecureConfig.truthy cfg = true.
Proof.
  unfold SecureConfig.truthy_property.
  destruct (SecureConfig.property key d) as [cfg|]; [by eauto | done].
Qed.

Ltac by_fallback := split_and!; first [ done | by eexists | by left ].


(** ** The testing hook and the admin panel *)

(** X25. [forceAdminMode], reachable from the page as [window.forceAdmin],
    sets the admin flag of the store whoever is or is not signed in and
    leaves [AuthManager] as it was.  The store's admin actions look at that
    flag only: a filled-in add-item form is then accepted and its item
    appended, while [requireAdminAccess] of [AuthManager] answers as
    before.  The next report of the identity provider puts the flag back
    to what the email gives. *)
Theorem forceAdminMode_opens_admin_actions
    (form : FavsBlingStore_admin.ItemForm) (stamp z : Z) (action : string)
    (user : option User) (w : World) :
  FavsBlingStore_admin.itemName_value form ≠ EmptyString ->
  FavsBlingStore_admin.itemCategory_value form ≠ EmptyString ->
  FavsBlingStore_admin.itemImageUrl_value form ≠ EmptyString ->
  FavsBlingStore_admin.itemPrice_parsed form = Some z ->
  z ≠ 0 ->
  let forced := fst (FavsBlingStore.forceAdminMode w) in
  let cat := FavsBlingStore_admin.itemCategory_value form in
  isAdmin (store forced) = true
  /\ currentUser (store forced) = currentUser (store w)
  /\ auth forced = auth w
  /\ snd (AuthManager_guards.requireAdminAccess action forced)
     = snd (AuthManager_guards.requireAdminAccess action w)
  /\ products (store (fst (FavsBlingStore_admin.handleAddItem form stamp forced))) !! cat
     = Some (default [] (products (store w) !! cat)
             ++ [mkProduct stamp (FavsBlingStore_admin.itemName_value form) z
                   (FavsBlingStore_admin.itemImageUrl_value form) cat
                   (FavsBlingStore_admin.itemDescription_value form) (Some 0)])%list
  /\ isAdmin (store (fst (AuthManager.onAuthStateChanged user forced)))
     = match user with
       | Some u => String.eqb (toLowerCase (email u)) (toLowerCase (adminEmail (store w)))
       | None => false
       end.
Proof.
  intros Hn Hc Hi Hp Hz forced cat. subst forced cat.
  unfold AuthManager_guards.requireAdminAccess, AuthManager_guards.isAuthenticated.
  unfold_admin. unfold_js.
  destruct form as [n pr cat img descr]. cbn in Hn, Hc, Hi, Hp. subst pr.
  destruct w as [[ps c os cs ae cu adm] [au aadm aemail] pg [rem ls full yes back clock]].
  cbn. apply String.eqb_neq in Hn, Hc, Hi. apply Z.eqb_neq in Hz.
  rewrite Hn, Hc, Hi, Hz. cbn.
  split_and!; try done.
  - destruct au; cbn; [|done]. by destruct aadm.
  - destruct full; cbn; by rewrite catalogue_lookup_insert_eq.
  - destruct user as [u|]; cbn; [|done].
    destruct (String.eqb _ (toLowerCase aemail)); cbn; done.
Qed.

Lemma forceAdminMode_opens_admin_actions_witness :
  currentUser (store fresh_world) = None
  /\ products (store (fst (FavsBlingStore_admin.handleAddItem hat_form 1700000000000
                             (fst (FavsBlingStore.forceAdminMode fresh_world)))))
       !! "clothing"
     = Some (default_clothing
             ++ [mkProduct 1700000000000 "Sun Hat" 3000 "https://example.com/hat.jpg"
                   "clothing" "A hat" (Some 0)])%list.
Proof.
  split; [reflexivity|].
  refine (proj1 (proj2 (proj2 (proj2 (proj2
    (forceAdminMode_opens_admin_actions hat_form 1700000000000 3000 "add items" None
       fresh_world _ _ _ _ _)))))); (reflexivity || discriminate).
Defined.

(** ** A payment verified after the user has signed out *)

(** X26. If the user signs out while the payment is being verified and
    the backend then vouches for it, the order is still appended, with the
    total taken at checkout but with no lines at all, since the cart was
    emptied by the sign-out; no cart is written to the remote store, so the
    record of that user still holds what it held. *)
Theorem payment_verified_after_sign_out
    (reference mail : string) (amount : Z) (customer phone address : string)
    (result : VerificationResult) (w : World) :
  backend_verify (env w) reference = Some result ->
  success result = true ->
  let mc := steps (mkMachine w [])
              [Invoke (FavsBlingStore.handlePaymentSuccess
                         reference mail amount customer phone address);
               AuthStateChanged None; Settle 0 None; Settle 0 None] in
  exists order,
    orders (store (world mc)) = (orders (store w) ++ [order])%list
    /\ items order = []
    /\ total order = amount
    /\ order_id order = reference
    /\ cart (store (world mc)) = []
    /\ remote (env (world mc)) = remote (env w)
    /\ parked mc = [].
Proof.
  intros Hback Hsuccess. unfold steps. cbn [fold_left step]. unfold_js.
  destruct w as [[ps c os cs ae cu adm] a pg [rem ls full yes back clock]].
  cbn in Hback. cbn. rewrite Hback. cbn. destruct result as [ok msg dat].
  cbn in Hsuccess. subst ok. cbn.
  destruct full; cbn; [by eexists|].
  destruct (list_find _ cs) as [[i cust]|]; cbn; by eexists.
Qed.

Lemma payment_verified_after_sign_out_witness :
  exists order,
    orders (store (world (steps (mkMachine paying_world [])
      [Invoke (FavsBlingStore.handlePaymentSuccess "FB_paid" "a@b.com" 4500
                 "Ada" "0800" "Lagos");
       AuthStateChanged None; Settle 0 None; Settle 0 None])))
    = [order]
    /\ items order = []
    /\ remote (env paying_world) !! "carts/user1" = Some [mkCartItem designer_tshirt 1].
Proof.
  destruct (payment_verified_after_sign_out "FB_paid" "a@b.com" 4500 "Ada" "0800" "Lagos"
              (mkVerificationResult true None (Some (JObj [("status", JStr "success")])))
              paying_world eq_refl eq_refl) as (order & Horders & Hitems & _).
  exists order. split_and!; [exact Horders | exact Hitems | reflexivity].
Defined.
